(** * InquirerPy [NumberPrompt]: the dual-buffer numeric prompt

    A shallow embedding of [InquirerPy/prompts/number.py].  The prompt owns
    two [prompt_toolkit] buffers (whole part and fractional part), a focus,
    and derives its value from the buffers' text.  Buffer setters fire their
    change callbacks synchronously, so a handler is a computation over the
    whole prompt state that may raise.

    The Python builtins the prompt relies on ([int], [float], [str], [max],
    [min], [str.split]) are embedded first; floats are IEEE binary64 values
    of [SpecFloat]. *)

From Stdlib Require Import ZArith String Ascii List Bool Lia.
From Stdlib Require Import Floats.SpecFloat.
From Stdlib Require Import DecimalString DecimalZ.
Import ListNotations.

Open Scope string_scope.
Open Scope Z_scope.

(** ** Python strings *)

Module PyStr.

Definition len (s : string) : Z := Z.of_nat (String.length s).

(** [s.startswith(p)] *)
Definition startswith (s p : string) : bool := String.prefix p s.

(** [s.endswith("0")], for a one-character suffix *)
Fixpoint endswith_char (s : string) (c : ascii) : bool :=
  match s with
  | EmptyString => false
  | String a EmptyString => Ascii.eqb a c
  | String _ r => endswith_char r c
  end.

(** [s[1:]] *)
Definition tail (s : string) : string :=
  match s with
  | EmptyString => EmptyString
  | String _ r => r
  end.

(** [s[:n]] and [s[n:]] for [0 <= n] *)
Fixpoint take (n : nat) (s : string) : string :=
  match n, s with
  | S k, String a r => String a (take k r)
  | _, _ => EmptyString
  end.

Fixpoint drop (n : nat) (s : string) : string :=
  match n, s with
  | S k, String _ r => drop k r
  | _, _ => s
  end.

(** [s.split(c)] for a one-character separator: the list of the pieces
    between the separators, always at least one piece. *)
Fixpoint split_char (c : ascii) (s : string) : list string :=
  match s with
  | EmptyString => [EmptyString]
  | String a r =>
      if Ascii.eqb a c then EmptyString :: split_char c r
      else match split_char c r with
           | p :: ps => String a p :: ps
           | [] => [String a EmptyString]
           end
  end.

Definition is_space (c : ascii) : bool :=
  let n := nat_of_ascii c in
  (Nat.eqb n 32 || (Nat.leb 9 n && Nat.leb n 13))%bool.

Fixpoint lstrip (s : list ascii) : list ascii :=
  match s with
  | c :: r => if is_space c then lstrip r else s
  | [] => []
  end.

(** [s.strip()] on the character list *)
Definition strip (s : list ascii) : list ascii :=
  rev (lstrip (rev (lstrip s))).

Definition is_digit (c : ascii) : bool :=
  let n := nat_of_ascii c in (Nat.leb 48 n && Nat.leb n 57)%bool.

Definition digit_val (c : ascii) : Z := Z.of_nat (nat_of_ascii c) - 48.

Definition lower (c : ascii) : ascii :=
  let n := nat_of_ascii c in
  if (Nat.leb 65 n && Nat.leb n 90)%bool then ascii_of_nat (n + 32) else c.

(** The grammar's [digitpart ::= digit (["_"] digit)*]: the longest such
    prefix of [s] as digit values, and the rest of [s]. *)
Fixpoint digitpart (s : list ascii) : list Z * list ascii :=
  match s with
  | c :: r =>
      if is_digit c then
        let '(ds, k) :=
          match r with
          | u :: r' =>
              if (Ascii.eqb u "_"
                  && match r' with c' :: _ => is_digit c' | [] => false end)%bool
              then digitpart r'
              else digitpart r
          | [] => ([], [])
          end in
        (digit_val c :: ds, k)
      else ([], s)
  | [] => ([], [])
  end.

(** Value of a big-endian digit sequence, continuing from [acc]. *)
Definition digits_val (acc : Z) (ds : list Z) : Z :=
  fold_left (fun a d => 10 * a + d) ds acc.

End PyStr.

(** ** Python integers: [int(text)] and [str(n)] *)

Module PyInt.
Import PyStr.

(** [int(s)] for a [str] argument, base 10: surrounding whitespace is
    stripped, one optional sign, then a [digitpart] up to the end.
    [None] stands for [ValueError]. *)
Definition of_string (s : string) : option Z :=
  let body (cs : list ascii) : option Z :=
    match digitpart cs with
    | (d :: ds, []) => Some (digits_val 0 (d :: ds))
    | _ => None
    end in
  match strip (list_ascii_of_string s) with
  | c :: r =>
      if Ascii.eqb c "-" then option_map Z.opp (body r)
      else if Ascii.eqb c "+" then body r
      else body (c :: r)
  | [] => None
  end.

(** [str(n)] *)
Definition to_string (n : Z) : string :=
  NilZero.string_of_int (Z.to_int n).

End PyInt.

(** ** Python floats: IEEE binary64, [float(text)], [float(n)], [repr]

    A float is a [spec_float] at precision 53 and maximal exponent 1024.
    [float(text)] rounds the decimal it reads to the nearest double, ties
    to even; [str(x)] is the shortest digit string that reads back as
    [x], laid out as CPython's [repr] lays it out. *)

Module PyFloat.
Import PyStr.

Definition prec : Z := 53.
Definition emax : Z := 1024.

Definition float : Type := spec_float.

Definition ltb (a b : float) : bool := SFltb a b.
Definition eqb (a b : float) : bool := SFeqb a b.

(** The double nearest to [(-1)^neg * m * 10^k] (ties to even). *)
Definition of_decimal (neg : bool) (m : Z) (k : Z) : float :=
  match m with
  | Zpos p =>
      if 0 <=? k then binary_round prec emax neg (p * Z.to_pos (10 ^ k)) 0
      else SFdiv prec emax (S754_finite neg p 0)
                           (S754_finite false (Z.to_pos (10 ^ (- k))) 0)
  | _ => S754_zero neg
  end.

(** [float(n)] for an [int]: [None] stands for [OverflowError]. *)
Definition of_int (n : Z) : option float :=
  match binary_normalize prec emax n 0 false with
  | S754_infinity _ => None
  | x => Some x
  end.

Definition lower_all (cs : list ascii) : string :=
  string_of_list_ascii (map lower cs).

(** [[ ("e"|"E") [sign] digitpart ]] up to the end of the text. *)
Definition exponent (cs : list ascii) : option Z :=
  match cs with
  | [] => Some 0
  | c :: r =>
      if Ascii.eqb (lower c) "e" then
        let '(neg, r') :=
          match r with
          | u :: t =>
              if Ascii.eqb u "-" then (true, t)
              else if Ascii.eqb u "+" then (false, t)
              else (false, r)
          | [] => (false, r)
          end in
        match digitpart r' with
        | (d :: ds, []) =>
            let e := digits_val 0 (d :: ds) in
            Some (if neg then - e else e)
        | _ => None
        end
      else None
  end.

(** [float(s)] for a [str] argument; [None] stands for [ValueError]. *)
Definition of_string (s : string) : option float :=
  let '(neg, cs) :=
    match strip (list_ascii_of_string s) with
    | c :: r =>
        if Ascii.eqb c "-" then (true, r)
        else if Ascii.eqb c "+" then (false, r)
        else (false, c :: r)
    | [] => (false, [])
    end in
  let word := lower_all cs in
  if (String.eqb word "inf" || String.eqb word "infinity")%bool
  then Some (S754_infinity neg)
  else if String.eqb word "nan" then Some S754_nan
  else
    let '(ip, r1) := digitpart cs in
    let '(fp, r2) :=
      match r1 with
      | c :: t => if Ascii.eqb c "." then digitpart t else ([], r1)
      | [] => ([], r1)
      end in
    match ip, fp with
    | [], [] => None
    | _, _ =>
        match exponent r2 with
        | Some e =>
            Some (of_decimal neg (digits_val 0 (ip ++ fp))
                                 (e - Z.of_nat (List.length fp)))
        | None => None
        end
    end.

(** *** [repr]: the shortest decimal string that reads back as the float *)

(** A positive rational [n / d]. *)
Definition scale10 (n d k : Z) : Z * Z :=
  if 0 <=? k then (n * 10 ^ k, d) else (n, d * 10 ^ (- k)).

(** Is [n / d < 10 ^ p] ? *)
Definition below_pow10 (n d p : Z) : bool :=
  let '(n', d') := scale10 n d (- p) in n' <? d'.

Fixpoint adjust_up (fuel : nat) (n d p : Z) : Z :=
  match fuel with
  | O => p
  | S k => if below_pow10 n d p then p else adjust_up k n d (p + 1)
  end.

Fixpoint adjust_down (fuel : nat) (n d p : Z) : Z :=
  match fuel with
  | O => p
  | S k => if below_pow10 n d (p - 1) then adjust_down k n d (p - 1) else p
  end.

(** The decimal point position of [n / d > 0]: the [p] with
    [10 ^ (p - 1) <= n / d < 10 ^ p]. *)
Definition decpt_of (n d : Z) : Z :=
  let p0 := (Z.log2 n - Z.log2 d) * 30103 / 100000 in
  adjust_down 4 n d (adjust_up 4 n d p0).

(** Digits of a non-negative integer, most significant first. *)
Definition digits_of (c : Z) : list ascii :=
  list_ascii_of_string (NilZero.string_of_uint (N.to_uint (Z.to_N c))).

Fixpoint strip_zeros_rev (r : list ascii) : list ascii :=
  match r with
  | "0"%char :: t => strip_zeros_rev t
  | _ => r
  end.

Definition strip_trailing_zeros (ds : list ascii) : list ascii :=
  rev (strip_zeros_rev (rev ds)).

(** Search for the least number of significant digits [nd .. 17] at
    which one of the two [nd]-digit neighbours of [x = n / d] reads back
    as [x]; of two such neighbours the nearer one is taken. *)
Fixpoint shortest_from (fuel : nat) (x : float) (n d p nd : Z)
  : list ascii * Z :=
  let '(n', d') := scale10 n d (nd - p) in
  let lo := n' / d' in
  let hi := lo + 1 in
  let ok c := match x, of_decimal false c (p - nd) with
              | S754_finite _ m e, S754_finite _ m' e' =>
                  (Pos.eqb m m' && Z.eqb e e')%bool
              | _, _ => false
              end in
  let out c :=
    let ds := digits_of c in
    (strip_trailing_zeros ds, p + (Z.of_nat (List.length ds) - nd)) in
  let nearer :=
    match 2 * n' ?= (2 * lo + 1) * d' with
    | Lt => lo
    | Gt => hi
    | Eq => if Z.even lo then lo else hi
    end in
  match fuel with
  | O => out nearer
  | S k =>
      match ok lo, ok hi with
      | true, true => out nearer
      | true, false => out lo
      | false, true => out hi
      | false, false => shortest_from k x n d p (nd + 1)
      end
  end.

(** Digits and decimal point position of the finite float [m * 2 ^ e]. *)
Definition shortest (m : positive) (e : Z) : list ascii * Z :=
  let '(n, d) := if 0 <=? e then (Zpos m * 2 ^ e, 1) else (Zpos m, 2 ^ (- e)) in
  shortest_from 16 (S754_finite false m e) n d (decpt_of n d) 1.

Definition zeros (k : Z) : list ascii := repeat "0"%char (Z.to_nat k).

(** The [repr] layout: exponent notation when [decpt <= -4] or
    [decpt > 16], positional notation with at least one fractional digit
    otherwise. *)
Definition layout (ds : list ascii) (decpt : Z) : list ascii :=
  if ((decpt <=? -4) || (16 <? decpt))%bool then
    let ex := decpt - 1 in
    let exd := digits_of (Z.abs ex) in
    let exd := if Nat.ltb (List.length exd) 2 then "0"%char :: exd else exd in
    let mant := match ds with
                | [c] => [c]
                | c :: r => c :: "."%char :: r
                | [] => []
                end in
    mant ++ "e"%char :: (if ex <? 0 then "-"%char else "+"%char) :: exd
  else if decpt <=? 0 then
    "0"%char :: "."%char :: zeros (- decpt) ++ ds
  else if Z.of_nat (List.length ds) <=? decpt then
    ds ++ zeros (decpt - Z.of_nat (List.length ds)) ++ [ "."%char; "0"%char ]
  else
    firstn (Z.to_nat decpt) ds ++ "."%char :: skipn (Z.to_nat decpt) ds.

(** [str(x)] (the same as [repr(x)]) for a float. *)
Definition to_string (x : float) : string :=
  match x with
  | S754_nan => "nan"
  | S754_infinity s => if s then "-inf" else "inf"
  | S754_zero s => if s then "-0.0" else "0.0"
  | S754_finite s m e =>
      let '(ds, decpt) := shortest m e in
      string_of_list_ascii
        ((if s then ["-"%char] else []) ++ layout ds decpt)
  end.

End PyFloat.

(** ** Numbers: [Union[int, float]] *)

Inductive num : Type :=
| PInt (n : Z)
| PFloat (x : PyFloat.float).

Module PyNum.

(** Exact comparison of an [int] with a [float], as Python does it. *)
Definition int_lt_float (n : Z) (x : PyFloat.float) : bool :=
  match x with
  | S754_nan => false
  | S754_infinity s => negb s
  | S754_zero _ => n <? 0
  | S754_finite s m e =>
      let v := if s then Zneg m else Zpos m in
      if 0 <=? e then n <? v * 2 ^ e else n * 2 ^ (- e) <? v
  end.

Definition float_lt_int (x : PyFloat.float) (n : Z) : bool :=
  match x with
  | S754_nan => false
  | S754_infinity s => s
  | S754_zero _ => 0 <? n
  | S754_finite s m e =>
      let v := if s then Zneg m else Zpos m in
      if 0 <=? e then v * 2 ^ e <? n else v <? n * 2 ^ (- e)
  end.

(** [a < b] *)
Definition lt (a b : num) : bool :=
  match a, b with
  | PInt n, PInt k => n <? k
  | PInt n, PFloat y => int_lt_float n y
  | PFloat x, PInt k => float_lt_int x k
  | PFloat x, PFloat y => PyFloat.ltb x y
  end.

(** [max(a, b)]: the first argument unless the second is greater. *)
Definition max (a b : num) : num := if lt a b then b else a.

(** [min(a, b)]: the first argument unless the second is smaller. *)
Definition min (a b : num) : num := if lt b a then b else a.

(** [str(v)] *)
Definition str (v : num) : string :=
  match v with
  | PInt n => PyInt.to_string n
  | PFloat x => PyFloat.to_string x
  end.

End PyNum.

(** ** The prompt state *)

(** A [prompt_toolkit] buffer, as far as the prompt uses it. *)
Record Buffer : Type := mkBuffer {
  text : string;
  cursor_position : Z
}.

(** The two buffers of the prompt. *)
Inductive BufferRef : Type := WholeBuffer | IntegralBuffer.

(** The two windows that can hold the focus. *)
Inductive Window : Type := WholeWindow | IntegralWindow.

Record NumberPrompt : Type := mkNumberPrompt {
  _float : bool;
  _max : option num;
  _min : option num;
  _default : num;
  _ending_zero : bool;
  _whole_buffer : Buffer;
  _integral_buffer : Buffer;
  _whole_width : Z;
  _integral_width : Z;
  _focus : Window;
  _invalid : bool;
  _invalid_message : string
}.

Definition _value_error_message : string := "Remove any non-integer value".

Definition buffer (b : BufferRef) (p : NumberPrompt) : Buffer :=
  match b with
  | WholeBuffer => _whole_buffer p
  | IntegralBuffer => _integral_buffer p
  end.

Definition with_buffer (b : BufferRef) (v : Buffer) (p : NumberPrompt)
  : NumberPrompt :=
  match b with
  | WholeBuffer =>
      mkNumberPrompt (_float p) (_max p) (_min p) (_default p)
        (_ending_zero p) v (_integral_buffer p) (_whole_width p)
        (_integral_width p) (_focus p) (_invalid p) (_invalid_message p)
  | IntegralBuffer =>
      mkNumberPrompt (_float p) (_max p) (_min p) (_default p)
        (_ending_zero p) (_whole_buffer p) v (_whole_width p)
        (_integral_width p) (_focus p) (_invalid p) (_invalid_message p)
  end.

Definition with_width (b : BufferRef) (w : Z) (p : NumberPrompt)
  : NumberPrompt :=
  match b with
  | WholeBuffer =>
      mkNumberPrompt (_float p) (_max p) (_min p) (_default p)
        (_ending_zero p) (_whole_buffer p) (_integral_buffer p) w
        (_integral_width p) (_focus p) (_invalid p) (_invalid_message p)
  | IntegralBuffer =>
      mkNumberPrompt (_float p) (_max p) (_min p) (_default p)
        (_ending_zero p) (_whole_buffer p) (_integral_buffer p)
        (_whole_width p) w (_focus p) (_invalid p) (_invalid_message p)
  end.

Definition with_ending_zero (z : bool) (p : NumberPrompt) : NumberPrompt :=
  mkNumberPrompt (_float p) (_max p) (_min p) (_default p) z
    (_whole_buffer p) (_integral_buffer p) (_whole_width p)
    (_integral_width p) (_focus p) (_invalid p) (_invalid_message p).

Definition with_focus (w : Window) (p : NumberPrompt) : NumberPrompt :=
  mkNumberPrompt (_float p) (_max p) (_min p) (_default p) (_ending_zero p)
    (_whole_buffer p) (_integral_buffer p) (_whole_width p)
    (_integral_width p) w (_invalid p) (_invalid_message p).

Definition Window_eqb (a b : Window) : bool :=
  match a, b with
  | WholeWindow, WholeWindow | IntegralWindow, IntegralWindow => true
  | _, _ => false
  end.

(** [focus_buffer]: the buffer of the focused window. *)
Definition focus_buffer (p : NumberPrompt) : BufferRef :=
  match _focus p with
  | WholeWindow => WholeBuffer
  | IntegralWindow => IntegralBuffer
  end.

(** ** Computations over the prompt *)

Inductive exn : Type :=
| ValueError
| OverflowError
| TypeError
| InvalidArgument.

(** What a call does: return, raise (the prompt keeps the mutations made
    so far), or exceed the recursion budget. *)
Inductive outcome (A : Type) : Type :=
| Ret (a : A) (p : NumberPrompt)
| Raise (e : exn) (p : NumberPrompt)
| Diverge.

Arguments Ret {A} a p.
Arguments Raise {A} e p.
Arguments Diverge {A}.

Definition M (A : Type) : Type := NumberPrompt -> outcome A.

Definition ret {A} (a : A) : M A := fun p => Ret a p.
Definition raise {A} (e : exn) : M A := fun p => Raise e p.
Definition diverge {A} : M A := fun _ => Diverge.
(** [self]: the prompt as it is now. *)
Definition self : M NumberPrompt := fun p => Ret p p.
Definition modify (f : NumberPrompt -> NumberPrompt) : M unit :=
  fun p => Ret tt (f p).

Definition bind {A B} (c : M A) (k : A -> M B) : M B :=
  fun p =>
    match c p with
    | Ret a p' => k a p'
    | Raise e p' => Raise e p'
    | Diverge => Diverge
    end.

(** [try: c  except ValueError: h] *)
Definition try_except_ValueError {A} (c h : M A) : M A :=
  fun p =>
    match c p with
    | Raise ValueError p' => h p'
    | o => o
    end.

Declare Scope prompt_scope.
Delimit Scope prompt_scope with prompt.
Notation "x <- c ;; k" := (bind c (fun x => k))
  (at level 61, c at next level, right associativity) : prompt_scope.
Notation "c ;; k" := (bind c (fun _ => k))
  (at level 61, right associativity) : prompt_scope.
Open Scope prompt_scope.

(** Modelled from the spec: [BaseComplexPrompt._set_error], which lives in
    the base prompt; the spec has a read that fails "record a validation
    error" with a message and the prompt expose a boolean "has active
    validation error" signal. *)
Definition _set_error (message : string) : M unit :=
  modify (fun p =>
    mkNumberPrompt (_float p) (_max p) (_min p) (_default p) (_ending_zero p)
      (_whole_buffer p) (_integral_buffer p) (_whole_width p)
      (_integral_width p) (_focus p) true message).

(** ** The buffers' setters ([prompt_toolkit.buffer.Buffer])

    The buffer class belongs to [prompt_toolkit]; its two setters are
    embedded as that library has them.  [text = value] first brings the
    cursor inside the new text, stores the text, and fires
    [on_text_changed] if the text differs from the old one.
    [cursor_position = value] brings the value into [0 .. len(text)],
    stores it, and fires [on_cursor_position_changed] if it differs from
    the old one.  Both events call their handlers at once, with the
    buffer; the prompt registered [_on_cursor_position_change] and
    [_on_whole_text_change] / [_on_integral_text_change] for them.  A
    handler may assign to a buffer again, so setters and callbacks call
    each other; [fuel] bounds that recursion, and a run that would need
    more is [Diverge]. *)

Definition write_cursor (b : BufferRef) (c : Z) : M unit :=
  modify (fun p => with_buffer b (mkBuffer (text (buffer b p)) c) p).

Definition write_text (b : BufferRef) (t : string) : M unit :=
  modify (fun p => with_buffer b (mkBuffer t (cursor_position (buffer b p))) p).

(** [_on_cursor_position_change(buffer)] *)
Definition _on_cursor_position_change
    (set_cursor_position : BufferRef -> Z -> M unit) (b : BufferRef) : M unit :=
  p <- self ;;
  if (PyStr.startswith (text (buffer (focus_buffer p) p)) "-"
      && (cursor_position (buffer b p) =? 0))%bool
  then set_cursor_position b 1
  else ret tt.

(** [buffer.cursor_position = value]: the value is brought into
    [0 .. len(text)], stored, and the event fires if it changed. *)
Definition cursor_setter
    (set_cursor_position : BufferRef -> Z -> M unit) (b : BufferRef) (value : Z)
  : M unit :=
  p <- self ;;
  let value :=
    if PyStr.len (text (buffer b p)) <? value
    then PyStr.len (text (buffer b p)) else value in
  let value := if value <? 0 then 0 else value in
  let original := cursor_position (buffer b p) in
  write_cursor b (Z.max 0 value) ;;
  if negb (Z.max 0 value =? original)
  then _on_cursor_position_change set_cursor_position b
  else ret tt.

Fixpoint set_cursor_position (fuel : nat) (b : BufferRef) (value : Z)
  : M unit :=
  match fuel with
  | O => diverge
  | S n => cursor_setter (set_cursor_position n) b value
  end.

(** The [value] property, getter. *)
Definition value_get : M num :=
  p <- self ;;
  if negb (_float p) then
    match PyInt.of_string (text (_whole_buffer p)) with
    | Some n => ret (PInt n)
    | None => _set_error _value_error_message ;; ret (_default p)
    end
  else
    let frac := text (_integral_buffer p) in
    modify (with_ending_zero
              (if 1 <? PyStr.len frac then PyStr.endswith_char frac "0"
               else false)) ;;
    match PyFloat.of_string (text (_whole_buffer p) ++ "." ++ frac) with
    | Some x => ret (PFloat x)
    | None => _set_error _value_error_message ;; ret (_default p)
    end.

(** [float(bound)] for a bound of type [Union[int, float]]. *)
Definition float_of_num (v : num) : M num :=
  match v with
  | PFloat x => ret (PFloat x)
  | PInt n =>
      match PyFloat.of_int n with
      | Some x => ret (PFloat x)
      | None => raise OverflowError
      end
  end.

Definition bound_in_mode (bound : num) : M num :=
  p <- self ;;
  if negb (_float p) then ret bound else float_of_num bound.

(** The [value] property, setter. *)
Definition value_set (set_text : BufferRef -> string -> M unit) (value : num)
  : M unit :=
  p <- self ;;
  value <- match _min p with
           | Some lo => lo' <- bound_in_mode lo ;; ret (PyNum.max value lo')
           | None => ret value
           end ;;
  value <- match _max p with
           | Some hi => hi' <- bound_in_mode hi ;; ret (PyNum.min value hi')
           | None => ret value
           end ;;
  if negb (_float p) then
    set_text WholeBuffer (PyNum.str value)
  else
    match PyStr.split_char "." (PyNum.str value) with
    | [whole_text; integral_buffer_text] =>
        set_text WholeBuffer whole_text ;;
        p <- self ;;
        if _ending_zero p
        then set_text IntegralBuffer (integral_buffer_text ++ "0")
        else set_text IntegralBuffer integral_buffer_text
    | _ => raise ValueError
    end.

(** [_on_text_change(buffer)] *)
Definition _on_text_change
    (set_text : BufferRef -> string -> M unit)
    (set_cursor : BufferRef -> Z -> M unit) (b : BufferRef) : M unit :=
  p <- self ;;
  (if (negb (String.eqb (text (buffer b p)) "")
       && negb (String.eqb (text (buffer b p)) "-"))%bool
   then v <- value_get ;; value_set set_text v
   else ret tt) ;;
  p <- self ;;
  if (PyStr.startswith (text (buffer b p)) "-"
      && (cursor_position (buffer b p) =? 0))%bool
  then set_cursor b 1
  else ret tt.

(** [_on_whole_text_change(buffer)] and [_on_integral_text_change(buffer)],
    the handlers registered on the two buffers. *)
Definition on_text_changed
    (set_text : BufferRef -> string -> M unit)
    (set_cursor : BufferRef -> Z -> M unit) (b : BufferRef) : M unit :=
  p <- self ;;
  modify (with_width b (PyStr.len (text (buffer b p)) + 1)) ;;
  _on_text_change set_text set_cursor b.

(** [buffer.text = value]: the cursor is first brought inside the new
    text, the text is stored, and the event fires if it changed. *)
Definition text_setter
    (set_text : BufferRef -> string -> M unit)
    (set_cursor : BufferRef -> Z -> M unit) (b : BufferRef) (value : string)
  : M unit :=
  p <- self ;;
  (if PyStr.len value <? cursor_position (buffer b p)
   then set_cursor b (PyStr.len value)
   else ret tt) ;;
  p <- self ;;
  let original_value := text (buffer b p) in
  write_text b value ;;
  if negb (String.eqb value original_value)
  then on_text_changed set_text set_cursor b
  else ret tt.

Fixpoint set_text (fuel : nat) (b : BufferRef) (value : string) : M unit :=
  match fuel with
  | O => diverge
  | S n => text_setter (set_text n) (set_cursor_position n) b value
  end.

(** [buffer.insert_text(data)]: text and cursor are stored together
    (a new document), then the events that apply fire, text first. *)
Definition insert_text (fuel : nat) (b : BufferRef) (data : string) : M unit :=
  match fuel with
  | O => diverge
  | S n =>
      p <- self ;;
      let otext := text (buffer b p) in
      let ocpos := cursor_position (buffer b p) in
      let ntext := (PyStr.take (Z.to_nat ocpos) otext ++ data
                    ++ PyStr.drop (Z.to_nat ocpos) otext)%string in
      let cpos := Z.max 0 (ocpos + PyStr.len data) in
      modify (with_buffer b (mkBuffer ntext cpos)) ;;
      (if negb (String.eqb ntext otext)
       then on_text_changed (set_text n) (set_cursor_position n) b
       else ret tt) ;;
      if negb (cpos =? ocpos)
      then _on_cursor_position_change (set_cursor_position n) b
      else ret tt
  end.

(** ** Key handlers *)

Section Handlers.
Variable fuel : nat.

(** [self.value = v] from outside the callbacks. *)
Definition set_value (v : num) : M unit := value_set (set_text fuel) v.

(** [_handle_down] and [_handle_up]: the focused buffer's text, read as
    an integer on its own, moved by [delta]. *)
Definition step_focus_buffer (delta : Z) : M unit :=
  try_except_ValueError
    (p <- self ;;
     let fb := focus_buffer p in
     if String.eqb (text (buffer fb p)) "" then set_text fuel fb "0"
     else
       match PyInt.of_string (text (buffer fb p)) with
       | Some n => set_text fuel fb (PyInt.to_string (n + delta))
       | None => raise ValueError
       end)
    (_set_error _value_error_message).

Definition _handle_down : M unit := step_focus_buffer (-1).
Definition _handle_up : M unit := step_focus_buffer 1.

Definition set_focus (w : Window) : M unit := modify (with_focus w).

Definition _handle_left : M unit :=
  p <- self ;;
  let fb := focus_buffer p in
  if (Window_eqb (_focus p) IntegralWindow
      && (cursor_position (buffer fb p) =? 0))%bool
  then set_focus WholeWindow
  else set_cursor_position fuel fb (cursor_position (buffer fb p) - 1).

Definition _handle_right : M unit :=
  p <- self ;;
  let fb := focus_buffer p in
  if (Window_eqb (_focus p) WholeWindow
      && (cursor_position (buffer fb p) =? PyStr.len (text (buffer fb p)))
      && _float p)%bool
  then set_focus IntegralWindow
  else set_cursor_position fuel fb (cursor_position (buffer fb p) + 1).

Definition _handle_focus : M unit :=
  p <- self ;;
  if negb (_float p) then ret tt
  else
    match _focus p with
    | WholeWindow => set_focus IntegralWindow
    | IntegralWindow => set_focus WholeWindow
    end.

(** [_handle_input]: the pressed digit goes into the focused buffer. *)
Definition _handle_input (data : string) : M unit :=
  p <- self ;;
  insert_text fuel (focus_buffer p) data.

Definition _handle_negative_toggle : M unit :=
  p <- self ;;
  if PyStr.startswith (text (_whole_buffer p)) "-"
  then set_text fuel WholeBuffer (PyStr.tail (text (_whole_buffer p)))
  else set_text fuel WholeBuffer ("-" ++ text (_whole_buffer p)).

(** [_on_rendered]: the one-time seeding of both buffers. *)
Definition _on_rendered : M unit :=
  set_text fuel WholeBuffer "0" ;;
  set_cursor_position fuel WholeBuffer 0 ;;
  set_text fuel IntegralBuffer "0" ;;
  set_cursor_position fuel IntegralBuffer 0.

(** The logical actions of the keybinding table. *)
Inductive action : Type :=
| Down | Up | Left | Right | Focus
| Input (digit : string)
| NegativeToggle.

Definition handle (a : action) : M unit :=
  match a with
  | Down => _handle_down
  | Up => _handle_up
  | Left => _handle_left
  | Right => _handle_right
  | Focus => _handle_focus
  | Input d => _handle_input d
  | NegativeToggle => _handle_negative_toggle
  end.

(** One event is dispatched completely before the next is accepted. *)
Fixpoint handle_all (acts : list action) : M unit :=
  match acts with
  | [] => ret tt
  | a :: rest => handle a ;; handle_all rest
  end.

End Handlers.

(** ** Construction *)

(** The values a caller may pass as [default]. *)
Inductive pyobj : Type :=
| ObjInt (n : Z)
| ObjFloat (x : PyFloat.float)
| ObjStr (s : string)
| ObjNone.

Section Construction.
(** The results of the prompts answered so far. *)
Variable SessionResult : Type.

(** [InquirerPyDefault]: a literal, or a function of the session result. *)
Inductive InquirerPyDefault : Type :=
| Literal (v : pyobj)
| Computed (f : SessionResult -> pyobj).

Inductive construction : Type :=
| Constructed (p : NumberPrompt)
| Failed (e : exn).

(** [float(default)] *)
Definition float_of_obj (v : pyobj) : exn + pyobj :=
  match v with
  | ObjInt n =>
      match PyFloat.of_int n with
      | Some x => inr (ObjFloat x)
      | None => inl OverflowError
      end
  | ObjFloat x => inr (ObjFloat x)
  | ObjStr s =>
      match PyFloat.of_string s with
      | Some x => inr (ObjFloat x)
      | None => inl ValueError
      end
  | ObjNone => inl TypeError
  end.

Definition resolve (default : InquirerPyDefault)
    (session_result : SessionResult) : pyobj :=
  match default with
  | Literal v => v
  | Computed f => f session_result
  end.

(** [NumberPrompt.__init__], as far as it decides the numeric state. *)
Definition init (default : InquirerPyDefault) (float_allowed : bool)
    (max_allowed min_allowed : option num) (invalid_message : string)
    (session_result : SessionResult) : construction :=
  let default := resolve default session_result in
  let converted :=
    if float_allowed then float_of_obj default else inr default in
  match converted with
  | inl e => Failed e
  | inr default =>
      let checked : exn + num :=
        if float_allowed then
          match default with
          | ObjFloat x => inr (PFloat x)
          | _ => inl InvalidArgument
          end
        else
          match default with
          | ObjInt n => inr (PInt n)
          | _ => inl InvalidArgument
          end in
      match checked with
      | inl e => Failed e
      | inr d =>
          Constructed
            (mkNumberPrompt float_allowed max_allowed min_allowed d false
               (mkBuffer "" 0) (mkBuffer "" 0) 1 1 WholeWindow
               false invalid_message)
      end
  end.

End Construction.

Arguments Literal {SessionResult} v.
Arguments Computed {SessionResult} f.

(** ** Vocabulary of the statements *)

Definition with_cursor (b : BufferRef) (c : Z) (p : NumberPrompt)
  : NumberPrompt :=
  with_buffer b (mkBuffer (text (buffer b p)) c) p.

Definition with_text (b : BufferRef) (t : string) (p : NumberPrompt)
  : NumberPrompt :=
  with_buffer b (mkBuffer t (cursor_position (buffer b p))) p.

Definition with_error (message : string) (p : NumberPrompt) : NumberPrompt :=
  mkNumberPrompt (_float p) (_max p) (_min p) (_default p) (_ending_zero p)
    (_whole_buffer p) (_integral_buffer p) (_whole_width p)
    (_integral_width p) (_focus p) true message.

(** Where the cursor setter leaves a requested position. *)
Definition clamp_cursor (L v : Z) : Z :=
  Z.max 0 (if (if L <? v then L else v) <? 0 then 0
           else (if L <? v then L else v)).

(** The prompt after [buffer.cursor_position = v] and its callbacks. *)
Definition settle_cursor (b : BufferRef) (v : Z) (p : NumberPrompt)
  : NumberPrompt :=
  let L := PyStr.len (text (buffer b p)) in
  let c := clamp_cursor L v in
  if c =? cursor_position (buffer b p) then with_cursor b c p
  else if (PyStr.startswith (text (buffer (focus_buffer p) p)) "-"
           && (c =? 0))%bool
       then with_cursor b (clamp_cursor L 1) p
       else with_cursor b c p.

(** The prompt with both cursors forgotten. *)
Definition uncursor (p : NumberPrompt) : NumberPrompt :=
  with_cursor WholeBuffer 0 (with_cursor IntegralBuffer 0 p).

(** [p] and [q] differ at most in their cursor positions. *)
Definition same_content (p q : NumberPrompt) : Prop :=
  uncursor p = uncursor q.

(** The call returned, leaving the prompt as [q] up to cursor positions. *)
Definition lands (o : outcome unit) (q : NumberPrompt) : Prop :=
  exists p', o = Ret tt p' /\ same_content p' q.

(** The trailing-zero test of the getter. *)
Definition ends_in_zero (frac : string) : bool :=
  if 1 <? PyStr.len frac then PyStr.endswith_char frac "0" else false.

(** What the getter parses: the whole text in integer mode, whole and
    fractional text around a point in float mode. *)
Definition read_value (p : NumberPrompt) : option num :=
  if negb (_float p)
  then option_map PInt (PyInt.of_string (text (_whole_buffer p)))
  else option_map PFloat
         (PyFloat.of_string
            (text (_whole_buffer p) ++ "." ++ text (_integral_buffer p))).

(** The prompt after a read. *)
Definition after_read (p : NumberPrompt) : NumberPrompt :=
  let p1 := if negb (_float p) then p
            else with_ending_zero
                   (ends_in_zero (text (_integral_buffer p))) p in
  match read_value p with
  | Some _ => p1
  | None => with_error _value_error_message p1
  end.

(** The bound the setter compares with, in the mode's numeric type. *)
Definition bound_value (p : NumberPrompt) (bound : num) : exn + num :=
  if negb (_float p) then inr bound
  else match bound with
       | PFloat x => inr (PFloat x)
       | PInt n => match PyFloat.of_int n with
                   | Some x => inr (PFloat x)
                   | None => inl OverflowError
                   end
       end.

(** The value the setter writes: [value] brought above [_min], then below
    [_max]. *)
Definition clamp_value (p : NumberPrompt) (value : num) : exn + num :=
  let lower :=
    match _min p with
    | Some lo => match bound_value p lo with
                 | inr lo' => inr (PyNum.max value lo')
                 | inl e => inl e
                 end
    | None => inr value
    end in
  match lower with
  | inl e => inl e
  | inr value =>
      match _max p with
      | Some hi => match bound_value p hi with
                   | inr hi' => inr (PyNum.min value hi')
                   | inl e => inl e
                   end
      | None => inr value
      end
  end.

(** The cursor of a buffer is inside its text, and past a leading sign. *)
Definition cursor_ok (bf : Buffer) : Prop :=
  0 <= cursor_position bf <= PyStr.len (text bf)
  /\ (PyStr.startswith (text bf) "-" = true -> 1 <= cursor_position bf).

Definition cursors_ok (p : NumberPrompt) : Prop :=
  cursor_ok (_whole_buffer p) /\ cursor_ok (_integral_buffer p).

(** The actions that only move the cursor or the focus. *)
Definition is_move (a : action) : bool :=
  match a with
  | Left | Right | Focus => true
  | _ => false
  end.

(** The second half of the setter: the clamped value written into the
    buffers through their text setter [set_text]. *)
Definition write_value (set_text : BufferRef -> string -> M unit) (cv : num)
  : M unit :=
  p <- self ;;
  if negb (_float p) then set_text WholeBuffer (PyNum.str cv)
  else
    match PyStr.split_char "." (PyNum.str cv) with
    | [whole_text; integral_buffer_text] =>
        set_text WholeBuffer whole_text ;;
        p <- self ;;
        if _ending_zero p
        then set_text IntegralBuffer (integral_buffer_text ++ "0")
        else set_text IntegralBuffer integral_buffer_text
    | _ => raise ValueError
    end.

(** The buffers already show [cv] the way the setter would write it. *)
Definition shows (p : NumberPrompt) (cv : num) : Prop :=
  if negb (_float p) then text (_whole_buffer p) = PyNum.str cv
  else exists w f,
      PyStr.split_char "." (PyNum.str cv) = [w; f]
      /\ text (_whole_buffer p) = w
      /\ text (_integral_buffer p)
         = (f ++ if _ending_zero p then "0" else "")%string.

(** The text-change callback leaves these texts alone. *)
Definition skipped (t : string) : bool :=
  (String.eqb t "" || String.eqb t "-")%bool.

(** The prompt after a changed text was written and its callback ran,
    when the value read back is shown as it stands. *)
Definition settled_write (b : BufferRef) (t : string) (p : NumberPrompt)
  : NumberPrompt :=
  let p1 := with_width b (PyStr.len t + 1) (with_text b t p) in
  if skipped t then p1 else after_read p1.

(** The value a read returns. *)
Definition value_of (p : NumberPrompt) : num :=
  match read_value p with
  | Some v => v
  | None => _default p
  end.

(** The content after [buffer.text = t] when a changed text settles at
    once: the text, and the width that follows it. *)
Definition written (b : BufferRef) (t : string) (p : NumberPrompt)
  : NumberPrompt :=
  if String.eqb (text (buffer b p)) t then p
  else with_width b (PyStr.len t + 1) (with_text b t p).

(** The float 1.5, that is [float("1.5")] and [float("1.50")]. *)
Definition float_1_5 : PyFloat.float := S754_finite false 6755399441055744 (-52).

(** The float 0.0 *)
Definition float_0 : PyFloat.float := S754_zero false.

(** [down] on a fractional "0": the prompt after the handler stored "-1"
    and the failed read was recorded. *)
Definition after_failed_read (p : NumberPrompt) : NumberPrompt :=
  with_error _value_error_message
    (with_ending_zero false
       (with_width IntegralBuffer (PyStr.len "-1" + 1)
          (with_text IntegralBuffer "-1" p))).

(** ... and after the texts [w] and [f] of the clamped default were
    written back. *)
Definition after_default (w f : string) (p : NumberPrompt) : NumberPrompt :=
  with_width IntegralBuffer (PyStr.len f + 1)
    (with_text IntegralBuffer f (written WholeBuffer w (after_failed_read p))).

(** The characters [str] writes for a decimal numeral. *)
Definition digit_chars (u : Decimal.uint) : list ascii :=
  list_ascii_of_string (NilEmpty.string_of_uint u).

(** The characters of ".-1", the text [down] leaves after the point. *)
Definition bad_tail : list ascii := [ "."%char; "-"%char; "1"%char ].

(** The last character of a text. *)
Fixpoint last_char (s : string) : ascii :=
  match s with
  | EmptyString => "000"%char
  | String a EmptyString => a
  | String _ r => last_char r
  end.

(** ** Example prompts *)

(** [NumberPrompt(min_allowed=0, max_allowed=100)] after its first render. *)
Definition int_prompt_0_100 : NumberPrompt :=
  mkNumberPrompt false (Some (PInt 100)) (Some (PInt 0)) (PInt 0) false
    (mkBuffer "0" 0) (mkBuffer "0" 0) 2 2 WholeWindow false "Invalid input".

(** [NumberPrompt(float_allowed=True)] after its first render. *)
Definition float_prompt : NumberPrompt :=
  mkNumberPrompt true None None (PFloat float_0) false
    (mkBuffer "0" 0) (mkBuffer "0" 0) 2 2 WholeWindow false "Invalid input".

(** The floats 1e16 and 1e17. *)
Definition float_1e16 : PyFloat.float := S754_finite false 5000000000000000 1.
Definition float_1e17 : PyFloat.float := S754_finite false 6250000000000000 4.

(** [NumberPrompt(float_allowed=True, min_allowed=0, max_allowed=10**17)]
    after its first render. *)
Definition float_prompt_0_1e17 : NumberPrompt :=
  mkNumberPrompt true (Some (PInt (10 ^ 17))) (Some (PInt 0)) (PFloat float_0)
    false (mkBuffer "0" 0) (mkBuffer "0" 0) 2 2 WholeWindow false
    "Invalid input".

(** The floats 50.0 and 10.0. *)
Definition float_50 : PyFloat.float := S754_finite false 7036874417766400 (-47).
Definition float_10 : PyFloat.float := S754_finite false 5629499534213120 (-49).

(** [NumberPrompt(float_allowed=True, default=50.0, max_allowed=10)] after
    its first render and a [focus] key. *)
Definition float_prompt_default_50 : NumberPrompt :=
  mkNumberPrompt true (Some (PInt 10)) None (PFloat float_50) false
    (mkBuffer "0" 0) (mkBuffer "0" 0) 2 2 IntegralWindow false
    "Invalid input".

(** A float prompt in the middle of [_handle_down] on the fractional text
    "00": the handler has stored "-1", the callback is about to read. *)
Definition float_prompt_mid_down : NumberPrompt :=
  mkNumberPrompt true None None (PFloat float_0) true
    (mkBuffer "0" 0) (mkBuffer "-1" 2) 2 3 IntegralWindow false
    "Invalid input".

(** An integer prompt before its first render: both buffers are empty. *)
Definition int_prompt_unrendered : NumberPrompt :=
  mkNumberPrompt false None None (PInt 0) false
    (mkBuffer "" 0) (mkBuffer "" 0) 1 1 WholeWindow false "Invalid input".

(** ** Vocabulary of the integer-mode statements *)

(** No bound, or a bound of type [int]. *)
Definition int_bound (b : option num) : bool :=
  match b with
  | Some (PFloat _) => false
  | _ => true
  end.

(** Integer mode, with bounds of type [int]. *)
Definition int_mode (p : NumberPrompt) : Prop :=
  _float p = false /\ int_bound (_min p) = true /\ int_bound (_max p) = true.

(** [min(max(v, lo), hi)] on an [int] with the prompt's [int] bounds, each
    of which may be absent. *)
Definition int_clamp (p : NumberPrompt) (v : Z) : Z :=
  let v := match _min p with
           | Some (PInt lo) => if v <? lo then lo else v
           | _ => v
           end in
  match _max p with
  | Some (PInt hi) => if hi <? v then hi else v
  | _ => v
  end.

(** [v] is not above the upper bound, and not below the lower bound unless
    the bounds cross. *)
Definition within_bounds (p : NumberPrompt) (v : Z) : Prop :=
  (forall hi, _max p = Some (PInt hi) -> v <= hi)
  /\ (forall lo, _min p = Some (PInt lo) ->
        (forall hi, _max p = Some (PInt hi) -> lo <= hi) -> lo <= v).

(** The whole buffer holds the decimal text of [v], which the bounds leave
    alone. *)
Definition shows_int (p : NumberPrompt) (v : Z) : Prop :=
  text (_whole_buffer p) = PyInt.to_string v /\ int_clamp p v = v.

(** An integer prompt at rest between two keys. *)
Definition int_settled (p : NumberPrompt) : Prop :=
  int_mode p /\ _focus p = WholeWindow /\ cursors_ok p
  /\ exists v, shows_int p v.

(** The cursor of a buffer is inside its text. *)
Definition in_range (bf : Buffer) : Prop :=
  0 <= cursor_position bf <= PyStr.len (text bf).

(** The keys bound to [_handle_input]: the ten digits. *)
Definition is_digit_key (d : string) : bool :=
  match d with
  | String c EmptyString => PyStr.is_digit c
  | _ => false
  end.

(** The actions with a key of the keybinding table behind them. *)
Definition is_key (a : action) : bool :=
  match a with
  | Input d => is_digit_key d
  | _ => true
  end.

(** The integer whose decimal text is that of [v] with the digit [d]
    inserted [k] digits from the right. *)
Definition insert_digit (v d k : Z) : Z :=
  let a := Z.abs v in
  let z := (a / 10 ^ k) * 10 ^ (k + 1) + d * 10 ^ k + a mod 10 ^ k in
  if v <? 0 then - z else z.

(** The prompt a call leaves behind, whether it returned or raised. *)
Definition final {A : Type} (o : outcome A) : option NumberPrompt :=
  match o with
  | Ret _ p => Some p
  | Raise _ p => Some p
  | Diverge => None
  end.

(** What the constructor fixes: the mode, the bounds and the default. *)
Definition configuration (p : NumberPrompt)
  : bool * option num * option num * num :=
  (_float p, _max p, _min p, _default p).

Definition is_float (v : num) : bool :=
  match v with
  | PFloat _ => true
  | PInt _ => false
  end.

(** Integer mode with the focus on the whole part and both cursors inside
    their texts. *)
Definition int_ranged (p : NumberPrompt) : Prop :=
  _float p = false /\ _focus p = WholeWindow
  /\ in_range (_whole_buffer p) /\ in_range (_integral_buffer p).

(** What an assignment to the text of [b] that took the prompt from [p] to
    [p'] keeps: mode, focus and cursor ranges; a cursor that was past a
    leading sign is so afterwards, and the cursor of [b] is so in any case
    when the text [changed]. *)
Definition cursors_kept (b : BufferRef) (changed : Prop)
    (p p' : NumberPrompt) : Prop :=
  int_ranged p'
  /\ (forall b', b' <> b -> cursor_ok (buffer b' p) -> cursor_ok (buffer b' p'))
  /\ (changed \/ cursor_ok (buffer b p) -> cursor_ok (buffer b p'))
  /\ (b = WholeBuffer -> _integral_buffer p' = _integral_buffer p).

(** The prompt showing [z] as the setter leaves it: the whole buffer holds
    the decimal text of [z] brought inside the bounds, and the width of
    the whole window follows that text. *)
Definition int_shown (z : Z) (p : NumberPrompt) : NumberPrompt :=
  let s := PyInt.to_string (int_clamp p z) in
  with_width WholeBuffer (PyStr.len s + 1) (with_text WholeBuffer s p).

(** The digits of [str(v)], sign apart. *)
Definition int_digits (v : Z) : list ascii :=
  match v with
  | Z0 => [ "0"%char ]
  | Zpos q => digit_chars (Pos.to_uint q)
  | Zneg q => digit_chars (Pos.to_uint q)
  end.

Definition is_digit_prop (c : ascii) : Prop := PyStr.is_digit c = true.

(** A computation leaves the configuration as it found it, whether it
    returns or raises. *)
Definition keeps_configuration {A : Type} (c : M A) : Prop :=
  forall p p', final (c p) = Some p' -> configuration p' = configuration p.

(** The float 7.5 *)
Definition float_7_5 : PyFloat.float := S754_finite false 8444249301319680 (-50).

(** [NumberPrompt(max_allowed=7.5)], an integer prompt with a [float]
    bound, after its first render. *)
Definition int_prompt_max_7_5 : NumberPrompt :=
  mkNumberPrompt false (Some (PFloat float_7_5)) None (PInt 0) false
    (mkBuffer "0" 0) (mkBuffer "0" 0) 2 2 WholeWindow false "Invalid input".

Definition no_space (c : ascii) : Prop := PyStr.is_space c = false.

(** The keys of the digits [ds], typed one after the other. *)
Definition typing (ds : list ascii) : list action :=
  map (fun c => Input (String c "")) ds.


(** * Properties *)

(** ** Buffers and cursors *)

Lemma len_nonneg (s : string) : 0 <= PyStr.len s.
Proof. unfold PyStr.len; lia. Qed.

Ltac prompt_simpl :=
  cbn [bind self ret modify raise diverge write_cursor write_text with_buffer
       with_width with_ending_zero with_focus with_cursor with_text with_error
       buffer focus_buffer
       text cursor_position _float _max _min _default _ending_zero
       _whole_buffer _integral_buffer _whole_width _integral_width _focus
       _invalid _invalid_message negb andb orb Window_eqb set_focus
       _set_error] in *.

Ltac split_prompt p :=
  let fl := fresh "fl" in let mx := fresh "mx" in let mn := fresh "mn" in
  let d := fresh "d" in let ez := fresh "ez" in
  let wt := fresh "wt" in let wc := fresh "wc" in
  let it := fresh "it" in let ic := fresh "ic" in
  let ww := fresh "ww" in let iw := fresh "iw" in let fo := fresh "fo" in
  let inv := fresh "inv" in let msg := fresh "msg" in
  destruct p as [fl mx mn d ez [wt wc] [it ic] ww iw fo inv msg].

Lemma set_cursor_position_settles (n : nat) (b : BufferRef) (v : Z)
    (p : NumberPrompt) :
  set_cursor_position (S (S n)) b v p = Ret tt (settle_cursor b v p).
Proof.
  split_prompt p.
  unfold settle_cursor, clamp_cursor.
  pose proof (len_nonneg wt). pose proof (len_nonneg it).
  cbn [set_cursor_position]. unfold cursor_setter, _on_cursor_position_change.
  destruct b, fo; prompt_simpl.
  all: repeat match goal with
       | |- context [Z.max 0 ?x =? ?y] =>
           destruct (Z.eqb_spec (Z.max 0 x) y); prompt_simpl
       | |- context [PyStr.startswith ?x ?y] =>
           destruct (PyStr.startswith x y); prompt_simpl
       | |- context [if ?x <? ?y then _ else _] =>
           destruct (Z.ltb_spec x y); prompt_simpl
       | |- context [?x =? ?y] => destruct (Z.eqb_spec x y); prompt_simpl
       end; try reflexivity; try lia.
Qed.

Lemma settle_cursor_with_cursor (b : BufferRef) (v : Z) (p : NumberPrompt) :
  exists c, settle_cursor b v p = with_cursor b c p.
Proof.
  unfold settle_cursor.
  repeat match goal with
         | |- context [if ?x then _ else _] => destruct x
         end; eauto.
Qed.

Lemma same_content_refl p : same_content p p.
Proof. reflexivity. Qed.

Lemma same_content_sym p q : same_content p q -> same_content q p.
Proof. unfold same_content; congruence. Qed.

Lemma same_content_trans p q r :
  same_content p q -> same_content q r -> same_content p r.
Proof. unfold same_content; congruence. Qed.

Lemma same_content_with_cursor b c p : same_content (with_cursor b c p) p.
Proof. split_prompt p; destruct b; reflexivity. Qed.

(** What two prompts of the same content agree on. *)
Record agree (p q : NumberPrompt) : Prop := mkAgree {
  agree_float : _float p = _float q;
  agree_max : _max p = _max q;
  agree_min : _min p = _min q;
  agree_default : _default p = _default q;
  agree_ending_zero : _ending_zero p = _ending_zero q;
  agree_text : forall b, text (buffer b p) = text (buffer b q);
  agree_whole_width : _whole_width p = _whole_width q;
  agree_integral_width : _integral_width p = _integral_width q;
  agree_focus : _focus p = _focus q;
  agree_invalid : _invalid p = _invalid q;
  agree_invalid_message : _invalid_message p = _invalid_message q
}.

Lemma same_content_agree p q : same_content p q <-> agree p q.
Proof.
  unfold same_content, uncursor. split_prompt p; split_prompt q.
  prompt_simpl. split.
  - intros H; injection H; intros; subst.
    constructor; try reflexivity. intros []; reflexivity.
  - intros [? ? ? ? ? Ht ? ? ? ? ?]; prompt_simpl.
    pose proof (Ht WholeBuffer) as Hw. pose proof (Ht IntegralBuffer) as Hi.
    prompt_simpl. congruence.
Qed.

(** ** Moving the cursor and the focus *)

Ltac no_if t :=
  lazymatch t with
  | context [if _ then _ else _] => fail
  | _ => idtac
  end.

Ltac case_cmp :=
  match goal with
  | H : true = true -> _ |- _ => specialize (H eq_refl)
  | H : false = true -> _ |- _ => clear H
  | H : PyStr.startswith ?x ?y = true -> _
    |- context [PyStr.startswith ?x ?y] => destruct (PyStr.startswith x y)
  | |- context [PyStr.startswith ?x ?y] => destruct (PyStr.startswith x y)
  | |- context [?x <? ?y] => no_if x; no_if y; destruct (Z.ltb_spec x y)
  | |- context [?x =? ?y] => no_if x; no_if y; destruct (Z.eqb_spec x y)
  end.

Ltac case_cmps := repeat (case_cmp; prompt_simpl).

Section Moves.
Variable n : nat.
Variable p : NumberPrompt.
Hypothesis Hok : cursors_ok p.

Lemma handle_right_moves :
  _handle_right (S (S n)) p =
  Ret tt
    (let fb := focus_buffer p in
     let c := cursor_position (buffer fb p) in
     if (Window_eqb (_focus p) WholeWindow
         && (c =? PyStr.len (text (buffer fb p))) && _float p)%bool
     then with_focus IntegralWindow p
     else with_cursor fb
            (if c =? PyStr.len (text (buffer fb p)) then c else c + 1) p).
Proof.
  unfold _handle_right. cbn [bind self]. cbv zeta.
  destruct ((Window_eqb (_focus p) WholeWindow
             && (cursor_position (buffer (focus_buffer p) p)
                 =? PyStr.len (text (buffer (focus_buffer p) p)))
             && _float p)%bool); [reflexivity|].
  rewrite set_cursor_position_settles. f_equal.
  destruct Hok as [[Hw Hw'] [Hi Hi']]. revert Hw Hw' Hi Hi'.
  unfold settle_cursor, clamp_cursor. split_prompt p.
  destruct fo; prompt_simpl; intros.
  all: case_cmps; try reflexivity; try lia; do 2 f_equal; lia.
Qed.

Lemma handle_left_moves :
  _handle_left (S (S n)) p =
  Ret tt
    (let fb := focus_buffer p in
     let c := cursor_position (buffer fb p) in
     if (Window_eqb (_focus p) IntegralWindow && (c =? 0))%bool
     then with_focus WholeWindow p
     else with_cursor fb
            (if ((c =? 0)
                 || (PyStr.startswith (text (buffer fb p)) "-" && (c =? 1)))%bool
             then c else c - 1) p).
Proof.
  unfold _handle_left. cbn [bind self]. cbv zeta.
  destruct ((Window_eqb (_focus p) IntegralWindow
             && (cursor_position (buffer (focus_buffer p) p) =? 0))%bool);
    [reflexivity|].
  rewrite set_cursor_position_settles. f_equal.
  destruct Hok as [[Hw Hw'] [Hi Hi']]. revert Hw Hw' Hi Hi'.
  unfold settle_cursor, clamp_cursor. split_prompt p.
  destruct fo; prompt_simpl; intros.
  all: case_cmps; try reflexivity; try lia; do 2 f_equal; lia.
Qed.

Lemma handle_focus_toggles :
  _handle_focus p =
  Ret tt (if negb (_float p) then p
          else with_focus (match _focus p with
                           | WholeWindow => IntegralWindow
                           | IntegralWindow => WholeWindow
                           end) p).
Proof.
  unfold _handle_focus. cbn [bind self].
  destruct (_float p), (_focus p); reflexivity.
Qed.

End Moves.

Lemma cursors_ok_with_focus (w : Window) (p : NumberPrompt) :
  cursors_ok p -> cursors_ok (with_focus w p).
Proof. split_prompt p; exact (fun H => H). Qed.

Lemma move_keeps_cursors_ok (n : nat) (a : action) (p : NumberPrompt) :
  is_move a = true -> cursors_ok p ->
  exists p', handle (S (S n)) a p = Ret tt p' /\ cursors_ok p'.
Proof.
  intros Ha Hok. destruct a; try discriminate; cbn [handle].
  - rewrite handle_left_moves by assumption. eexists; split; [reflexivity|].
    cbv zeta.
    destruct (Window_eqb (_focus p) IntegralWindow
              && (cursor_position (buffer (focus_buffer p) p) =? 0))%bool;
      [now apply cursors_ok_with_focus|].
    destruct Hok as [[Hw Hw'] [Hi Hi']]. revert Hw Hw' Hi Hi'.
    unfold cursors_ok, cursor_ok. split_prompt p.
    destruct fo; prompt_simpl; intros.
    all: case_cmps; repeat split; try lia; try discriminate; auto.
  - rewrite handle_right_moves by assumption. eexists; split; [reflexivity|].
    cbv zeta.
    destruct (Window_eqb (_focus p) WholeWindow
              && (cursor_position (buffer (focus_buffer p) p)
                  =? PyStr.len (text (buffer (focus_buffer p) p)))
              && _float p)%bool;
      [now apply cursors_ok_with_focus|].
    destruct Hok as [[Hw Hw'] [Hi Hi']]. revert Hw Hw' Hi Hi'.
    unfold cursors_ok, cursor_ok. split_prompt p.
    destruct fo; prompt_simpl; intros.
    all: case_cmps; repeat split; try lia; try discriminate; auto.
  - rewrite handle_focus_toggles. eexists; split; [reflexivity|].
    destruct (negb (_float p)); [assumption|now apply cursors_ok_with_focus].
Qed.

Lemma moves_keep_cursors_ok (n : nat) (acts : list action) :
  forall p, forallb is_move acts = true -> cursors_ok p ->
  exists p', handle_all (S (S n)) acts p = Ret tt p' /\ cursors_ok p'.
Proof.
  induction acts as [|a acts IH]; intros p Hm Hok; cbn [handle_all].
  - exists p; split; [reflexivity|assumption].
  - cbn [forallb] in Hm. apply andb_true_iff in Hm as [Ha Hm].
    destruct (move_keeps_cursors_ok n a p Ha Hok) as [p1 [E1 Hok1]].
    destruct (IH p1 Hm Hok1) as [p2 [E2 Hok2]].
    exists p2; split; [|assumption].
    unfold bind. now rewrite E1.
Qed.

(** ** Reading and writing the value *)

Lemma value_get_reads (p : NumberPrompt) :
  value_get p =
  Ret (match read_value p with Some v => v | None => _default p end)
      (after_read p).
Proof.
  unfold value_get, after_read, read_value, ends_in_zero.
  cbn [bind self]. destruct (negb (_float p)).
  - destruct (PyInt.of_string (text (_whole_buffer p))); reflexivity.
  - cbn [bind modify].
    destruct (PyFloat.of_string
                (text (_whole_buffer p) ++ "." ++ text (_integral_buffer p)));
      split_prompt p; reflexivity.
Qed.

Lemma value_set_clamps_then_writes
    (st : BufferRef -> string -> M unit) (v : num) (p : NumberPrompt) :
  value_set st v p =
  match clamp_value p v with
  | inl e => Raise e p
  | inr cv => write_value st cv p
  end.
Proof.
  unfold value_set, clamp_value, write_value, bound_value, bound_in_mode,
    float_of_num.
  split_prompt p.
  destruct fl, mn as [[lo|lo]|], mx as [[hi|hi]|];
    cbn [bind self ret raise negb _float _min _max];
    repeat match goal with
      | |- context [match PyFloat.of_int ?x with _ => _ end] =>
          destruct (PyFloat.of_int x);
          cbn [bind self ret raise negb _float _min _max]
      end; reflexivity.
Qed.

(** Facts that depend on the content only. *)

Ltac content_inj H :=
  unfold same_content, uncursor in H;
  match type of H with
  | _ (_ ?p) = _ (_ ?q) => split_prompt p; split_prompt q
  end;
  prompt_simpl; injection H; intros; subst.

Lemma same_content_read_value p q :
  same_content p q -> read_value p = read_value q.
Proof. intros H. content_inj H. reflexivity. Qed.

Lemma same_content_after_read p q :
  same_content p q -> same_content (after_read p) (after_read q).
Proof.
  intros H. content_inj H. unfold after_read, read_value. prompt_simpl.
  destruct fl0; prompt_simpl;
    match goal with |- context [option_map _ ?x] => destruct x end;
    reflexivity.
Qed.

Lemma same_content_clamp_value p q v :
  same_content p q -> clamp_value p v = clamp_value q v.
Proof. intros H. content_inj H. reflexivity. Qed.

Lemma same_content_shows p q cv :
  same_content p q -> shows q cv -> shows p cv.
Proof. intros H Hs. content_inj H. exact Hs. Qed.

Lemma same_content_text p q b :
  same_content p q -> text (buffer b p) = text (buffer b q).
Proof. intros H. content_inj H. destruct b; reflexivity. Qed.

Lemma same_content_ending_zero p q :
  same_content p q -> _ending_zero p = _ending_zero q.
Proof. intros H. content_inj H. reflexivity. Qed.

Lemma same_content_float p q :
  same_content p q -> _float p = _float q.
Proof. intros H. content_inj H. reflexivity. Qed.

Lemma same_content_default p q :
  same_content p q -> _default p = _default q.
Proof. intros H. content_inj H. reflexivity. Qed.

Lemma same_content_with_text b t p q :
  same_content p q -> same_content (with_text b t p) (with_text b t q).
Proof. intros H. content_inj H. destruct b; reflexivity. Qed.

Lemma same_content_with_width b w p q :
  same_content p q -> same_content (with_width b w p) (with_width b w q).
Proof. intros H. content_inj H. destruct b; reflexivity. Qed.

Lemma lands_same_content o q q' :
  lands o q -> same_content q q' -> lands o q'.
Proof.
  intros [p' [E H]] Hq. exists p'. split; [assumption|].
  eapply same_content_trans; eassumption.
Qed.

Lemma lands_bind (c k : M unit) p q r :
  lands (c p) q ->
  (forall p', same_content p' q -> lands (k p') r) ->
  lands ((c ;; k) p) r.
Proof.
  intros [p' [E H]] Hk. unfold bind. rewrite E. now apply Hk.
Qed.

Lemma append_empty_r (s : string) : (s ++ "")%string = s.
Proof. induction s as [|a s IH]; cbn; congruence. Qed.

Section TextLayer.
Variable st : BufferRef -> string -> M unit.
Variable sc : BufferRef -> Z -> M unit.
Hypothesis sc_settles :
  forall b v p, exists c, sc b v p = Ret tt (with_cursor b c p).

Lemma sc_lands b v p : lands (sc b v p) p.
Proof.
  destruct (sc_settles b v p) as [c E]. exists (with_cursor b c p).
  split; [assumption|apply same_content_with_cursor].
Qed.

(** Writing the text a buffer already holds fires nothing. *)
Lemma text_setter_same b t p :
  text (buffer b p) = t -> lands (text_setter st sc b t p) p.
Proof.
  intros Ht. unfold text_setter, bind, self, write_text, modify, ret.
  destruct (PyStr.len t <? cursor_position (buffer b p)).
  - destruct (sc_settles b (PyStr.len t) p) as [c E]. rewrite E.
    replace (text (buffer b (with_cursor b c p))) with t
      by (subst t; split_prompt p; destruct b; reflexivity).
    rewrite String.eqb_refl. cbn [negb].
    exists (with_cursor b c p). split.
    + subst t. split_prompt p; destruct b; reflexivity.
    + apply same_content_with_cursor.
  - rewrite Ht, String.eqb_refl.
    cbn [negb]. exists p. split; [|reflexivity].
    subst t. split_prompt p; destruct b; reflexivity.
Qed.

(** Writing another text fires the text-change callback on it. *)
Lemma text_setter_changed b t p :
  text (buffer b p) <> t ->
  exists p0, same_content p0 (with_text b t p)
             /\ text_setter st sc b t p = on_text_changed st sc b p0.
Proof.
  intros Ht. unfold text_setter, bind, self, write_text, modify, ret.
  destruct (PyStr.len t <? cursor_position (buffer b p)).
  - destruct (sc_settles b (PyStr.len t) p) as [c E]. rewrite E.
    replace (text (buffer b (with_cursor b c p))) with (text (buffer b p))
      by (split_prompt p; destruct b; reflexivity).
    destruct (String.eqb_spec t (text (buffer b p))); [congruence|].
    cbn [negb]. eexists; split; [|reflexivity].
    split_prompt p; destruct b; reflexivity.
  - destruct (String.eqb_spec t (text (buffer b p))); [congruence|].
    cbn [negb]. eexists; split; [|reflexivity].
    split_prompt p; destruct b; reflexivity.
Qed.

(** The callback: the width follows the text, the value is read and
    written back unless the text is empty or a lone sign, and the cursor
    is pushed past a leading sign. *)
Lemma on_text_changed_lands b p q :
  (skipped (text (buffer b p)) = true ->
   same_content (with_width b (PyStr.len (text (buffer b p)) + 1) p) q) ->
  (skipped (text (buffer b p)) = false ->
   forall p1,
     same_content p1 (with_width b (PyStr.len (text (buffer b p)) + 1) p) ->
     lands (value_set st
              (match read_value p1 with Some v => v | None => _default p1 end)
              (after_read p1)) q) ->
  lands (on_text_changed st sc b p) q.
Proof.
  intros Hskip Hrun. unfold on_text_changed, _on_text_change.
  cbn [bind self modify].
  replace (text (buffer b (with_width b (PyStr.len (text (buffer b p)) + 1) p)))
    with (text (buffer b p)) by (split_prompt p; destruct b; reflexivity).
  unfold skipped in *.
  set (p1 := with_width b (PyStr.len (text (buffer b p)) + 1) p) in *.
  assert (Hfix : forall p', same_content p' q ->
            lands ((p2 <- self ;;
                    if (PyStr.startswith (text (buffer b p2)) "-"
                        && (cursor_position (buffer b p2) =? 0))%bool
                    then sc b 1 else ret tt) p') q).
  { intros p' Hp'. cbn [bind self].
    destruct (PyStr.startswith (text (buffer b p')) "-"
              && (cursor_position (buffer b p') =? 0))%bool.
    - eapply lands_same_content; [apply sc_lands|assumption].
    - exists p'. split; [reflexivity|assumption]. }
  destruct (String.eqb (text (buffer b p)) "") eqn:E1;
    destruct (String.eqb (text (buffer b p)) "-") eqn:E2; cbn [negb andb orb] in *.
  1-3: change (lands (((ret tt);; (p2 <- self ;;
                    if (PyStr.startswith (text (buffer b p2)) "-"
                        && (cursor_position (buffer b p2) =? 0))%bool
                    then sc b 1 else ret tt)) p1) q);
       apply lands_bind with (q := q); [|exact Hfix];
       exists p1; split; [reflexivity|now apply Hskip].
  refine (lands_bind _ _ _ q _ _ Hfix).
  unfold bind at 1. rewrite value_get_reads.
  apply Hrun; reflexivity.
Qed.

(** A write that shows the clamped value already changes nothing. *)
Lemma write_value_shown cv p :
  (forall b t p, text (buffer b p) = t -> lands (st b t p) p) ->
  shows p cv -> lands (write_value st cv p) p.
Proof.
  intros Hst Hs. unfold write_value, shows in *. cbn [bind self].
  destruct (negb (_float p)).
  - now apply Hst.
  - destruct Hs as [w [f [Hsp [Hw Hf]]]]. rewrite Hsp.
    apply lands_bind with (q := p).
    + now apply Hst.
    + intros p' Hp'. cbn [bind self].
      rewrite (same_content_ending_zero _ _ Hp').
      eapply lands_same_content; [|exact Hp'].
      destruct (_ending_zero p); apply Hst;
        rewrite (same_content_text _ _ IntegralBuffer Hp'); cbn [buffer];
        rewrite Hf; [reflexivity|].
      apply append_empty_r.
Qed.

End TextLayer.

(** ** The setters at a given recursion budget *)

Lemma set_cursor_position_with_cursor (n : nat) b v p :
  exists c, set_cursor_position (S (S n)) b v p = Ret tt (with_cursor b c p).
Proof.
  destruct (settle_cursor_with_cursor b v p) as [c Hc].
  exists c. now rewrite set_cursor_position_settles, Hc.
Qed.

Lemma set_text_step (k : nat) b t :
  set_text (S k) b t = text_setter (set_text k) (set_cursor_position k) b t.
Proof. reflexivity. Qed.

Lemma set_text_same (n : nat) b t p :
  text (buffer b p) = t -> lands (set_text (S (S (S n))) b t p) p.
Proof.
  intros Ht. rewrite set_text_step.
  apply text_setter_same; [apply set_cursor_position_with_cursor|assumption].
Qed.

Lemma set_text_same_content (n : nat) b t p q :
  same_content p q -> text (buffer b q) = t ->
  lands (set_text (S (S (S n))) b t p) q.
Proof.
  intros Hpq Ht. eapply lands_same_content; [|exact Hpq].
  apply set_text_same. now rewrite (same_content_text _ _ b Hpq).
Qed.

Lemma set_text_lands (n : nat) b t p q :
  text (buffer b p) <> t ->
  (skipped t = true ->
   same_content (with_width b (PyStr.len t + 1) (with_text b t p)) q) ->
  (skipped t = false ->
   forall p1,
     same_content p1 (with_width b (PyStr.len t + 1) (with_text b t p)) ->
     lands (value_set (set_text (S (S n))) (value_of p1) (after_read p1)) q) ->
  lands (set_text (S (S (S n))) b t p) q.
Proof.
  intros Ht Hskip Hrun. rewrite set_text_step.
  destruct (text_setter_changed (set_text (S (S n)))
              (set_cursor_position (S (S n)))
              (set_cursor_position_with_cursor n) b t p Ht) as [p0 [H0 E]].
  rewrite E.
  assert (Ht0 : text (buffer b p0) = t).
  { rewrite (same_content_text _ _ b H0).
    split_prompt p; destruct b; reflexivity. }
  assert (H1 : same_content
                 (with_width b (PyStr.len t + 1) p0)
                 (with_width b (PyStr.len t + 1) (with_text b t p))).
  { now apply same_content_with_width. }
  apply on_text_changed_lands.
  - apply set_cursor_position_with_cursor.
  - rewrite Ht0. intros Hs. eapply same_content_trans; [exact H1|auto].
  - rewrite Ht0. intros Hs p1 Hp1. apply Hrun; [assumption|].
    eapply same_content_trans; eassumption.
Qed.

Lemma same_content_value_of p q : same_content p q -> value_of p = value_of q.
Proof.
  intros H. unfold value_of.
  now rewrite (same_content_read_value _ _ H), (same_content_default _ _ H).
Qed.

(** A changed text whose value, read back and clamped, is what the
    buffers show: one round of the callback and the prompt is settled. *)
Lemma set_text_settles (n : nat) b t p :
  text (buffer b p) <> t ->
  (skipped t = false ->
   exists cv,
     clamp_value p (value_of (with_width b (PyStr.len t + 1) (with_text b t p)))
     = inr cv
     /\ shows (settled_write b t p) cv) ->
  lands (set_text (S (S (S (S n)))) b t p) (settled_write b t p).
Proof.
  intros Ht Hshown. apply set_text_lands; [assumption| |].
  - intros Hs. unfold settled_write. rewrite Hs. reflexivity.
  - intros Hs p1 Hp1. destruct (Hshown Hs) as [cv [Hc Hsh]].
    unfold settled_write in *. rewrite Hs in *.
    rewrite value_set_clamps_then_writes.
    replace (clamp_value (after_read p1) (value_of p1)) with (inr exn cv).
    2:{ rewrite (same_content_value_of _ _ Hp1), <- Hc.
        transitivity (clamp_value p1
          (value_of (with_width b (PyStr.len t + 1) (with_text b t p)))).
        - transitivity (clamp_value
            (with_width b (PyStr.len t + 1) (with_text b t p))
            (value_of (with_width b (PyStr.len t + 1) (with_text b t p)))).
          + split_prompt p; destruct b; reflexivity.
          + symmetry. now apply same_content_clamp_value.
        - unfold after_read.
          destruct (read_value p1); split_prompt p1; 
            destruct fl; reflexivity. }
    pose proof (same_content_after_read _ _ Hp1) as Har.
    eapply lands_same_content; [|exact Har].
    apply write_value_shown.
    + intros b' t' p'. apply (set_text_same n).
    + eapply same_content_shows; eassumption.
Qed.

Lemma try_except_ValueError_returns {A} (c h : M A) p a p' :
  c p = Ret a p' -> try_except_ValueError c h p = Ret a p'.
Proof. intros E. unfold try_except_ValueError. now rewrite E. Qed.

Lemma write_value_int st cv p :
  _float p = false -> write_value st cv p = st WholeBuffer (PyNum.str cv) p.
Proof. intros H. unfold write_value. cbn [bind self]. now rewrite H. Qed.

Lemma write_value_float_lands st cv p w f q1 q :
  _float p = true ->
  PyStr.split_char "." (PyNum.str cv) = [w; f] ->
  lands (st WholeBuffer w p) q1 ->
  (forall p', same_content p' q1 ->
     lands (st IntegralBuffer (f ++ if _ending_zero q1 then "0" else "") p') q) ->
  lands (write_value st cv p) q.
Proof.
  intros Hf Hs H1 H2. unfold write_value. cbn [bind self].
  rewrite Hf, Hs. cbn [negb].
  apply lands_bind with (q := q1); [assumption|].
  intros p' Hp'. cbn [bind self].
  rewrite (same_content_ending_zero _ _ Hp').
  specialize (H2 p' Hp').
  destruct (_ending_zero q1); [assumption|].
  now rewrite append_empty_r in H2.
Qed.

(** ** [int(str(n))] is [n] *)

Lemma digit_chars_digits (u : Decimal.uint) :
  Forall (fun c => PyStr.is_digit c = true) (digit_chars u).
Proof.
  unfold digit_chars.
  induction u; cbn; constructor; try assumption; reflexivity.
Qed.

Lemma digit_not_special (c : ascii) :
  PyStr.is_digit c = true ->
  PyStr.is_space c = false /\ Ascii.eqb c "_" = false
  /\ Ascii.eqb c "-" = false /\ Ascii.eqb c "+" = false.
Proof.
  intros H. unfold PyStr.is_digit, PyStr.is_space in *.
  apply andb_true_iff in H as [H1 H2].
  apply Nat.leb_le in H1, H2.
  repeat split.
  - apply orb_false_iff; split.
    + apply Nat.eqb_neq. lia.
    + apply andb_false_iff. right. apply Nat.leb_gt. lia.
  - destruct (Ascii.eqb_spec c "_"); [subst; cbn in *; lia|reflexivity].
  - destruct (Ascii.eqb_spec c "-"); [subst; cbn in *; lia|reflexivity].
  - destruct (Ascii.eqb_spec c "+"); [subst; cbn in *; lia|reflexivity].
Qed.

Lemma digitpart_digits (cs : list ascii) :
  Forall (fun c => PyStr.is_digit c = true) cs ->
  PyStr.digitpart cs = (map PyStr.digit_val cs, []).
Proof.
  induction 1 as [|c r Hc Hr IH]; [reflexivity|].
  cbn [PyStr.digitpart map]. rewrite Hc.
  destruct Hr as [|u r' Hu Hr']; [reflexivity|].
  destruct (digit_not_special u Hu) as [_ [Hus _]]. rewrite Hus.
  cbn [andb]. now rewrite IH.
Qed.

Lemma strip_no_space (cs : list ascii) :
  Forall (fun c => PyStr.is_space c = false) cs -> PyStr.strip cs = cs.
Proof.
  intros H. unfold PyStr.strip.
  assert (L : forall l, Forall (fun c => PyStr.is_space c = false) l ->
                        PyStr.lstrip l = l).
  { intros l Hl. destruct Hl as [|c r Hc Hr]; [reflexivity|].
    cbn. now rewrite Hc. }
  rewrite (L cs H), L by now apply Forall_rev.
  apply rev_involutive.
Qed.

Lemma of_uint_acc_digits (u : Decimal.uint) :
  forall acc,
    Zpos (Pos.of_uint_acc u acc)
    = PyStr.digits_val (Zpos acc) (map PyStr.digit_val (digit_chars u)).
Proof.
  unfold digit_chars, PyStr.digits_val.
  induction u; intros acc; cbn [Pos.of_uint_acc NilEmpty.string_of_uint
    list_ascii_of_string map fold_left]; try reflexivity;
    rewrite IHu; f_equal; unfold PyStr.digit_val;
    match goal with
    | |- context [Z.of_nat (nat_of_ascii ?c)] =>
        let v := eval vm_compute in (Z.of_nat (nat_of_ascii c)) in
        change (Z.of_nat (nat_of_ascii c)) with v
    end; lia.
Qed.

Lemma of_uint_digits (u : Decimal.uint) :
  Z.of_N (Pos.of_uint u)
  = PyStr.digits_val 0 (map PyStr.digit_val (digit_chars u)).
Proof.
  induction u; cbn [Pos.of_uint]; try reflexivity;
    try (rewrite IHu; reflexivity);
    cbn [Z.of_N]; rewrite of_uint_acc_digits; reflexivity.
Qed.

Lemma digit_chars_to_uint (q : positive) :
  exists c r, digit_chars (Pos.to_uint q) = c :: r.
Proof.
  pose proof (DecimalPos.Unsigned.to_uint_nonnil q) as H.
  unfold digit_chars. destruct (Pos.to_uint q); try congruence;
    cbn; eauto.
Qed.

Lemma int_of_str (n : Z) : PyInt.of_string (PyInt.to_string n) = Some n.
Proof.
  destruct n as [|q|q]; [reflexivity| |].
  - unfold PyInt.of_string, PyInt.to_string. cbn [Z.to_int].
    assert (E : list_ascii_of_string
                  (NilZero.string_of_int (Decimal.Pos (Pos.to_uint q)))
                = digit_chars (Pos.to_uint q)).
    { unfold digit_chars. cbn.
      pose proof (DecimalPos.Unsigned.to_uint_nonnil q).
      destruct (Pos.to_uint q); congruence || reflexivity. }
    rewrite E. pose proof (digit_chars_digits (Pos.to_uint q)) as Hd.
    rewrite strip_no_space
      by (eapply Forall_impl; [|exact Hd]; intros c Hc;
          apply (digit_not_special c Hc)).
    destruct (digit_chars_to_uint q) as [c [r Hcr]].
    rewrite Hcr in Hd |- *. inversion Hd as [|? ? Hc Hr]; subst.
    destruct (digit_not_special c Hc) as [_ [_ [Hm Hp]]].
    rewrite Hm, Hp, digitpart_digits by assumption.
    cbn [map].
    change (PyStr.digit_val c :: map PyStr.digit_val r)
      with (map PyStr.digit_val (c :: r)).
    rewrite <- Hcr, <- of_uint_digits.
    f_equal. exact (DecimalZ.of_to (Zpos q)).
  - unfold PyInt.of_string, PyInt.to_string. cbn [Z.to_int].
    assert (E : list_ascii_of_string
                  (NilZero.string_of_int (Decimal.Neg (Pos.to_uint q)))
                = "-"%char :: digit_chars (Pos.to_uint q)).
    { unfold digit_chars. cbn.
      pose proof (DecimalPos.Unsigned.to_uint_nonnil q).
      destruct (Pos.to_uint q); congruence || reflexivity. }
    rewrite E. pose proof (digit_chars_digits (Pos.to_uint q)) as Hd.
    rewrite strip_no_space.
    2:{ constructor; [reflexivity|].
        eapply Forall_impl; [|exact Hd]; intros c Hc;
          apply (digit_not_special c Hc). }
    cbn [Ascii.eqb Bool.eqb].
    destruct (digit_chars_to_uint q) as [c [r Hcr]].
    rewrite digitpart_digits by assumption.
    rewrite Hcr. cbn [map].
    change (PyStr.digit_val c :: map PyStr.digit_val r)
      with (map PyStr.digit_val (c :: r)).
    rewrite <- Hcr, <- of_uint_digits.
    cbn [option_map]. f_equal. exact (DecimalZ.of_to (Zneg q)).
Qed.

(** ** Integer mode: writing and reading back *)

Ltac content_facts H :=
  let Hw := fresh "Hwhole" in let Hi := fresh "Hintegral" in
  apply same_content_agree in H;
  destruct H as [? ? ? ? ? H ? ? ? ? ?];
  pose proof (H WholeBuffer) as Hw; pose proof (H IntegralBuffer) as Hi;
  clear H; cbn [buffer] in Hw, Hi.

Lemma skipped_int_text (t : string) (z : Z) :
  PyInt.of_string t = Some z -> skipped t = false.
Proof.
  intros H. unfold skipped.
  destruct (String.eqb_spec t ""); [subst; discriminate|].
  destruct (String.eqb_spec t "-"); [subst; discriminate|reflexivity].
Qed.

Lemma clamp_value_within (p : NumberPrompt) (v : num) (lo hi : num) :
  _float p = false -> _min p = Some lo -> _max p = Some hi ->
  PyNum.lt v lo = false -> PyNum.lt hi v = false ->
  clamp_value p v = inr v.
Proof.
  intros Hf Hlo Hhi Hl Hh. unfold clamp_value, bound_value.
  rewrite Hf, Hlo, Hhi. cbn [negb]. unfold PyNum.max, PyNum.min.
  now rewrite Hl, Hh.
Qed.

Lemma read_value_int (p : NumberPrompt) :
  _float p = false ->
  read_value p = option_map PInt (PyInt.of_string (text (_whole_buffer p))).
Proof. intros H. unfold read_value. now rewrite H. Qed.

Lemma after_read_int (p : NumberPrompt) (v : num) :
  _float p = false -> read_value p = Some v -> after_read p = p.
Proof. intros Hf Hr. unfold after_read. now rewrite Hf, Hr. Qed.

Lemma same_content_written b t p q :
  same_content p q -> same_content (written b t p) (written b t q).
Proof.
  intros H. unfold written. rewrite (same_content_text _ _ b H).
  destruct (String.eqb (text (buffer b q)) t); [assumption|].
  now apply same_content_with_width, same_content_with_text.
Qed.

Lemma written_facts b t p :
  text (buffer b (written b t p)) = t
  /\ _float (written b t p) = _float p
  /\ _min (written b t p) = _min p
  /\ _max (written b t p) = _max p
  /\ _default (written b t p) = _default p
  /\ _ending_zero (written b t p) = _ending_zero p
  /\ _focus (written b t p) = _focus p
  /\ _invalid (written b t p) = _invalid p
  /\ _invalid_message (written b t p) = _invalid_message p.
Proof.
  unfold written. destruct (String.eqb_spec (text (buffer b p)) t).
  - repeat split; assumption.
  - split_prompt p; destruct b; repeat split; reflexivity.
Qed.

(** In integer mode, a text that reads as [z], where [z] is inside the
    bounds and is written as that same text, settles in one round. *)
Lemma set_text_whole_int_lands (n : nat) (p : NumberPrompt) (z : Z) :
  _float p = false ->
  clamp_value p (PInt z) = inr (PInt z) ->
  lands (set_text (S (S (S (S n)))) WholeBuffer (PyInt.to_string z) p)
        (written WholeBuffer (PyInt.to_string z) p).
Proof.
  intros Hf Hc. unfold written.
  destruct (String.eqb_spec (text (buffer WholeBuffer p)) (PyInt.to_string z))
    as [E|E].
  - now apply set_text_same.
  - set (t := PyInt.to_string z) in *.
    set (p1 := with_width WholeBuffer (PyStr.len t + 1)
                 (with_text WholeBuffer t p)).
    assert (Hr1 : read_value p1 = Some (PInt z)).
    { rewrite read_value_int by (split_prompt p; assumption).
      replace (text (_whole_buffer p1)) with t
        by (split_prompt p; reflexivity).
      unfold t. now rewrite int_of_str. }
    assert (Hs : settled_write WholeBuffer t p = p1).
    { unfold settled_write. fold p1.
      rewrite (skipped_int_text t z) by apply int_of_str.
      apply (after_read_int p1 (PInt z)); [|assumption].
      split_prompt p; assumption. }
    rewrite <- Hs. apply set_text_settles; [assumption|].
    intros _. exists (PInt z). fold p1. unfold value_of. rewrite Hr1.
    split; [assumption|]. rewrite Hs. unfold shows.
    replace (_float p1) with false by (split_prompt p; auto).
    split_prompt p; reflexivity.
Qed.

Lemma value_get_int_ok (p : NumberPrompt) (z : Z) :
  _float p = false -> PyInt.of_string (text (_whole_buffer p)) = Some z ->
  value_get p = Ret (PInt z) p.
Proof.
  intros Hf Hz. rewrite value_get_reads.
  assert (Hr : read_value p = Some (PInt z))
    by (rewrite read_value_int, Hz; auto).
  now rewrite (after_read_int p (PInt z)), Hr.
Qed.

(** Integer mode: a value inside the configured bounds is written as its
    decimal text and read back unchanged, with no validation error
    raised on the way. *)
Theorem set_value_get_value_int (n : nat) (p : NumberPrompt) (v : Z)
    (lo hi : num) :
  _float p = false -> _min p = Some lo -> _max p = Some hi ->
  PyNum.lt (PInt v) lo = false -> PyNum.lt hi (PInt v) = false ->
  exists p',
    set_value (S (S (S (S n)))) (PInt v) p = Ret tt p'
    /\ text (_whole_buffer p') = PyInt.to_string v
    /\ _invalid p' = _invalid p
    /\ value_get p' = Ret (PInt v) p'.
Proof.
  intros Hf Hlo Hhi Hl Hh.
  pose proof (clamp_value_within p (PInt v) lo hi Hf Hlo Hhi Hl Hh) as Hc.
  unfold set_value. rewrite value_set_clamps_then_writes, Hc.
  rewrite write_value_int by assumption. cbn [PyNum.str].
  destruct (set_text_whole_int_lands n p v Hf Hc) as [p' [Hr Hs]].
  destruct (written_facts WholeBuffer (PyInt.to_string v) p)
    as [Ht [Hf' [_ [_ [_ [_ [_ [Hi _]]]]]]]].
  content_facts Hs. cbn [buffer] in Ht.
  exists p'. repeat split; try congruence.
  apply value_get_int_ok; [congruence|].
  replace (text (_whole_buffer p')) with (PyInt.to_string v) by congruence.
  apply int_of_str.
Qed.

(** The integer round trip on the value 42 between the bounds 0 and 100. *)
Lemma set_value_get_value_int_witness :
  exists p',
    set_value 4 (PInt 42) int_prompt_0_100 = Ret tt p'
    /\ text (_whole_buffer p') = PyInt.to_string 42
    /\ _invalid p' = _invalid int_prompt_0_100
    /\ value_get p' = Ret (PInt 42) p'.
Proof.
  apply (set_value_get_value_int 0 int_prompt_0_100 42 (PInt 0) (PInt 100));
    reflexivity.
Defined.

(** ** [down] at the lower bound *)

Lemma down_at_zero_lands (n : nat) (p : NumberPrompt) :
  _float p = false ->
  _min p = Some (PInt 0) -> _max p = Some (PInt 100) ->
  text (_whole_buffer p) = "0" ->
  lands (set_text (S (S (S (S (S n))))) WholeBuffer "-1" p)
        (written WholeBuffer "0"
           (with_width WholeBuffer (PyStr.len "-1" + 1)
              (with_text WholeBuffer "-1" p))).
Proof.
  intros Hfloat Hmin Hmax Htext.
  apply set_text_lands.
  - cbn [buffer]. rewrite Htext. discriminate.
  - discriminate.
  - intros _ p1 Hp1.
    assert (Hf1 : _float p1 = false /\ _min p1 = Some (PInt 0)
                  /\ _max p1 = Some (PInt 100)
                  /\ text (_whole_buffer p1) = "-1").
    { pose proof Hp1 as H. content_facts H.
      split_prompt p; cbn in *. repeat split; congruence. }
    destruct Hf1 as [Hf1 [Hmin1 [Hmax1 Ht1]]].
    assert (Hr : read_value p1 = Some (PInt (-1)))
      by (rewrite read_value_int, Ht1; auto).
    unfold value_of. rewrite Hr, (after_read_int p1 _ Hf1 Hr).
    rewrite value_set_clamps_then_writes.
    assert (Hc : clamp_value p1 (PInt (-1)) = inr (PInt 0))
      by (unfold clamp_value, bound_value; rewrite Hf1, Hmin1, Hmax1;
          reflexivity).
    rewrite Hc, write_value_int by assumption.
    eapply lands_same_content.
    + apply (set_text_whole_int_lands n p1 0 Hf1).
      unfold clamp_value, bound_value; rewrite Hf1, Hmin1, Hmax1; reflexivity.
    + now apply same_content_written.
Qed.

(** ** Float mode: writing 1.5 over "5" and over "50" *)

Lemma clamp_value_ext (p q : NumberPrompt) (v : num) :
  _float p = _float q -> _min p = _min q -> _max p = _max q ->
  clamp_value p v = clamp_value q v.
Proof.
  intros Hf Hlo Hhi. unfold clamp_value, bound_value.
  now rewrite Hf, Hlo, Hhi.
Qed.

(** Clamping a clamped value changes nothing. *)
Lemma clamp_value_idempotent (p : NumberPrompt) (v c : num) :
  clamp_value p v = inr c -> clamp_value p c = inr c.
Proof.
  unfold clamp_value.
  destruct (_min p) as [lo|], (_max p) as [hi|];
    repeat match goal with
      | |- context [bound_value p ?b] => destruct (bound_value p b)
      end; try discriminate; intros H; injection H as <-;
    unfold PyNum.max, PyNum.min;
    repeat match goal with
      | |- context [PyNum.lt ?a ?b] =>
          no_if a; no_if b; destruct (PyNum.lt a b) eqn:?
      end; congruence.
Qed.

Lemma clamp_value_unbounded (p : NumberPrompt) (v : num) :
  _min p = None -> _max p = None -> clamp_value p v = inr v.
Proof. intros Hlo Hhi. unfold clamp_value. now rewrite Hlo, Hhi. Qed.

Lemma read_value_float (p : NumberPrompt) :
  _float p = true ->
  read_value p =
  option_map PFloat
    (PyFloat.of_string
       (text (_whole_buffer p) ++ "." ++ text (_integral_buffer p))).
Proof. intros H. unfold read_value. now rewrite H. Qed.

Lemma after_read_float_ok (p : NumberPrompt) (v : num) :
  _float p = true -> read_value p = Some v ->
  _ending_zero p = ends_in_zero (text (_integral_buffer p)) ->
  after_read p = p.
Proof.
  intros Hf Hr Hz. unfold after_read. rewrite Hf, Hr, <- Hz. cbn [negb].
  split_prompt p; reflexivity.
Qed.

Lemma value_get_float_ok (p : NumberPrompt) (x : PyFloat.float) :
  _float p = true ->
  PyFloat.of_string
    (text (_whole_buffer p) ++ "." ++ text (_integral_buffer p)) = Some x ->
  _ending_zero p = ends_in_zero (text (_integral_buffer p)) ->
  value_get p = Ret (PFloat x) p.
Proof.
  intros Hf Hx Hz. rewrite value_get_reads.
  assert (Hr : read_value p = Some (PFloat x))
    by (rewrite read_value_float, Hx; auto).
  now rewrite (after_read_float_ok p (PFloat x)), Hr.
Qed.

Lemma str_float_1_5 : PyFloat.to_string float_1_5 = "1.5".
Proof. vm_compute. reflexivity. Qed.

Lemma float_of_1_5 (f : string) :
  f = "5" \/ f = "50" -> PyFloat.of_string ("1" ++ "." ++ f) = Some float_1_5.
Proof. intros [-> | ->]; vm_compute; reflexivity. Qed.

Lemma set_value_1_5_lands (n : nat) (p : NumberPrompt) (f : string) :
  _float p = true ->
  clamp_value p (PFloat float_1_5) = inr (PFloat float_1_5) ->
  f = "5" \/ f = "50" ->
  text (_integral_buffer p) = f ->
  _ending_zero p = ends_in_zero f ->
  lands (set_value (S (S (S (S n)))) (PFloat float_1_5) p)
        (written WholeBuffer "1" p).
Proof.
  intros Hf Hclamp Hform Hfrac Hz.
  assert (Happ : (("5" ++ if _ending_zero p then "0" else ""))%string = f)
    by (rewrite Hz; destruct Hform; subst f; reflexivity).
  unfold set_value. rewrite value_set_clamps_then_writes.
  rewrite Hclamp.
  destruct (written_facts WholeBuffer "1" p)
    as [Wt [Wf [Wlo [Whi [_ [Wz _]]]]]].
  assert (Wi : text (_integral_buffer (written WholeBuffer "1" p)) = f).
  { unfold written. destruct (String.eqb _ _); [assumption|].
    split_prompt p; assumption. }
  apply write_value_float_lands
    with (w := "1") (f := "5") (q1 := written WholeBuffer "1" p).
  - assumption.
  - cbn [PyNum.str]. now rewrite str_float_1_5.
  - unfold written.
    destruct (String.eqb_spec (text (buffer WholeBuffer p)) "1") as [E|E].
    + now apply set_text_same.
    + set (p1 := with_width WholeBuffer (PyStr.len "1" + 1)
                   (with_text WholeBuffer "1" p)).
      assert (Hp1 : _float p1 = true /\ text (_whole_buffer p1) = "1"
                    /\ text (_integral_buffer p1) = f
                    /\ _ending_zero p1 = _ending_zero p)
        by (split_prompt p; cbn in *; auto).
      destruct Hp1 as [Hf1 [Hw1 [Hi1 Hz1]]].
      assert (Hr1 : read_value p1 = Some (PFloat float_1_5))
        by (rewrite read_value_float, Hw1, Hi1, float_of_1_5; auto).
      assert (Hs : settled_write WholeBuffer "1" p = p1).
      { unfold settled_write. fold p1. cbn [skipped String.eqb orb].
        change (skipped "1") with false. cbv iota.
        apply (after_read_float_ok p1 _ Hf1 Hr1). congruence. }
      rewrite <- Hs. apply set_text_settles; [assumption|].
      intros _. exists (PFloat float_1_5). fold p1. unfold value_of.
      rewrite Hr1. split.
      * exact Hclamp.
      * rewrite Hs. unfold shows. rewrite Hf1. cbn [negb PyNum.str].
        rewrite str_float_1_5. exists "1", "5".
        split; [reflexivity|]. split; [assumption|].
        rewrite Hi1, Hz1. now symmetry.
  - intros p' Hp'. rewrite Wz, Happ.
    apply set_text_same_content; [assumption|]. exact Wi.
Qed.

(** ** No text ending in ".-1" is a float *)

Lemma list_ascii_of_string_app (a b : string) :
  list_ascii_of_string (a ++ b)
  = (list_ascii_of_string a ++ list_ascii_of_string b)%list.
Proof. induction a as [|c a IH]; cbn; congruence. Qed.

Lemma lstrip_bad_tail (l : list ascii) :
  exists l', PyStr.lstrip (l ++ bad_tail) = (l' ++ bad_tail)%list.
Proof.
  induction l as [|c l IH].
  - exists []. reflexivity.
  - cbn [app PyStr.lstrip]. destruct (PyStr.is_space c).
    + exact IH.
    + exists (c :: l). reflexivity.
Qed.

Lemma strip_bad_tail (l : list ascii) :
  exists l', PyStr.strip (l ++ bad_tail) = (l' ++ bad_tail)%list.
Proof.
  unfold PyStr.strip. destruct (lstrip_bad_tail l) as [l1 ->].
  exists l1. rewrite rev_app_distr. cbn [bad_tail rev app PyStr.lstrip].
  change (PyStr.is_space "1") with false. cbv iota.
  change ("1"%char :: "-"%char :: "."%char :: rev l1)
    with (rev bad_tail ++ rev l1)%list.
  rewrite <- rev_app_distr. apply rev_involutive.
Qed.

Lemma digitpart_bad_tail (k : nat) :
  forall l, (List.length l <= k)%nat ->
  exists l', snd (PyStr.digitpart (l ++ bad_tail)) = (l' ++ bad_tail)%list.
Proof.
  induction k as [|k IH]; intros l Hl.
  - destruct l; [|cbn in Hl; lia]. exists []. reflexivity.
  - destruct l as [|c r]; [exists []; reflexivity|].
    cbn [app PyStr.digitpart]. destruct (PyStr.is_digit c).
    2:{ exists (c :: r). reflexivity. }
    destruct r as [|u r'].
    + exists []. reflexivity.
    + cbn [app].
      destruct (Ascii.eqb u "_"
                && match (r' ++ bad_tail)%list with
                   | c' :: _ => PyStr.is_digit c'
                   | [] => false
                   end)%bool.
      * destruct (IH r') as [l' E]; [cbn in *; lia|].
        exists l'. destruct (PyStr.digitpart (r' ++ bad_tail)). exact E.
      * destruct (IH (u :: r')) as [l' E]; [cbn in *; lia|].
        exists l'. cbn [app] in E.
        destruct (PyStr.digitpart (u :: r' ++ bad_tail)). exact E.
Qed.

Lemma digitpart_leaves_bad_tail (l : list ascii) :
  exists ds l', PyStr.digitpart (l ++ bad_tail) = (ds, (l' ++ bad_tail)%list).
Proof.
  destruct (digitpart_bad_tail (List.length l) l (le_n _)) as [l' E].
  destruct (PyStr.digitpart (l ++ bad_tail)) as [ds k]. cbn in E. subst k.
  eauto.
Qed.

Lemma exponent_bad_tail (l : list ascii) :
  PyFloat.exponent (l ++ bad_tail) = None.
Proof.
  destruct l as [|c l]; [reflexivity|].
  cbn [app PyFloat.exponent]. destruct (Ascii.eqb (PyStr.lower c) "e");
    [|reflexivity].
  assert (H : forall l0, match PyStr.digitpart (l0 ++ bad_tail) with
                         | (d :: ds, []) =>
                             Some (PyStr.digits_val 0 (d :: ds))
                         | _ => None
                         end = None).
  { intros l0. destruct (digitpart_leaves_bad_tail l0) as [ds [l' ->]].
    destruct ds; [reflexivity|]. destruct l'; reflexivity. }
  destruct l as [|u l].
  - reflexivity.
  - cbn [app]. destruct (Ascii.eqb u "-").
    + specialize (H l).
      destruct (PyStr.digitpart (l ++ bad_tail)) as [[|d ds] [|a k]];
        congruence.
    + destruct (Ascii.eqb u "+").
      * specialize (H l).
        destruct (PyStr.digitpart (l ++ bad_tail)) as [[|d ds] [|a k]];
          congruence.
      * specialize (H (u :: l)). cbn [app] in H.
        destruct (PyStr.digitpart (u :: l ++ bad_tail)) as [[|d ds] [|a k]];
          congruence.
Qed.

Lemma last_char_bad_tail (l : list ascii) :
  last_char (PyFloat.lower_all (l ++ bad_tail)) = "1"%char.
Proof.
  unfold PyFloat.lower_all.
  induction l as [|c l IH]; [reflexivity|].
  cbn [app map string_of_list_ascii last_char].
  destruct (string_of_list_ascii (map PyStr.lower (l ++ bad_tail))) eqn:E.
  - destruct l; discriminate.
  - exact IH.
Qed.

Lemma float_of_string_bad_tail (w : string) :
  PyFloat.of_string (w ++ ".-1") = None.
Proof.
  unfold PyFloat.of_string.
  rewrite list_ascii_of_string_app.
  change (list_ascii_of_string ".-1") with bad_tail.
  destruct (strip_bad_tail (list_ascii_of_string w)) as [l1 ->].
  assert (S : exists neg l2,
            match (l1 ++ bad_tail)%list with
            | c :: r =>
                if Ascii.eqb c "-" then (true, r)
                else if Ascii.eqb c "+" then (false, r)
                else (false, c :: r)
            | [] => (false, [])
            end = (neg, (l2 ++ bad_tail)%list)).
  { destruct l1 as [|c l1]; [exists false, []; reflexivity|].
    cbn [app]. destruct (Ascii.eqb c "-"); [exists true, l1; reflexivity|].
    destruct (Ascii.eqb c "+"); [exists false, l1; reflexivity|].
    exists false, (c :: l1). reflexivity. }
  destruct S as [neg [l2 ->]].
  pose proof (last_char_bad_tail l2) as Hl.
  destruct (String.eqb_spec (PyFloat.lower_all (l2 ++ bad_tail)) "inf")
    as [E|_]; [rewrite E in Hl; discriminate|].
  destruct (String.eqb_spec (PyFloat.lower_all (l2 ++ bad_tail)) "infinity")
    as [E|_]; [rewrite E in Hl; discriminate|].
  cbn [orb].
  destruct (String.eqb_spec (PyFloat.lower_all (l2 ++ bad_tail)) "nan")
    as [E|_]; [rewrite E in Hl; discriminate|].
  destruct (digitpart_leaves_bad_tail l2) as [ip [l3 ->]].
  assert (R : exists fp r2,
            match (l3 ++ bad_tail)%list with
            | c :: t =>
                if Ascii.eqb c "." then PyStr.digitpart t
                else ([], (l3 ++ bad_tail)%list)
            | [] => ([], (l3 ++ bad_tail)%list)
            end = (fp, r2)
            /\ PyFloat.exponent r2 = None).
  { destruct l3 as [|c l3].
    - exists [], [ "-"%char; "1"%char ]. split; reflexivity.
    - cbn [app]. destruct (Ascii.eqb c ".").
      + destruct (digitpart_leaves_bad_tail l3) as [fp [l4 E]].
        exists fp, (l4 ++ bad_tail)%list.
        split; [assumption|apply exponent_bad_tail].
      + exists [], ((c :: l3) ++ bad_tail)%list.
        split; [reflexivity|apply exponent_bad_tail]. }
  destruct R as [fp [r2 [-> Hr2]]]. rewrite Hr2.
  destruct ip, fp; reflexivity.
Qed.

(** ** Float mode: [down] on the fractional buffer at "0" *)

(** A fractional text that differs from what the buffer holds, and that with
    the whole text reads as the clamped value [c]: one round settles it. *)
Lemma set_text_integral_settles (n : nat) (p : NumberPrompt)
    (c : PyFloat.float) (w f : string) :
  _float p = true ->
  text (_whole_buffer p) = w ->
  text (_integral_buffer p) <> f ->
  _ending_zero p = false ->
  ends_in_zero f = false ->
  PyStr.split_char "." (PyFloat.to_string c) = [w; f] ->
  PyFloat.of_string (w ++ "." ++ f) = Some c ->
  clamp_value p (PFloat c) = inr (PFloat c) ->
  lands (set_text (S (S (S (S n)))) IntegralBuffer f p)
        (with_width IntegralBuffer (PyStr.len f + 1)
           (with_text IntegralBuffer f p)).
Proof.
  intros Hf Hw Hne Hz Hzf Hsp Hparse Hclamp.
  set (p1 := with_width IntegralBuffer (PyStr.len f + 1)
               (with_text IntegralBuffer f p)).
  assert (Hp1 : _float p1 = true /\ text (_whole_buffer p1) = w
                /\ text (_integral_buffer p1) = f
                /\ _ending_zero p1 = false)
    by (split_prompt p; cbn in *; auto).
  destruct Hp1 as [Hf1 [Hw1 [Hi1 Hz1]]].
  assert (Hr1 : read_value p1 = Some (PFloat c))
    by (rewrite read_value_float, Hw1, Hi1, Hparse; auto).
  assert (Hs : settled_write IntegralBuffer f p = p1).
  { unfold settled_write. fold p1. destruct (skipped f); [reflexivity|].
    apply (after_read_float_ok p1 _ Hf1 Hr1). congruence. }
  rewrite <- Hs. apply set_text_settles; [assumption|].
  intros _. exists (PFloat c). fold p1. unfold value_of. rewrite Hr1.
  split; [assumption|]. rewrite Hs. unfold shows. rewrite Hf1.
  cbn [negb PyNum.str]. exists w, f.
  split; [assumption|]. split; [assumption|].
  rewrite Hi1, Hz1. symmetry. apply append_empty_r.
Qed.

Lemma written_whole_keeps_integral (t : string) (p : NumberPrompt) :
  _integral_buffer (written WholeBuffer t p) = _integral_buffer p.
Proof.
  unfold written. destruct (String.eqb _ _); [reflexivity|].
  split_prompt p; reflexivity.
Qed.

Lemma after_failed_read_fields (p : NumberPrompt) :
  _float (after_failed_read p) = _float p
  /\ _min (after_failed_read p) = _min p
  /\ _max (after_failed_read p) = _max p
  /\ _default (after_failed_read p) = _default p
  /\ _ending_zero (after_failed_read p) = false
  /\ text (_whole_buffer (after_failed_read p)) = text (_whole_buffer p)
  /\ text (_integral_buffer (after_failed_read p)) = "-1"
  /\ _invalid (after_failed_read p) = true
  /\ _invalid_message (after_failed_read p) = _value_error_message.
Proof. split_prompt p. repeat split; reflexivity. Qed.

Lemma after_default_fields (w f : string) (p : NumberPrompt) :
  _float (after_default w f p) = _float p
  /\ _min (after_default w f p) = _min p
  /\ _max (after_default w f p) = _max p
  /\ _ending_zero (after_default w f p) = false
  /\ text (_whole_buffer (after_default w f p)) = w
  /\ text (_integral_buffer (after_default w f p)) = f
  /\ _invalid (after_default w f p) = true
  /\ _invalid_message (after_default w f p) = _value_error_message.
Proof.
  destruct (written_facts WholeBuffer w (after_failed_read p))
    as [Wt [Wf [Wlo [Whi [Wd [Wz [_ [Wv Wm]]]]]]]].
  destruct (after_failed_read_fields p)
    as [Ff [Flo [Fhi [Fd [Fz [Fw [Fi [Fv Fm]]]]]]]].
  unfold after_default.
  set (q := written WholeBuffer w (after_failed_read p)) in *.
  clearbody q. cbn [buffer] in Wt.
  split_prompt q; cbn in *. repeat split; congruence.
Qed.

(** A read that fails on a prompt already marked by such a failure
    changes nothing. *)
Lemma after_read_failed_again (q : NumberPrompt) :
  _float q = true -> read_value q = None ->
  _ending_zero q = false ->
  ends_in_zero (text (_integral_buffer q)) = false ->
  _invalid q = true -> _invalid_message q = _value_error_message ->
  after_read q = q.
Proof.
  intros Hf Hr Hz Hzf Hv Hm. unfold after_read. rewrite Hr, Hf, Hzf.
  cbn [negb]. split_prompt q; cbn in *; subst; reflexivity.
Qed.

Section DownOnFraction.
Variable n : nat.
Variable p : NumberPrompt.
Variable c : PyFloat.float.
Variables w f : string.
Hypothesis Hfloat : _float p = true.
Hypothesis Hwhole : text (_whole_buffer p) = "0".
Hypothesis Hfrac : text (_integral_buffer p) = "0".
Hypothesis Hdefault : clamp_value p (_default p) = inr (PFloat c).
Hypothesis Hstable : clamp_value p (PFloat c) = inr (PFloat c).
Hypothesis Hsplit : PyStr.split_char "." (PyFloat.to_string c) = [w; f].
Hypothesis Hzero : ends_in_zero f = false.
Hypothesis Hparse : PyFloat.of_string (w ++ "." ++ f) = Some c.
Hypothesis Hbad : PyFloat.of_string (w ++ ".-1") = None.

Lemma f_not_minus_one : f <> "-1".
Proof. intros ->. cbn in Hparse. congruence. Qed.

Lemma clamp_like_p (q : NumberPrompt) (v : num) :
  _float q = true -> _min q = _min p -> _max q = _max p ->
  clamp_value q v = clamp_value p v.
Proof. intros. apply clamp_value_ext; congruence. Qed.

(** What a prompt has whose content is that of [q], given [q]'s. *)
Lemma content_fields (q q' : NumberPrompt) :
  same_content q q' ->
  _float q = _float q' /\ _min q = _min q' /\ _max q = _max q'
  /\ _default q = _default q' /\ _ending_zero q = _ending_zero q'
  /\ text (_whole_buffer q) = text (_whole_buffer q')
  /\ text (_integral_buffer q) = text (_integral_buffer q')
  /\ _invalid q = _invalid q'
  /\ _invalid_message q = _invalid_message q'.
Proof. intros H. content_facts H. repeat split; assumption. Qed.

Lemma written_whole_failed_fields :
  _float (written WholeBuffer w (after_failed_read p)) = true
  /\ _min (written WholeBuffer w (after_failed_read p)) = _min p
  /\ _max (written WholeBuffer w (after_failed_read p)) = _max p
  /\ _default (written WholeBuffer w (after_failed_read p)) = _default p
  /\ _ending_zero (written WholeBuffer w (after_failed_read p)) = false
  /\ text (_whole_buffer (written WholeBuffer w (after_failed_read p))) = w
  /\ text (_integral_buffer (written WholeBuffer w (after_failed_read p)))
     = "-1"
  /\ _invalid (written WholeBuffer w (after_failed_read p)) = true
  /\ _invalid_message (written WholeBuffer w (after_failed_read p))
     = _value_error_message.
Proof.
  destruct (written_facts WholeBuffer w (after_failed_read p))
    as [Wt [Wf [Wlo [Whi [Wd [Wz [_ [Wv Wm]]]]]]]].
  destruct (after_failed_read_fields p)
    as [Ff [Flo [Fhi [Fd [Fz [Fw [Fi [Fv Fm]]]]]]]].
  rewrite written_whole_keeps_integral. cbn [buffer] in Wt.
  repeat split; congruence.
Qed.

(** The inner round: the whole text becomes [w] while the fractional text
    is still "-1". *)
Lemma whole_written_lands (q : NumberPrompt) :
  same_content q (after_failed_read p) ->
  lands (set_text (S (S (S (S (S n))))) WholeBuffer w q)
        (if (String.eqb "0" w || skipped w)%bool
         then written WholeBuffer w (after_failed_read p)
         else after_default w f p).
Proof.
  intros Hq.
  destruct (after_failed_read_fields p)
    as [Ff [Flo [Fhi [Fd [Fz [Fw [Fi [Fv Fm]]]]]]]].
  destruct written_whole_failed_fields
    as [Wf [Wlo [Whi [Wd [Wz [Wt [Wi [Wv Wm]]]]]]]].
  destruct (content_fields _ _ Hq)
    as [Hf [Hlo [Hhi [Hd [Hz [Hw [Hi [Hv Hm]]]]]]]].
  destruct (String.eqb_spec "0" w) as [E|E]; cbn [orb].
  - apply set_text_same_content
      with (q := written WholeBuffer w (after_failed_read p)).
    + unfold written.
      replace (text (buffer WholeBuffer (after_failed_read p))) with "0"
        by (symmetry; exact Hwhole).
      rewrite <- E. exact Hq.
    + exact Wt.
  - assert (Ew : written WholeBuffer w (after_failed_read p)
                 = with_width WholeBuffer (PyStr.len w + 1)
                     (with_text WholeBuffer w (after_failed_read p))).
    { unfold written.
      replace (text (buffer WholeBuffer (after_failed_read p))) with "0"
        by (symmetry; exact Hwhole).
      destruct (String.eqb_spec "0" w); [congruence|reflexivity]. }
    apply set_text_lands.
    + cbn [buffer]. congruence.
    + intros Hs. rewrite Hs, Ew.
      now apply same_content_with_width, same_content_with_text.
    + intros Hs q1 Hq1. rewrite Hs.
      assert (Hq1' : same_content q1
                       (written WholeBuffer w (after_failed_read p))).
      { rewrite Ew. eapply same_content_trans; [exact Hq1|].
        now apply same_content_with_width, same_content_with_text. }
      destruct (content_fields _ _ Hq1')
        as [Hf1 [Hlo1 [Hhi1 [Hd1 [Hz1 [Hw1 [Hi1 [Hv1 Hm1]]]]]]]].
      assert (Hr1 : read_value q1 = None).
      { rewrite read_value_float by congruence. rewrite Hw1, Hi1, Wt, Wi.
        change ("." ++ "-1")%string with ".-1". now rewrite Hbad. }
      assert (Ha1 : after_read q1 = q1).
      { apply after_read_failed_again; try congruence.
        replace (text (_integral_buffer q1)) with "-1" by congruence.
        reflexivity. }
      unfold value_of. rewrite Hr1, Ha1.
      replace (_default q1) with (_default p) by congruence.
      rewrite value_set_clamps_then_writes.
      rewrite (clamp_like_p q1) by congruence. rewrite Hdefault.
      apply write_value_float_lands
        with (w := w) (f := f)
             (q1 := written WholeBuffer w (after_failed_read p)).
      * congruence.
      * exact Hsplit.
      * apply set_text_same_content; [assumption|exact Wt].
      * intros q2 Hq2. rewrite Wz, append_empty_r.
        destruct (content_fields _ _ Hq2)
          as [Hf2 [Hlo2 [Hhi2 [Hd2 [Hz2 [Hw2 [Hi2 _]]]]]]].
        eapply lands_same_content.
        -- apply (set_text_integral_settles n q2 c w f); try congruence.
           ++ rewrite Hi2, Wi. intros E'. symmetry in E'.
              now apply f_not_minus_one.
           ++ rewrite (clamp_like_p q2) by congruence. assumption.
        -- unfold after_default.
           now apply same_content_with_width, same_content_with_text.
Qed.

Lemma down_on_fraction_lands :
  lands (set_text (S (S (S (S (S (S n)))))) IntegralBuffer "-1" p)
        (after_default w f p).
Proof.
  destruct (after_failed_read_fields p)
    as [Ff [Flo [Fhi [Fd [Fz [Fw [Fi [Fv Fm]]]]]]]].
  destruct written_whole_failed_fields
    as [Wf [Wlo [Whi [Wd [Wz [Wt [Wi [Wv Wm]]]]]]]].
  destruct (after_default_fields w f p)
    as [Df [Dlo [Dhi [Dz [Dw [Di [Dv Dm]]]]]]].
  apply set_text_lands.
  - cbn [buffer]. rewrite Hfrac. discriminate.
  - discriminate.
  - intros _ p1 Hp1.
    set (P1 := with_width IntegralBuffer (PyStr.len "-1" + 1)
                 (with_text IntegralBuffer "-1" p)) in *.
    assert (FP : _float P1 = _float p /\ _default P1 = _default p
                 /\ text (_whole_buffer P1) = text (_whole_buffer p)
                 /\ text (_integral_buffer P1) = "-1").
    { subst P1. clear. split_prompt p. repeat split; reflexivity. }
    destruct FP as [Pf [Pd [Pw Pi]]].
    destruct (content_fields _ _ Hp1)
      as [Hf1 [Hlo1 [Hhi1 [Hd1 [Hz1 [Hw1 [Hi1 _]]]]]]].
    assert (Hr1 : read_value p1 = None).
    { rewrite read_value_float by congruence.
      rewrite Hw1, Hi1, Pw, Pi, Hwhole. reflexivity. }
    assert (HrP : read_value P1 = None)
      by (rewrite <- Hr1; symmetry; now apply same_content_read_value).
    assert (Ha1 : same_content (after_read p1) (after_failed_read p)).
    { eapply same_content_trans; [apply same_content_after_read, Hp1|].
      unfold after_read. rewrite HrP.
      replace (_float P1) with true by congruence. cbn [negb].
      rewrite Pi. reflexivity. }
    destruct (content_fields _ _ Ha1)
      as [Hf [Hlo [Hhi [Hd [Hz [Hw [Hi [Hv Hm]]]]]]]].
    unfold value_of. rewrite Hr1.
    replace (_default p1) with (_default p) by congruence.
    rewrite value_set_clamps_then_writes.
    rewrite (clamp_like_p (after_read p1)) by congruence. rewrite Hdefault.
    eapply write_value_float_lands with (w := w) (f := f).
    + congruence.
    + exact Hsplit.
    + apply whole_written_lands. exact Ha1.
    + intros p' Hp'.
      destruct (String.eqb "0" w || skipped w)%bool.
      * rewrite Wz, append_empty_r.
        destruct (content_fields _ _ Hp')
          as [Hf2 [Hlo2 [Hhi2 [Hd2 [Hz2 [Hw2 [Hi2 _]]]]]]].
        eapply lands_same_content.
        -- apply (set_text_integral_settles (S n) p' c w f); try congruence.
           ++ rewrite Hi2, Wi. intros E'. symmetry in E'.
              now apply f_not_minus_one.
           ++ rewrite (clamp_like_p p') by congruence. assumption.
        -- unfold after_default.
           now apply same_content_with_width, same_content_with_text.
      * rewrite Dz, append_empty_r.
        apply set_text_same_content; assumption.
Qed.

End DownOnFraction.

(** ** The example prompts are reached by the code *)

Lemma int_prompt_0_100_reached :
  exists q,
    init unit (Literal (ObjInt 0)) false (Some (PInt 100)) (Some (PInt 0))
         "Invalid input" tt = Constructed q
    /\ _on_rendered 6 q = Ret tt int_prompt_0_100.
Proof. eexists; split; [reflexivity|vm_compute; reflexivity]. Qed.

Lemma float_prompt_reached :
  exists q,
    init unit (Literal (ObjInt 0)) true None None "Invalid input" tt
    = Constructed q
    /\ _on_rendered 6 q = Ret tt float_prompt.
Proof. eexists; split; [reflexivity|vm_compute; reflexivity]. Qed.

Lemma float_prompt_0_1e17_reached :
  exists q,
    init unit (Literal (ObjInt 0)) true (Some (PInt (10 ^ 17)))
         (Some (PInt 0)) "Invalid input" tt = Constructed q
    /\ _on_rendered 6 q = Ret tt float_prompt_0_1e17.
Proof. eexists; split; [reflexivity|vm_compute; reflexivity]. Qed.

Lemma float_prompt_default_50_reached :
  exists q,
    init unit (Literal (ObjFloat float_50)) true (Some (PInt 10)) None
         "Invalid input" tt = Constructed q
    /\ (_on_rendered 6 ;; _handle_focus) q = Ret tt float_prompt_default_50.
Proof. eexists; split; [reflexivity|vm_compute; reflexivity]. Qed.

Lemma int_prompt_unrendered_reached :
  init unit (Literal (ObjInt 0)) false None None "Invalid input" tt
  = Constructed int_prompt_unrendered.
Proof. reflexivity. Qed.

(** The prompt [float_prompt_mid_down] is the one [_handle_down] leaves to
    the callback: on the fractional text "00" (typed as [focus], [right],
    [0]) the handler stores "-1" and keeps the flag that "00" had set. *)
Lemma float_prompt_mid_down_reached :
  exists q,
    handle_all 6 [Focus; Right; Input "0"] float_prompt = Ret tt q
    /\ text (_integral_buffer q) = "00"
    /\ _ending_zero q = true
    /\ option_map (fun k => PyInt.to_string (k + -1))
         (PyInt.of_string (text (_integral_buffer q))) = Some "-1"
    /\ with_width IntegralBuffer 3 (with_text IntegralBuffer "-1" q)
       = float_prompt_mid_down.
Proof. eexists; split; [vm_compute; reflexivity|]. repeat split. Qed.

(** * The claims *)

(** C1: the round trip [set_value(v)] then [get_value()] fails in float
    mode on a value inside the bounds whose string form has no decimal
    point: with [min = 0] and [max = 10**17], [set_value(1e16)] splits
    "1e+16" on the point, gets one piece for two names, and raises
    [ValueError] before anything is written. *)
Theorem set_value_1e16_in_bounds_raises (fuel : nat) :
  PyNum.lt (PFloat float_1e16) (PFloat float_0) = false
  /\ PyNum.lt (PFloat float_1e17) (PFloat float_1e16) = false
  /\ clamp_value float_prompt_0_1e17 (PFloat float_1e16)
     = inr (PFloat float_1e16)
  /\ PyFloat.to_string float_1e16 = "1e+16"
  /\ set_value fuel (PFloat float_1e16) float_prompt_0_1e17
     = Raise ValueError float_prompt_0_1e17.
Proof.
  repeat split; vm_compute; reflexivity.
Qed.

(** C2, as the code has it: in integer mode with [min = 0], [max = 100]
    and the whole buffer at "0", [down] stores "-1" and the buffer's
    text-change callback at once reads the value and writes it back
    through the setter, which clamps it: when the handler returns the
    buffer holds "0" again, no validation error was raised, and the next
    read returns 0. *)
Theorem handle_down_at_zero_is_clamped (n : nat) (p : NumberPrompt) :
  _float p = false ->
  _min p = Some (PInt 0) -> _max p = Some (PInt 100) ->
  text (_whole_buffer p) = "0" -> _focus p = WholeWindow ->
  exists p',
    _handle_down (S (S (S (S (S n))))) p = Ret tt p'
    /\ text (_whole_buffer p') = "0"
    /\ _invalid p' = _invalid p
    /\ _invalid_message p' = _invalid_message p
    /\ value_get p' = Ret (PInt 0) p'.
Proof.
  intros Hf Hlo Hhi Ht Hfo.
  destruct (down_at_zero_lands n p Hf Hlo Hhi Ht) as [p' [Hr Hs]].
  exists p'. split.
  - unfold _handle_down, step_focus_buffer.
    apply try_except_ValueError_returns. cbn [bind self].
    unfold focus_buffer. rewrite Hfo. cbn [buffer]. rewrite Ht.
    exact Hr.
  - destruct (written_facts WholeBuffer "0"
                (with_width WholeBuffer (PyStr.len "-1" + 1)
                   (with_text WholeBuffer "-1" p)))
      as [Wt [Wf [_ [_ [_ [_ [_ [Wv Wm]]]]]]]].
    cbn [buffer] in Wt. content_facts Hs.
    assert (Hp : _float (with_width WholeBuffer (PyStr.len "-1" + 1)
                           (with_text WholeBuffer "-1" p)) = _float p
                 /\ _invalid (with_width WholeBuffer (PyStr.len "-1" + 1)
                                (with_text WholeBuffer "-1" p)) = _invalid p
                 /\ _invalid_message
                      (with_width WholeBuffer (PyStr.len "-1" + 1)
                         (with_text WholeBuffer "-1" p))
                    = _invalid_message p)
      by (clear; split_prompt p; repeat split; reflexivity).
    destruct Hp as [Pf [Pv Pm]].
    assert (Ht' : text (_whole_buffer p') = "0") by congruence.
    repeat split; try congruence.
    apply value_get_int_ok; [congruence|]. rewrite Ht'. reflexivity.
Qed.

(** C2 on the prompt [NumberPrompt(min_allowed=0, max_allowed=100)]. *)
Lemma handle_down_at_zero_is_clamped_witness :
  exists p',
    _handle_down 5 int_prompt_0_100 = Ret tt p'
    /\ text (_whole_buffer p') = "0"
    /\ _invalid p' = _invalid int_prompt_0_100
    /\ _invalid_message p' = _invalid_message int_prompt_0_100
    /\ value_get p' = Ret (PInt 0) p'.
Proof.
  apply (handle_down_at_zero_is_clamped 0 int_prompt_0_100); reflexivity.
Defined.

(** C2 as it was stated fails: after [down] at 0 the whole buffer does not
    hold "-1"; the prompt is exactly as it was before the key. *)
Lemma handle_down_at_zero_not_minus_one :
  _handle_down 6 int_prompt_0_100 = Ret tt int_prompt_0_100
  /\ text (_whole_buffer int_prompt_0_100) <> "-1".
Proof. split; [vm_compute; reflexivity|discriminate]. Qed.

(** C3, as the code has it: [get_value()] returns for every state of the
    prompt.  When the text is not a number it records a validation error
    with the message "Remove any non-integer value" and returns the
    configured default; otherwise it returns the number read and leaves
    the error state alone. *)
Theorem value_get_never_raises (p : NumberPrompt) :
  value_get p = Ret (value_of p) (after_read p)
  /\ match read_value p with
     | None =>
         value_of p = _default p
         /\ _invalid (after_read p) = true
         /\ _invalid_message (after_read p) = "Remove any non-integer value"
     | Some v =>
         value_of p = v
         /\ _invalid (after_read p) = _invalid p
         /\ _invalid_message (after_read p) = _invalid_message p
     end.
Proof.
  split; [apply value_get_reads|].
  unfold value_of, after_read.
  destruct (read_value p); split_prompt p; destruct fl; repeat split.
Qed.

(** C3 as it was stated fails on the message: the one recorded starts with
    a capital letter. *)
Lemma value_error_message_is_capitalised :
  exists p',
    value_get int_prompt_unrendered = Ret (PInt 0) p'
    /\ _invalid p' = true
    /\ _invalid_message p' = "Remove any non-integer value"
    /\ _invalid_message p' <> "remove any non-integer value".
Proof.
  eexists. split; [reflexivity|]. repeat split. discriminate.
Qed.

(** The parse failures of [up] and [down] are caught: on a focused text
    that is not an integer the handler records the validation error and
    leaves the text alone. *)
Lemma step_focus_buffer_catches (fuel : nat) (delta : Z) (p : NumberPrompt) :
  text (buffer (focus_buffer p) p) <> "" ->
  PyInt.of_string (text (buffer (focus_buffer p) p)) = None ->
  step_focus_buffer fuel delta p
  = Ret tt (with_error _value_error_message p).
Proof.
  intros Hne Hnone. unfold step_focus_buffer, try_except_ValueError.
  cbn [bind self].
  destruct (String.eqb_spec (text (buffer (focus_buffer p) p)) "");
    [contradiction|].
  rewrite Hnone. split_prompt p; reflexivity.
Qed.

(** C4: typing [1] and sixteen [0]s into the whole part of a float prompt
    ([up], [right], then [0] sixteen times) makes the value 1e16, whose
    string "1e+16" has no decimal point: the setter called by the
    text-change callback raises [ValueError], and [_handle_input] lets it
    through. *)
Theorem typing_1e16_raises :
  exists p',
    handle_all 10 (Up :: Right :: repeat (Input "0") 16) float_prompt
    = Raise ValueError p'
    /\ text (_whole_buffer p') = "10000000000000000"
    /\ _invalid p' = false.
Proof. eexists. split; [vm_compute; reflexivity|]. split; reflexivity. Qed.

(** C5: from a prompt whose cursors are inside their texts and past a
    leading "-", any sequence of [left], [right] and [focus] keys runs to
    the end, and afterwards the cursor of the active buffer does not
    exceed the length of its text and is at least 1 when that text starts
    with "-". *)
Theorem cursor_invariant (n : nat) (acts : list action) (p : NumberPrompt) :
  forallb is_move acts = true -> cursors_ok p ->
  exists p',
    handle_all (S (S n)) acts p = Ret tt p'
    /\ cursor_position (buffer (focus_buffer p') p')
       <= PyStr.len (text (buffer (focus_buffer p') p'))
    /\ (PyStr.startswith (text (buffer (focus_buffer p') p')) "-" = true ->
        1 <= cursor_position (buffer (focus_buffer p') p')).
Proof.
  intros Hm Hok.
  destruct (moves_keep_cursors_ok n acts p Hm Hok) as [p' [Hr [Hw Hi]]].
  exists p'. split; [assumption|].
  unfold focus_buffer. destruct (_focus p'); cbn [buffer].
  - destruct Hw as [[_ Hle] Hs]. split; assumption.
  - destruct Hi as [[_ Hle] Hs]. split; assumption.
Qed.

(** C5 on a rendered float prompt and seven keys. *)
Lemma cursor_invariant_witness :
  exists p',
    handle_all 2 [Focus; Left; Right; Right; Left; Focus; Right] float_prompt
    = Ret tt p'
    /\ cursor_position (buffer (focus_buffer p') p')
       <= PyStr.len (text (buffer (focus_buffer p') p'))
    /\ (PyStr.startswith (text (buffer (focus_buffer p') p')) "-" = true ->
        1 <= cursor_position (buffer (focus_buffer p') p')).
Proof.
  apply (cursor_invariant 0
           [Focus; Left; Right; Right; Left; Focus; Right] float_prompt).
  - reflexivity.
  - repeat split; cbn; try lia; discriminate.
Defined.

(** C6, as the code has it: [right] with the whole buffer focused, its
    cursor at the end of its text and float mode on moves the focus to the
    fractional buffer and touches no cursor; [left] with the fractional
    buffer focused and its cursor at 0 moves the focus to the whole
    buffer.  In every other case the focus stays and only the active
    buffer's cursor is assigned: it moves by one where that position
    exists, and stays where it is at the end of the text ([right]), at
    offset 0, and at offset 1 behind a leading "-" ([left]). *)
Theorem move_left_right (n : nat) (p : NumberPrompt) :
  cursors_ok p ->
  _handle_right (S (S n)) p =
  Ret tt
    (if (Window_eqb (_focus p) WholeWindow
         && (cursor_position (buffer (focus_buffer p) p)
             =? PyStr.len (text (buffer (focus_buffer p) p)))
         && _float p)%bool
     then with_focus IntegralWindow p
     else with_cursor (focus_buffer p)
            (if cursor_position (buffer (focus_buffer p) p)
                =? PyStr.len (text (buffer (focus_buffer p) p))
             then cursor_position (buffer (focus_buffer p) p)
             else cursor_position (buffer (focus_buffer p) p) + 1) p)
  /\ _handle_left (S (S n)) p =
     Ret tt
       (if (Window_eqb (_focus p) IntegralWindow
            && (cursor_position (buffer (focus_buffer p) p) =? 0))%bool
        then with_focus WholeWindow p
        else with_cursor (focus_buffer p)
               (if ((cursor_position (buffer (focus_buffer p) p) =? 0)
                    || (PyStr.startswith
                          (text (buffer (focus_buffer p) p)) "-"
                        && (cursor_position (buffer (focus_buffer p) p)
                            =? 1)))%bool
                then cursor_position (buffer (focus_buffer p) p)
                else cursor_position (buffer (focus_buffer p) p) - 1) p).
Proof.
  intros Hok. split.
  - now apply handle_right_moves.
  - now apply handle_left_moves.
Qed.

(** C6 on a rendered float prompt, cursor at the start of "0". *)
Lemma move_left_right_witness :
  _handle_right 2 float_prompt = Ret tt (with_cursor WholeBuffer 1 float_prompt)
  /\ _handle_left 2 float_prompt = Ret tt (with_cursor WholeBuffer 0 float_prompt).
Proof.
  apply (move_left_right 0 float_prompt).
  repeat split; cbn; try lia; discriminate.
Defined.

(** C6 as it was stated fails: [left] on the whole buffer with the cursor
    at offset 0 is one of the "other cases", and the cursor does not move
    by one; it stays at 0. *)
Lemma handle_left_at_start_stays :
  exists p',
    _handle_left 2 float_prompt = Ret tt p'
    /\ _focus p' = _focus float_prompt
    /\ cursor_position (_whole_buffer p') = 0
    /\ cursor_position (_whole_buffer p')
       <> cursor_position (_whole_buffer float_prompt) - 1.
Proof.
  eexists. split; [vm_compute; reflexivity|]. repeat split. discriminate.
Qed.

(** C7: in float mode, with bounds (if any) that leave 1.5 alone,
    [set_value(1.5)] over a fractional buffer that holds "5" (flag
    [ending_zero] clear) or "50" (flag set) returns and leaves the
    fractional text as it was: "5" followed by "0" exactly when the flag
    is set.  The flag is unchanged, no error is raised, and the next read
    returns 1.5. *)
Theorem set_value_keeps_trailing_zero (n : nat) (p : NumberPrompt) :
  _float p = true ->
  clamp_value p (PFloat float_1_5) = inr (PFloat float_1_5) ->
  (text (_integral_buffer p) = "5" /\ _ending_zero p = false)
  \/ (text (_integral_buffer p) = "50" /\ _ending_zero p = true) ->
  exists p',
    set_value (S (S (S (S n)))) (PFloat float_1_5) p = Ret tt p'
    /\ text (_whole_buffer p') = "1"
    /\ text (_integral_buffer p')
       = ("5" ++ if _ending_zero p then "0" else "")%string
    /\ text (_integral_buffer p') = text (_integral_buffer p)
    /\ _ending_zero p' = _ending_zero p
    /\ _invalid p' = _invalid p
    /\ value_get p' = Ret (PFloat float_1_5) p'.
Proof.
  intros Hf Hclamp Hform.
  set (f := text (_integral_buffer p)).
  assert (Hf' : f = "5" \/ f = "50") by (destruct Hform as [[? _]|[? _]]; auto).
  assert (Hz : _ending_zero p = ends_in_zero f)
    by (subst f; destruct Hform as [[-> ->]|[-> ->]]; reflexivity).
  destruct (set_value_1_5_lands n p f Hf Hclamp Hf' eq_refl Hz)
    as [p' [Hr Hs]].
  destruct (written_facts WholeBuffer "1" p)
    as [Wt [Wf [_ [_ [_ [Wz [_ [Wv _]]]]]]]].
  pose proof (written_whole_keeps_integral "1" p) as Wi.
  cbn [buffer] in Wt. content_facts Hs.
  assert (Hi : text (_integral_buffer p') = f) by (subst f; congruence).
  exists p'. split; [assumption|].
  split; [congruence|]. split.
  { rewrite Hi, Hz. destruct Hf' as [-> | ->]; reflexivity. }
  split; [assumption|]. split; [congruence|]. split; [congruence|].
  apply value_get_float_ok; [congruence| |congruence].
  replace (text (_whole_buffer p')) with "1" by congruence.
  rewrite Hi. now apply float_of_1_5.
Qed.

(** C7 on a float prompt showing "2.50", bounds 0 and 10. *)
Lemma set_value_keeps_trailing_zero_witness :
  exists p',
    set_value 4 (PFloat float_1_5)
      (mkNumberPrompt true (Some (PInt 10)) (Some (PInt 0)) (PFloat float_0)
         true (mkBuffer "2" 1) (mkBuffer "50" 2) 2 3 IntegralWindow false
         "Invalid input") = Ret tt p'
    /\ text (_whole_buffer p') = "1"
    /\ text (_integral_buffer p') = "50"
    /\ text (_integral_buffer p') = "50"
    /\ _ending_zero p' = true
    /\ _invalid p' = false
    /\ value_get p' = Ret (PFloat float_1_5) p'.
Proof.
  apply (set_value_keeps_trailing_zero 0
           (mkNumberPrompt true (Some (PInt 10)) (Some (PInt 0))
              (PFloat float_0) true (mkBuffer "2" 1) (mkBuffer "50" 2) 2 3
              IntegralWindow false "Invalid input")); try reflexivity.
  right. split; reflexivity.
Defined.

(** C8, as the code has it: in float mode every read, whether its parse
    succeeds or fails, first sets [ending_zero] to "the fractional text is
    longer than one character and ends with 0"; in integer mode no read
    changes the flag. *)
Theorem value_get_sets_ending_zero (p : NumberPrompt) :
  exists v p',
    value_get p = Ret v p'
    /\ _ending_zero p' =
       if _float p then ends_in_zero (text (_integral_buffer p))
       else _ending_zero p.
Proof.
  exists (value_of p), (after_read p). split; [apply value_get_reads|].
  unfold after_read.
  destruct (read_value p); split_prompt p; destruct fl; reflexivity.
Qed.

(** C8 as it was stated fails: on the prompt that [_handle_down] leaves to
    the callback after "00" became "-1", the read fails to parse "0.-1"
    (the error is recorded and the default returned) and yet the flag goes
    from set to clear. *)
Lemma failed_read_clears_ending_zero :
  exists p',
    value_get float_prompt_mid_down = Ret (PFloat float_0) p'
    /\ read_value float_prompt_mid_down = None
    /\ _invalid p' = true
    /\ _ending_zero float_prompt_mid_down = true
    /\ _ending_zero p' = false.
Proof. eexists. split; [vm_compute; reflexivity|]. repeat split. Qed.

(** C9, as the code has it: construction raises [InvalidArgument] exactly
    when float mode is off and the resolved default is not an [int].  In
    float mode the default is converted with [float()] before the check,
    so an [int] default is accepted and stored as a float, and a default
    that cannot be converted raises the conversion's own error. *)
Theorem init_raises_invalid_argument
    (SessionResult : Type) (default : InquirerPyDefault SessionResult)
    (float_allowed : bool) (max_allowed min_allowed : option num)
    (invalid_message : string) (session_result : SessionResult) :
  (init SessionResult default float_allowed max_allowed min_allowed
        invalid_message session_result = Failed InvalidArgument
   <-> float_allowed = false
       /\ forall k, resolve SessionResult default session_result <> ObjInt k)
  /\ (forall k x,
        float_allowed = true ->
        resolve SessionResult default session_result = ObjInt k ->
        PyFloat.of_int k = Some x ->
        exists p,
          init SessionResult default float_allowed max_allowed min_allowed
               invalid_message session_result = Constructed p
          /\ _default p = PFloat x).
Proof.
  unfold init. split.
  - destruct float_allowed; split.
    + destruct (resolve SessionResult default session_result) as [k|x|s|];
        cbn [float_of_obj];
        repeat match goal with
          | |- context [match ?o with Some _ => _ | None => _ end] =>
              destruct o
          end; discriminate.
    + intros [H _]. discriminate.
    + destruct (resolve SessionResult default session_result) as [k|x|s|];
        intros H; try discriminate; split; try reflexivity;
        intros k'; discriminate.
    + intros [_ H].
      destruct (resolve SessionResult default session_result) as [k|x|s|];
        try reflexivity.
      now destruct (H k).
  - intros k x -> Hr Hx. rewrite Hr. cbn [float_of_obj]. rewrite Hx.
    eexists. split; reflexivity.
Qed.

(** C9 as it was stated fails: an [int] default in float mode (the
    constructor's own default, 0) raises nothing; the prompt is built with
    the default 0.0. *)
Lemma int_default_in_float_mode_is_accepted :
  exists p,
    init unit (Literal (ObjInt 0)) true None None "Invalid input" tt
    = Constructed p
    /\ _default p = PFloat float_0.
Proof. eexists. split; reflexivity. Qed.

(** C10, as the code has it: in float mode, [down] on a focused fractional
    buffer holding "0" (whole buffer "0") stores "-1" there; the callback
    fails to read "0.-1", records the validation error, and writes back
    the configured default as the setter clamps it to the bounds.  When
    that clamped default [c] has a string form [w.f] that reads back as
    [c] and whose fractional part [f] is not longer than one character
    and ending in "0", the handler returns with the error set, the
    buffers holding [w] and [f], and the next read returning [c]. *)
Theorem handle_down_on_fractional_zero (n : nat) (p : NumberPrompt)
    (c : PyFloat.float) (w f : string) :
  _float p = true -> _focus p = IntegralWindow ->
  text (_whole_buffer p) = "0" -> text (_integral_buffer p) = "0" ->
  clamp_value p (_default p) = inr (PFloat c) ->
  PyStr.split_char "." (PyFloat.to_string c) = [w; f] ->
  ends_in_zero f = false ->
  PyFloat.of_string (w ++ "." ++ f) = Some c ->
  exists p',
    _handle_down (S (S (S (S (S (S n)))))) p = Ret tt p'
    /\ _invalid p' = true
    /\ _invalid_message p' = _value_error_message
    /\ text (_whole_buffer p') = w
    /\ text (_integral_buffer p') = f
    /\ value_get p' = Ret (PFloat c) p'.
Proof.
  intros Hf Hfo Hw Hi Hd Hsp Hz Hp.
  destruct (down_on_fraction_lands n p c w f Hf Hw Hi Hd
              (clamp_value_idempotent _ _ _ Hd) Hsp Hz Hp
              (float_of_string_bad_tail w))
    as [p' [Hr Hs]].
  destruct (after_default_fields w f p)
    as [Df [Dlo [Dhi [Dz [Dw [Di [Dv Dm]]]]]]].
  content_facts Hs.
  exists p'. split.
  - unfold _handle_down, step_focus_buffer.
    apply try_except_ValueError_returns. cbn [bind self].
    unfold focus_buffer. rewrite Hfo. cbn [buffer]. rewrite Hi.
    exact Hr.
  - assert (Ew : text (_whole_buffer p') = w) by congruence.
    assert (Ei : text (_integral_buffer p') = f) by congruence.
    repeat split; try congruence.
    apply value_get_float_ok; [congruence| |congruence].
    now rewrite Ew, Ei.
Qed.

(** C10 on a rendered float prompt with the default 0.0. *)
Lemma handle_down_on_fractional_zero_witness :
  exists p',
    _handle_down 6 (with_focus IntegralWindow float_prompt) = Ret tt p'
    /\ _invalid p' = true
    /\ _invalid_message p' = _value_error_message
    /\ text (_whole_buffer p') = "0"
    /\ text (_integral_buffer p') = "0"
    /\ value_get p' = Ret (PFloat float_0) p'.
Proof.
  apply (handle_down_on_fractional_zero 0
           (with_focus IntegralWindow float_prompt) float_0 "0" "0");
    vm_compute; reflexivity.
Defined.

(** C10 as it was stated fails: with the default 50.0 and [max = 10] the
    value written back is not the configured default but 10.0, the
    default clamped by the setter. *)
Lemma handle_down_writes_clamped_default :
  exists p',
    _handle_down 6 float_prompt_default_50 = Ret tt p'
    /\ _invalid p' = true
    /\ text (_whole_buffer p') = "10"
    /\ text (_integral_buffer p') = "0"
    /\ value_get p' = Ret (PFloat float_10) p'
    /\ _default p' = PFloat float_50
    /\ PyFloat.eqb float_10 float_50 = false.
Proof. eexists. split; [vm_compute; reflexivity|]. repeat split. Qed.

(** * Further properties *)

(** ** Where a cursor assignment ends, at any recursion budget *)

Lemma set_cursor_position_returns (fuel : nat) (b : BufferRef) (v : Z)
    (p p' : NumberPrompt) :
  set_cursor_position fuel b v p = Ret tt p' -> p' = settle_cursor b v p.
Proof.
  destruct fuel as [|[|n]].
  - discriminate.
  - split_prompt p.
    unfold settle_cursor, clamp_cursor.
    pose proof (len_nonneg wt). pose proof (len_nonneg it).
    cbn [set_cursor_position]. unfold cursor_setter, _on_cursor_position_change.
    destruct b, fo; prompt_simpl.
    all: repeat match goal with
         | |- context [Z.max 0 ?x =? ?y] =>
             destruct (Z.eqb_spec (Z.max 0 x) y); prompt_simpl
         | |- context [PyStr.startswith ?x ?y] =>
             destruct (PyStr.startswith x y); prompt_simpl
         | |- context [if ?x <? ?y then _ else _] =>
             destruct (Z.ltb_spec x y); prompt_simpl
         | |- context [?x =? ?y] => destruct (Z.eqb_spec x y); prompt_simpl
         end; intros E; try discriminate E; try (injection E as <-);
         try reflexivity; try lia.
  - rewrite set_cursor_position_settles. congruence.
Qed.

(** ** [str] never writes an empty text *)

Lemma string_of_list_ascii_nonempty (l : list ascii) :
  l <> [] -> string_of_list_ascii l <> "".
Proof. destruct l; [congruence|discriminate]. Qed.

Lemma layout_nonempty (ds : list ascii) (decpt : Z) :
  PyFloat.layout ds decpt <> [].
Proof.
  unfold PyFloat.layout.
  destruct ((decpt <=? -4) || (16 <? decpt))%bool.
  - intros H. apply app_eq_nil in H as [_ H]. discriminate.
  - destruct (decpt <=? 0); [discriminate|].
    destruct (Z.of_nat (List.length ds) <=? decpt).
    + intros H. apply app_eq_nil in H as [_ H].
      apply app_eq_nil in H as [_ H]. discriminate.
    + intros H. apply app_eq_nil in H as [_ H]. discriminate.
Qed.

Lemma int_to_string_nonempty (n : Z) : PyInt.to_string n <> "".
Proof.
  unfold PyInt.to_string.
  destruct (Z.to_int n) as [d|d]; cbn; [|discriminate].
  destruct d; discriminate.
Qed.

Lemma str_nonempty (v : num) : PyNum.str v <> "".
Proof.
  destruct v as [n|x]; cbn [PyNum.str]; [apply int_to_string_nonempty|].
  destruct x as [s|s| |s m e]; cbn [PyFloat.to_string];
    try (destruct s; discriminate); try discriminate.
  destruct (PyFloat.shortest m e) as [ds decpt].
  apply string_of_list_ascii_nonempty.
  intros H. apply app_eq_nil in H as [_ H].
  now apply layout_nonempty in H.
Qed.

(** ** Cursors through a text assignment, integer mode *)

Lemma bind_returns {A B : Type} (c : M A) (k : A -> M B) p b p' :
  (x <- c ;; k x) p = Ret b p' ->
  exists a p1, c p = Ret a p1 /\ k a p1 = Ret b p'.
Proof. unfold bind. destruct (c p); try discriminate. eauto. Qed.

Lemma startswith_minus_len (t : string) :
  PyStr.startswith t "-" = true -> 1 <= PyStr.len t.
Proof.
  destruct t as [|a t]; [discriminate|]. intros _.
  unfold PyStr.len. cbn [String.length]. lia.
Qed.

Lemma len_nonempty (t : string) : t <> "" -> 1 <= PyStr.len t.
Proof.
  destruct t as [|a t]; [congruence|]. intros _.
  unfold PyStr.len. cbn [String.length]. lia.
Qed.

(** Where [settle_cursor] puts the cursor. *)
Lemma settle_cursor_spec (b : BufferRef) (v : Z) (p : NumberPrompt) :
  exists c,
    settle_cursor b v p = with_cursor b c p
    /\ 0 <= c <= PyStr.len (text (buffer b p))
    /\ (1 <= v -> c <= v)
    /\ (v = 1 -> PyStr.startswith (text (buffer b p)) "-" = true -> c = 1)
    /\ (cursor_ok (buffer b p) ->
        focus_buffer p = b
        \/ PyStr.startswith (text (buffer b p)) "-" = false ->
        PyStr.startswith (text (buffer b p)) "-" = true -> 1 <= c).
Proof.
  unfold settle_cursor, clamp_cursor, cursor_ok.
  pose proof (len_nonneg (text (buffer b p))) as HL.
  pose proof (startswith_minus_len (text (buffer b p))) as Hm.
  set (L := PyStr.len (text (buffer b p))) in *.
  set (c0 := cursor_position (buffer b p)) in *.
  destruct (PyStr.startswith (text (buffer b p)) "-") eqn:Eb.
  - specialize (Hm eq_refl).
    destruct (PyStr.startswith (text (buffer (focus_buffer p) p)) "-") eqn:Ef.
    + cbn [andb].
      repeat match goal with
        | |- context [if ?x <? ?y then _ else _] =>
            no_if x; no_if y; destruct (Z.ltb_spec x y)
        | |- context [?x =? ?y] =>
            no_if x; no_if y; destruct (Z.eqb_spec x y)
        end; eexists; (split; [reflexivity|]);
        repeat split; intros; try lia; try discriminate.
    + cbn [andb].
      repeat match goal with
        | |- context [if ?x <? ?y then _ else _] =>
            no_if x; no_if y; destruct (Z.ltb_spec x y)
        | |- context [?x =? ?y] =>
            no_if x; no_if y; destruct (Z.eqb_spec x y)
        end; eexists; (split; [reflexivity|]);
        repeat split; intros; try lia; try discriminate;
        match goal with
        | H : _ \/ _ |- _ => destruct H as [H|H]; [|discriminate];
                             rewrite H, Eb in Ef; discriminate
        end.
  - clear Hm.
    destruct (PyStr.startswith (text (buffer (focus_buffer p) p)) "-");
      cbn [andb];
      repeat match goal with
        | |- context [if ?x <? ?y then _ else _] =>
            no_if x; no_if y; destruct (Z.ltb_spec x y)
        | |- context [?x =? ?y] =>
            no_if x; no_if y; destruct (Z.eqb_spec x y)
        end; eexists; (split; [reflexivity|]);
        repeat split; intros; try lia; try discriminate.
Qed.

Lemma with_cursor_fields (b : BufferRef) (c : Z) (p : NumberPrompt) :
  _float (with_cursor b c p) = _float p
  /\ _focus (with_cursor b c p) = _focus p
  /\ buffer b (with_cursor b c p) = mkBuffer (text (buffer b p)) c
  /\ (forall b', b' <> b -> buffer b' (with_cursor b c p) = buffer b' p).
Proof.
  split_prompt p. destruct b; repeat split; intros [] H;
    reflexivity || congruence.
Qed.

Lemma after_read_buffers (p : NumberPrompt) :
  _float (after_read p) = _float p
  /\ _focus (after_read p) = _focus p
  /\ _whole_buffer (after_read p) = _whole_buffer p
  /\ _integral_buffer (after_read p) = _integral_buffer p.
Proof.
  unfold after_read. destruct (read_value p), (negb (_float p));
    split_prompt p; repeat split.
Qed.

Section IntCursor.
Variable n : nat.
Hypothesis IH :
  forall b t p p',
    int_ranged p -> t <> "" -> set_text n b t p = Ret tt p' ->
    cursors_kept b (text (buffer b p) <> t) p p'.

Lemma value_set_int_cursors (v : num) (p p' : NumberPrompt) :
  int_ranged p -> value_set (set_text n) v p = Ret tt p' ->
  cursors_kept WholeBuffer False p p'.
Proof.
  intros Hr E. rewrite value_set_clamps_then_writes in E.
  destruct (clamp_value p v) as [e|cv]; [discriminate|].
  rewrite write_value_int in E by apply Hr.
  destruct (IH _ _ _ _ Hr (str_nonempty cv) E) as [K1 [K2 [K3 K4]]].
  split; [exact K1|]. split; [exact K2|]. split; [|exact K4].
  intros [[]|Hok]. apply K3. now right.
Qed.

Lemma cursor_ok_in_range (bf : Buffer) :
  in_range bf ->
  (PyStr.startswith (text bf) "-" && (cursor_position bf =? 0))%bool = false ->
  cursor_ok bf.
Proof.
  intros Hr Hc. split; [assumption|]. intros Hs. rewrite Hs in Hc.
  cbn [andb] in Hc. apply Z.eqb_neq in Hc. unfold in_range in Hr. lia.
Qed.

Lemma on_text_changed_int_cursors (b : BufferRef) (p p' : NumberPrompt) :
  int_ranged p ->
  on_text_changed (set_text n) (set_cursor_position n) b p = Ret tt p' ->
  cursors_kept b True p p'.
Proof.
  intros Hr E. unfold on_text_changed in E. cbn [bind self modify] in E.
  set (p1 := with_width b (PyStr.len (text (buffer b p)) + 1) p) in E.
  assert (H1 : int_ranged p1 /\ _whole_buffer p1 = _whole_buffer p
               /\ _integral_buffer p1 = _integral_buffer p).
  { subst p1. unfold int_ranged, in_range in *.
    split_prompt p; destruct b; prompt_simpl; repeat split;
      solve [intuition]. }
  clearbody p1. destruct H1 as [Hr1 [Hw1 Hi1]].
  unfold _on_text_change in E. cbn [bind self] in E.
  apply bind_returns in E as [[] [p2 [E1 E2]]].
  assert (H2 : int_ranged p2
               /\ (forall b', cursor_ok (buffer b' p1) ->
                              cursor_ok (buffer b' p2))
               /\ _integral_buffer p2 = _integral_buffer p1).
  { destruct (negb (String.eqb (text (buffer b p1)) "")
              && negb (String.eqb (text (buffer b p1)) "-"))%bool.
    - unfold bind in E1. rewrite value_get_reads in E1.
      destruct (after_read_buffers p1) as [Af [Ao [Aw Ai]]].
      assert (Hra : int_ranged (after_read p1)).
      { destruct Hr1 as [? [? [? ?]]]. unfold int_ranged.
        rewrite Af, Ao, Aw, Ai. auto. }
      destruct (value_set_int_cursors _ _ _ Hra E1) as [K1 [K2 [K3 K4]]].
      split; [assumption|]. split.
      + intros [] Hok.
        * apply K3. right. cbn [buffer] in *. now rewrite Aw.
        * apply K2; [discriminate|]. cbn [buffer] in *. now rewrite Ai.
      + rewrite K4, Ai; reflexivity.
    - injection E1 as <-. auto. }
  destruct H2 as [Hr2 [Hk2 Hi2]].
  cbn [bind self] in E2.
  assert (Hpre : forall b', cursor_ok (buffer b' p) -> cursor_ok (buffer b' p2)).
  { intros b' Hok. apply Hk2. destruct b'; cbn [buffer] in *; congruence. }
  destruct (PyStr.startswith (text (buffer b p2)) "-"
            && (cursor_position (buffer b p2) =? 0))%bool eqn:Ec.
  - apply set_cursor_position_returns in E2.
    destruct (settle_cursor_spec b 1 p2) as [c [Es [Hc [_ [Hone _]]]]].
    apply andb_true_iff in Ec as [Eneg _]. specialize (Hone eq_refl Eneg).
    subst c. rewrite Es in E2. subst p'.
    destruct (with_cursor_fields b 1 p2) as [Ff [Fo [Fb Fother]]].
    assert (Hokb : cursor_ok (buffer b (with_cursor b 1 p2))).
    { rewrite Fb. split; cbn [text cursor_position]; [lia|]. intros _; lia. }
    assert (Hrange : int_ranged (with_cursor b 1 p2)).
    { destruct Hr2 as [R1 [R2 [R3 R4]]]. unfold int_ranged.
      split; [congruence|]. split; [congruence|].
      destruct b.
      - split; [exact (proj1 Hokb)|].
        change (_integral_buffer ?q) with (buffer IntegralBuffer q).
        rewrite Fother by discriminate. exact R4.
      - split; [|exact (proj1 Hokb)].
        change (_whole_buffer ?q) with (buffer WholeBuffer q).
        rewrite Fother by discriminate. exact R3. }
    split; [exact Hrange|]. split; [|split].
    + intros b' Hne Hok. rewrite Fother by assumption. now apply Hpre.
    + intros _. exact Hokb.
    + intros ->.
      change (_integral_buffer ?q) with (buffer IntegralBuffer q).
      rewrite Fother by discriminate. cbn [buffer]. congruence.
  - injection E2 as <-.
    assert (Hokb : cursor_ok (buffer b p2)).
    { apply cursor_ok_in_range; [|assumption].
      destruct Hr2 as [_ [_ [R3 R4]]]. destruct b; assumption. }
    split; [assumption|]. split; [|split].
    + intros b' _ Hok. now apply Hpre.
    + intros _. exact Hokb.
    + intros _. congruence.
Qed.

Lemma text_setter_int_cursors (b : BufferRef) (t : string)
    (p p' : NumberPrompt) :
  int_ranged p -> t <> "" ->
  text_setter (set_text n) (set_cursor_position n) b t p = Ret tt p' ->
  cursors_kept b (text (buffer b p) <> t) p p'.
Proof.
  intros Hr Ht E. unfold text_setter in E. cbn [bind self] in E.
  apply bind_returns in E as [[] [pa [E1 E2]]].
  pose proof (len_nonempty t Ht) as Hlen.
  assert (Ha : exists c, pa = with_cursor b c p /\ 0 <= c <= PyStr.len t
                         /\ (cursor_position (buffer b p) <= PyStr.len t ->
                             c = cursor_position (buffer b p))).
  { destruct (Z.ltb_spec (PyStr.len t) (cursor_position (buffer b p))).
    - apply set_cursor_position_returns in E1.
      destruct (settle_cursor_spec b (PyStr.len t) p) as [c [Es [Hc [Hv _]]]].
      exists c. split; [congruence|]. split; [lia|]. lia.
    - injection E1 as <-. exists (cursor_position (buffer b p)).
      split; [split_prompt p; destruct b; reflexivity|].
      destruct Hr as [_ [_ [[? ?] [? ?]]]]. destruct b; cbn [buffer] in *; lia. }
  destruct Ha as [c [-> [Hc Hsame]]].
  cbn [bind self write_text modify] in E2.
  destruct (with_cursor_fields b c p) as [Ff [Fo [Fb Fother]]].
  rewrite Fb in E2. cbn [text cursor_position] in E2.
  set (pb := with_buffer b (mkBuffer t c) (with_cursor b c p)) in E2.
  assert (Hb : _float pb = _float p /\ _focus pb = _focus p
               /\ buffer b pb = mkBuffer t c
               /\ (forall b', b' <> b -> buffer b' pb = buffer b' p)).
  { subst pb. clear. split_prompt p.
    destruct b; repeat split; intros [] H; reflexivity || congruence. }
  clearbody pb. destruct Hb as [Bf [Bo [Bb Bother]]].
  assert (Hrb : int_ranged pb).
  { destruct Hr as [R1 [R2 [R3 R4]]]. unfold int_ranged.
    split; [congruence|]. split; [congruence|].
    destruct b.
    - split.
      + change (_whole_buffer pb) with (buffer WholeBuffer pb). rewrite Bb.
        exact Hc.
      + change (_integral_buffer pb) with (buffer IntegralBuffer pb).
        rewrite Bother by discriminate. exact R4.
    - split.
      + change (_whole_buffer pb) with (buffer WholeBuffer pb).
        rewrite Bother by discriminate. exact R3.
      + change (_integral_buffer pb) with (buffer IntegralBuffer pb).
        rewrite Bb. exact Hc. }
  destruct (String.eqb_spec t (text (buffer b p))) as [Eq|Ne];
    cbn [negb] in E2.
  - injection E2 as <-.
    assert (Hcc : c = cursor_position (buffer b p)).
    { apply Hsame. subst t.
      destruct Hr as [_ [_ [[? ?] [? ?]]]]. destruct b; cbn [buffer] in *; lia. }
    assert (Ebb : buffer b pb = buffer b p).
    { rewrite Bb, Eq, Hcc. now destruct (buffer b p). }
    split; [assumption|]. split; [|split].
    + intros b' Hne Hok. now rewrite Bother.
    + intros [Hch|Hok]; [congruence|]. now rewrite Ebb.
    + intros ->.
      change (_integral_buffer ?q) with (buffer IntegralBuffer q).
      apply Bother. discriminate.
  - destruct (on_text_changed_int_cursors b pb p' Hrb E2) as [K1 [K2 [K3 K4]]].
    split; [assumption|]. split; [|split].
    + intros b' Hne Hok. apply K2; [assumption|]. now rewrite Bother.
    + intros _. apply K3. left. exact I.
    + intros Hbw. rewrite (K4 Hbw). subst b.
      change (_integral_buffer ?q) with (buffer IntegralBuffer q).
      apply Bother. discriminate.
Qed.

End IntCursor.

(** In integer mode every text assignment that returns leaves both
    cursors inside their texts, and the cursor of a changed text past a
    leading sign. *)
Lemma set_text_int_cursors (fuel : nat) :
  forall b t p p',
    int_ranged p -> t <> "" -> set_text fuel b t p = Ret tt p' ->
    cursors_kept b (text (buffer b p) <> t) p p'.
Proof.
  induction fuel as [|n IH]; intros b t p p' Hr Ht E; [discriminate|].
  rewrite set_text_step in E.
  now apply (text_setter_int_cursors n IH).
Qed.

(** ** Integer mode: clamping *)

Lemma clamp_value_int (p : NumberPrompt) (v : Z) :
  int_mode p -> clamp_value p (PInt v) = inr (PInt (int_clamp p v)).
Proof.
  unfold int_mode, clamp_value, bound_value, int_clamp.
  intros [Hf [Hlo Hhi]]. rewrite Hf. cbn [negb].
  destruct (_min p) as [[lo|x]|], (_max p) as [[hi|y]|]; try discriminate;
    unfold PyNum.max, PyNum.min, PyNum.lt;
    repeat match goal with
      | |- context [?a <? ?b] => no_if a; no_if b; destruct (a <? b)
      end; reflexivity.
Qed.

Lemma int_clamp_within (p : NumberPrompt) (v : Z) :
  within_bounds p (int_clamp p v).
Proof.
  unfold within_bounds, int_clamp.
  destruct (_min p) as [[lo|x]|], (_max p) as [[hi|y]|];
    (split; [intros b Hb|intros b Hb Hc; try specialize (Hc _ eq_refl)]);
    try discriminate; try (injection Hb as <-);
    repeat match goal with
      | |- context [?a <? ?b] => no_if a; no_if b; destruct (Z.ltb_spec a b)
      end; lia.
Qed.

Lemma int_clamp_idempotent (p : NumberPrompt) (v : Z) :
  int_clamp p (int_clamp p v) = int_clamp p v.
Proof.
  unfold int_clamp.
  destruct (_min p) as [[lo|x]|], (_max p) as [[hi|y]|];
    repeat match goal with
      | |- context [?a <? ?b] => no_if a; no_if b; destruct (Z.ltb_spec a b)
      end; lia.
Qed.

Lemma int_clamp_ext (p q : NumberPrompt) (v : Z) :
  _min p = _min q -> _max p = _max q -> int_clamp p v = int_clamp q v.
Proof. intros Hlo Hhi. unfold int_clamp. now rewrite Hlo, Hhi. Qed.

Lemma int_mode_ext (p q : NumberPrompt) :
  _float p = _float q -> _min p = _min q -> _max p = _max q ->
  int_mode q -> int_mode p.
Proof. unfold int_mode. intros -> -> ->. auto. Qed.

Lemma same_content_int_mode (p q : NumberPrompt) :
  same_content p q -> int_mode q -> int_mode p.
Proof.
  intros H. content_facts H. apply int_mode_ext; assumption.
Qed.

(** ** Integer mode: what a changed text settles at *)

Lemma written_int_shown (t : string) (z : Z) (p : NumberPrompt) :
  written WholeBuffer (PyInt.to_string (int_clamp p z))
    (with_width WholeBuffer (PyStr.len t + 1) (with_text WholeBuffer t p))
  = int_shown z p.
Proof.
  unfold written, int_shown. cbv zeta.
  set (s := PyInt.to_string (int_clamp p z)).
  replace (text (buffer WholeBuffer
             (with_width WholeBuffer (PyStr.len t + 1)
                (with_text WholeBuffer t p)))) with t
    by (split_prompt p; reflexivity).
  destruct (String.eqb_spec t s) as [->|Hne]; split_prompt p; reflexivity.
Qed.

Lemma int_shown_facts (z : Z) (p : NumberPrompt) :
  text (_whole_buffer (int_shown z p)) = PyInt.to_string (int_clamp p z)
  /\ _whole_width (int_shown z p)
     = PyStr.len (PyInt.to_string (int_clamp p z)) + 1
  /\ _float (int_shown z p) = _float p
  /\ _min (int_shown z p) = _min p
  /\ _max (int_shown z p) = _max p
  /\ _default (int_shown z p) = _default p
  /\ _ending_zero (int_shown z p) = _ending_zero p
  /\ text (_integral_buffer (int_shown z p)) = text (_integral_buffer p)
  /\ _integral_width (int_shown z p) = _integral_width p
  /\ _focus (int_shown z p) = _focus p
  /\ _invalid (int_shown z p) = _invalid p
  /\ _invalid_message (int_shown z p) = _invalid_message p.
Proof. unfold int_shown. split_prompt p. repeat split. Qed.

(** The text-change callback on a whole text that reads as [z]: [z] is
    clamped and written back, and that second text settles at once. *)
Lemma on_text_changed_int_lands (n : nat) (p : NumberPrompt) (z : Z) :
  int_mode p -> PyInt.of_string (text (_whole_buffer p)) = Some z ->
  lands (on_text_changed (set_text (S (S (S (S n)))))
           (set_cursor_position (S (S (S (S n))))) WholeBuffer p)
        (written WholeBuffer (PyInt.to_string (int_clamp p z))
           (with_width WholeBuffer (PyStr.len (text (_whole_buffer p)) + 1) p)).
Proof.
  intros Hm Hz.
  apply on_text_changed_lands.
  - apply set_cursor_position_with_cursor.
  - cbn [buffer]. rewrite (skipped_int_text _ z Hz). discriminate.
  - cbn [buffer]. intros _ p1 Hp1.
    set (p0 := with_width WholeBuffer
                 (PyStr.len (text (_whole_buffer p)) + 1) p) in *.
    assert (H0 : _float p0 = _float p /\ _min p0 = _min p /\ _max p0 = _max p
                 /\ text (_whole_buffer p0) = text (_whole_buffer p))
      by (subst p0; split_prompt p; repeat split).
    destruct H0 as [F0 [Lo0 [Hi0 T0]]].
    assert (Hm0 : int_mode p0) by (apply (int_mode_ext p0 p); assumption).
    assert (Hm1 : int_mode p1) by (apply (same_content_int_mode p1 p0); assumption).
    pose proof Hp1 as Hc. content_facts Hc.
    assert (Hr : read_value p1 = Some (PInt z)).
    { rewrite read_value_int by apply Hm1.
      replace (text (_whole_buffer p1)) with (text (_whole_buffer p))
        by congruence.
      now rewrite Hz. }
    rewrite Hr, (after_read_int p1 (PInt z)) by (apply Hm1 || assumption).
    rewrite value_set_clamps_then_writes, clamp_value_int by assumption.
    rewrite write_value_int by apply Hm1. cbn [PyNum.str].
    replace (int_clamp p z) with (int_clamp p1 z)
      by (apply int_clamp_ext; congruence).
    eapply lands_same_content.
    + apply (set_text_whole_int_lands n p1 (int_clamp p1 z)); [apply Hm1|].
      rewrite clamp_value_int by assumption.
      now rewrite int_clamp_idempotent.
    + now apply same_content_written.
Qed.

(** [buffer.text = t] on the whole buffer, for a new text that reads as
    [z]. *)
Lemma set_text_int_lands (n : nat) (p : NumberPrompt) (t : string) (z : Z) :
  int_mode p -> PyInt.of_string t = Some z -> text (_whole_buffer p) <> t ->
  lands (set_text (S (S (S (S (S n))))) WholeBuffer t p) (int_shown z p).
Proof.
  intros Hm Hz Hne. rewrite set_text_step.
  destruct (text_setter_changed (set_text (S (S (S (S n)))))
              (set_cursor_position (S (S (S (S n)))))
              (set_cursor_position_with_cursor (S (S n))) WholeBuffer t p Hne)
    as [p0 [H0 E]].
  rewrite E.
  assert (Ht0 : text (_whole_buffer p0) = t).
  { pose proof (same_content_text _ _ WholeBuffer H0) as T.
    cbn [buffer] in T. rewrite T. split_prompt p; reflexivity. }
  assert (Hm0 : int_mode p0).
  { apply (same_content_int_mode p0 _ H0).
    apply (int_mode_ext _ p); try assumption; split_prompt p; reflexivity. }
  eapply lands_same_content.
  - apply (on_text_changed_int_lands n p0 z); [assumption|].
    rewrite Ht0. exact Hz.
  - rewrite Ht0, <- (written_int_shown t z p).
    replace (int_clamp p0 z) with (int_clamp p z).
    2:{ pose proof H0 as Hc. content_facts Hc.
        apply int_clamp_ext; split_prompt p; cbn in *; congruence. }
    apply same_content_written. now apply same_content_with_width.
Qed.

Lemma on_cursor_position_change_lands (n : nat) (b : BufferRef)
    (p : NumberPrompt) :
  lands (_on_cursor_position_change (set_cursor_position (S (S n))) b p) p.
Proof.
  unfold _on_cursor_position_change. cbn [bind self].
  destruct (PyStr.startswith (text (buffer (focus_buffer p) p)) "-"
            && (cursor_position (buffer b p) =? 0))%bool.
  - apply sc_lands. apply set_cursor_position_with_cursor.
  - exists p. split; reflexivity.
Qed.

(** ** Decimal texts *)

Lemma list_ascii_of_take (n : nat) (s : string) :
  list_ascii_of_string (PyStr.take n s) = firstn n (list_ascii_of_string s).
Proof.
  revert s. induction n as [|n IH]; intros [|a s]; cbn; try reflexivity.
  now rewrite IH.
Qed.

Lemma list_ascii_of_drop (n : nat) (s : string) :
  list_ascii_of_string (PyStr.drop n s) = skipn n (list_ascii_of_string s).
Proof.
  revert s. induction n as [|n IH]; intros [|a s]; cbn; try reflexivity.
  now rewrite IH.
Qed.

Lemma len_list_ascii (s : string) :
  PyStr.len s = Z.of_nat (List.length (list_ascii_of_string s)).
Proof.
  unfold PyStr.len. f_equal.
  induction s as [|a s IH]; cbn; congruence.
Qed.

Lemma digit_val_range (c : ascii) :
  PyStr.is_digit c = true -> 0 <= PyStr.digit_val c <= 9.
Proof.
  unfold PyStr.is_digit, PyStr.digit_val. intros H.
  apply andb_true_iff in H as [H1 H2]. apply Nat.leb_le in H1, H2. lia.
Qed.

Lemma digits_val_app (acc : Z) (a b : list Z) :
  PyStr.digits_val acc (a ++ b) = PyStr.digits_val (PyStr.digits_val acc a) b.
Proof. unfold PyStr.digits_val. apply fold_left_app. Qed.

Lemma digits_val_shift (b : list Z) :
  forall acc,
    PyStr.digits_val acc b
    = acc * 10 ^ Z.of_nat (List.length b) + PyStr.digits_val 0 b.
Proof.
  unfold PyStr.digits_val.
  induction b as [|d b IH]; intros acc; cbn [fold_left List.length].
  - cbn. lia.
  - rewrite (IH (10 * acc + d)), (IH (10 * 0 + d)).
    rewrite Nat2Z.inj_succ, Z.pow_succ_r by lia. ring.
Qed.

Lemma digits_val_bound (cs : list ascii) :
  Forall is_digit_prop cs ->
  0 <= PyStr.digits_val 0 (map PyStr.digit_val cs)
    < 10 ^ Z.of_nat (List.length cs).
Proof.
  induction cs as [|c cs IH] using rev_ind; intros H.
  - cbn. lia.
  - apply Forall_app in H as [Hcs Hc]. inversion Hc as [|? ? Hd _]; subst.
    specialize (IH Hcs). apply digit_val_range in Hd.
    rewrite map_app, digits_val_app, length_app. cbn [map List.length].
    change (PyStr.digits_val ?a [?d]) with (10 * a + d).
    rewrite Nat2Z.inj_add, Z.pow_add_r by lia.
    change (10 ^ Z.of_nat 1) with 10. lia.
Qed.

(** [int] of a text made of digits, and of "-" and digits. *)
Lemma int_of_digits (s : string) (cs : list ascii) :
  list_ascii_of_string s = cs -> Forall is_digit_prop cs -> cs <> [] ->
  PyInt.of_string s = Some (PyStr.digits_val 0 (map PyStr.digit_val cs)).
Proof.
  intros Hs Hd Hne. unfold PyInt.of_string. rewrite Hs.
  rewrite strip_no_space
    by (eapply Forall_impl; [|exact Hd]; intros c Hc;
        apply (digit_not_special c Hc)).
  destruct cs as [|c r]; [congruence|].
  inversion Hd as [|? ? Hc Hr]; subst.
  destruct (digit_not_special c Hc) as [_ [_ [Hm Hp]]].
  rewrite Hm, Hp, digitpart_digits by assumption.
  reflexivity.
Qed.

Lemma int_of_minus_digits (s : string) (cs : list ascii) :
  list_ascii_of_string s = ("-"%char :: cs) -> Forall is_digit_prop cs ->
  cs <> [] ->
  PyInt.of_string s = Some (- PyStr.digits_val 0 (map PyStr.digit_val cs)).
Proof.
  intros Hs Hd Hne. unfold PyInt.of_string. rewrite Hs.
  rewrite strip_no_space.
  2:{ constructor; [reflexivity|].
      eapply Forall_impl; [|exact Hd]; intros c Hc;
        apply (digit_not_special c Hc). }
  cbn [Ascii.eqb Bool.eqb].
  rewrite digitpart_digits by assumption.
  destruct cs as [|c r]; [congruence|]. reflexivity.
Qed.

(** The characters of [str(v)]. *)
Lemma int_digits_digits (v : Z) : Forall is_digit_prop (int_digits v).
Proof.
  destruct v; cbn [int_digits]; try apply digit_chars_digits.
  constructor; [reflexivity|constructor].
Qed.

Lemma int_digits_nonempty (v : Z) : int_digits v <> [].
Proof.
  destruct v as [|q|q]; cbn [int_digits]; try discriminate;
    destruct (digit_chars_to_uint q) as [c [r E]]; rewrite E; discriminate.
Qed.

Lemma int_digits_val (v : Z) :
  PyStr.digits_val 0 (map PyStr.digit_val (int_digits v)) = Z.abs v.
Proof.
  destruct v as [|q|q]; cbn [int_digits Z.abs]; [reflexivity| |];
    rewrite <- of_uint_digits, DecimalPos.Unsigned.of_to; reflexivity.
Qed.

Lemma to_string_chars (v : Z) :
  list_ascii_of_string (PyInt.to_string v)
  = ((if v <? 0 then [ "-"%char ] else []) ++ int_digits v)%list.
Proof.
  unfold PyInt.to_string.
  destruct v as [|q|q]; cbn [Z.to_int NilZero.string_of_int Z.ltb Z.compare
                             int_digits app list_ascii_of_string];
    [reflexivity| |];
    pose proof (DecimalPos.Unsigned.to_uint_nonnil q);
    unfold digit_chars; destruct (Pos.to_uint q); congruence || reflexivity.
Qed.

Lemma startswith_to_string (v : Z) :
  PyStr.startswith (PyInt.to_string v) "-" = (v <? 0).
Proof.
  pose proof (to_string_chars v) as H.
  pose proof (int_digits_digits v) as Hd.
  pose proof (int_digits_nonempty v) as Hne.
  unfold PyStr.startswith.
  destruct (PyInt.to_string v) as [|a s]; destruct (v <? 0);
    cbn [app list_ascii_of_string] in H.
  - discriminate.
  - symmetry in H. contradiction.
  - injection H as -> _. cbn. now destruct s.
  - rewrite <- H in Hd. inversion Hd as [|? ? Ha _]; subst.
    destruct (digit_not_special a Ha) as [_ [_ [Hm _]]].
    cbn [String.prefix]. destruct (Ascii.ascii_dec "-" a) as [<-|Hna].
    + discriminate Hm.
    + destruct (Ascii.eqb_spec "-"%char a); [contradiction|].
      unfold String.prefix.
      destruct (Ascii.ascii_dec a "-") as [->|?]; [discriminate Hm|].
      reflexivity.
Qed.

(** The value of a digit sequence with one more digit put in. *)
Lemma digits_val_insert (ds : list ascii) (d : ascii) (j : nat) :
  Forall is_digit_prop ds -> (j <= List.length ds)%nat ->
  let A := PyStr.digits_val 0 (map PyStr.digit_val ds) in
  let k := Z.of_nat (List.length ds - j) in
  PyStr.digits_val 0
    (map PyStr.digit_val (firstn j ds ++ d :: skipn j ds))
  = (A / 10 ^ k) * 10 ^ (k + 1) + PyStr.digit_val d * 10 ^ k + A mod 10 ^ k.
Proof.
  intros Hd Hj A k.
  set (a := firstn j ds). set (b := skipn j ds).
  assert (Hab : ds = (a ++ b)%list) by (symmetry; apply firstn_skipn).
  assert (Hb : Forall is_digit_prop b).
  { rewrite Hab in Hd. now apply Forall_app in Hd. }
  assert (Hk : k = Z.of_nat (List.length b)).
  { subst k b. now rewrite length_skipn. }
  pose proof (digits_val_bound b Hb) as Hbound.
  set (X := PyStr.digits_val 0 (map PyStr.digit_val a)).
  set (Y := PyStr.digits_val 0 (map PyStr.digit_val b)) in *.
  assert (HA : A = X * 10 ^ k + Y).
  { subst A. rewrite Hab, map_app, digits_val_app, digits_val_shift.
    rewrite length_map, <- Hk. reflexivity. }
  assert (Hnew : PyStr.digits_val 0
                   (map PyStr.digit_val (a ++ d :: b))
                 = X * 10 ^ (k + 1) + PyStr.digit_val d * 10 ^ k + Y).
  { rewrite map_app, digits_val_app. fold X. cbn [map].
    rewrite digits_val_shift. cbn [List.length].
    rewrite length_map, Nat2Z.inj_succ, <- Hk.
    change (PyStr.digits_val 0 (?x :: ?l))
      with (PyStr.digits_val (10 * 0 + x) l).
    rewrite (digits_val_shift _ (10 * 0 + PyStr.digit_val d)).
    rewrite length_map, <- Hk. fold Y.
    replace (Z.succ k) with (k + 1) by lia. ring. }
  rewrite Hnew. rewrite <- Hk in Hbound.
  assert (Hpos : 0 < 10 ^ k) by (apply Z.pow_pos_nonneg; lia).
  assert (Hdiv : A / 10 ^ k = X).
  { rewrite HA. symmetry. apply (Z.div_unique_pos _ _ X Y); [lia|ring]. }
  assert (Hmod : A mod 10 ^ k = Y).
  { rewrite HA. symmetry. apply (Z.mod_unique_pos _ _ X Y); [lia|ring]. }
  now rewrite Hdiv, Hmod.
Qed.

Lemma int_of_toggle_nonneg (v : Z) :
  0 <= v -> PyInt.of_string ("-" ++ PyInt.to_string v) = Some (- v).
Proof.
  intros Hv.
  rewrite (int_of_minus_digits _ (int_digits v)).
  - rewrite int_digits_val. f_equal. lia.
  - cbn [append list_ascii_of_string]. rewrite to_string_chars.
    destruct (Z.ltb_spec v 0); [lia|reflexivity].
  - apply int_digits_digits.
  - apply int_digits_nonempty.
Qed.

Lemma int_of_toggle_neg (v : Z) :
  v < 0 -> PyInt.of_string (PyStr.tail (PyInt.to_string v)) = Some (- v).
Proof.
  intros Hv.
  rewrite (int_of_digits _ (int_digits v)).
  - rewrite int_digits_val. f_equal. lia.
  - pose proof (to_string_chars v) as H.
    destruct (Z.ltb_spec v 0); [|lia].
    destruct (PyInt.to_string v) as [|a s]; [discriminate|].
    cbn [app list_ascii_of_string PyStr.tail] in *. congruence.
  - apply int_digits_digits.
  - apply int_digits_nonempty.
Qed.

Lemma Forall_insert {A : Type} (P : A -> Prop) (l : list A) (x : A) (j : nat) :
  Forall P l -> P x -> Forall P (firstn j l ++ x :: skipn j l).
Proof.
  intros Hl Hx. rewrite <- (firstn_skipn j l) in Hl.
  apply Forall_app in Hl as [Ha Hb].
  apply Forall_app. split; [assumption|]. now constructor.
Qed.

(** [int] of the text of [v] with the digit [d] typed at offset [c]. *)
Lemma int_of_insert (v c : Z) (d : ascii) :
  0 <= c <= PyStr.len (PyInt.to_string v) -> (v < 0 -> 1 <= c) ->
  PyStr.is_digit d = true ->
  PyInt.of_string
    (PyStr.take (Z.to_nat c) (PyInt.to_string v) ++ String d ""
     ++ PyStr.drop (Z.to_nat c) (PyInt.to_string v))
  = Some (insert_digit v (PyStr.digit_val d)
            (PyStr.len (PyInt.to_string v) - c)).
Proof.
  intros Hc Hneg Hd.
  pose proof (to_string_chars v) as Ht.
  pose proof (int_digits_digits v) as Hds.
  pose proof (int_digits_val v) as Hval.
  rewrite len_list_ascii in Hc |- *. rewrite Ht in Hc |- *.
  set (t := PyInt.to_string v) in *.
  set (ds := int_digits v) in *.
  assert (Hchars :
    list_ascii_of_string
      (PyStr.take (Z.to_nat c) t ++ String d "" ++ PyStr.drop (Z.to_nat c) t)
    = (firstn (Z.to_nat c) (list_ascii_of_string t)
       ++ d :: skipn (Z.to_nat c) (list_ascii_of_string t))%list).
  { rewrite !list_ascii_of_string_app, list_ascii_of_take, list_ascii_of_drop.
    reflexivity. }
  rewrite Ht in Hchars. unfold insert_digit.
  destruct (Z.ltb_spec v 0) as [Hv|Hv].
  - specialize (Hneg Hv). cbn [app List.length] in *.
    destruct (Z.to_nat c) as [|j] eqn:Ej; [lia|].
    cbn [firstn skipn app] in Hchars.
    rewrite (int_of_minus_digits _ _ Hchars).
    + rewrite digits_val_insert by (assumption || lia).
      cbv zeta. rewrite Hval.
      replace (Z.of_nat (List.length ds - j))
        with (Z.of_nat (S (List.length ds)) - c) by lia.
      reflexivity.
    + now apply Forall_insert.
    + now destruct (firstn j ds).
  - cbn [app] in *.
    rewrite (int_of_digits _ _ Hchars).
    + rewrite digits_val_insert by (assumption || lia).
      cbv zeta. rewrite Hval.
      replace (Z.of_nat (List.length ds - Z.to_nat c))
        with (Z.of_nat (List.length ds) - c) by lia.
      reflexivity.
    + now apply Forall_insert.
    + now destruct (firstn (Z.to_nat c) ds).
Qed.

(** ** Integer mode: one key at a time *)

Lemma cursors_ok_ranged (p : NumberPrompt) :
  _float p = false -> _focus p = WholeWindow -> cursors_ok p -> int_ranged p.
Proof. intros Hf Ho [[Hw _] [Hi _]]. repeat split; assumption || apply Hw || apply Hi. Qed.

Lemma value_get_shown (p' p : NumberPrompt) (z : Z) :
  int_mode p -> same_content p' (int_shown z p) ->
  text (_whole_buffer p') = PyInt.to_string (int_clamp p z)
  /\ _invalid p' = _invalid p
  /\ _invalid_message p' = _invalid_message p
  /\ text (_integral_buffer p') = text (_integral_buffer p)
  /\ configuration p' = configuration p
  /\ value_get p' = Ret (PInt (int_clamp p z)) p'.
Proof.
  intros Hm Hs.
  destruct (int_shown_facts z p)
    as [St [Sw [Sf [Slo [Shi [Sd [Sz [Si [Siw [So [Sv Sm]]]]]]]]]]].
  content_facts Hs.
  assert (Ht : text (_whole_buffer p') = PyInt.to_string (int_clamp p z))
    by congruence.
  repeat split; try congruence.
  - unfold configuration. congruence.
  - apply value_get_int_ok; [destruct Hm; congruence|].
    rewrite Ht. apply int_of_str.
Qed.

Lemma int_settled_shown (p' p : NumberPrompt) (z : Z) :
  int_mode p -> _focus p = WholeWindow ->
  same_content p' (int_shown z p) -> cursors_ok p' -> int_settled p'.
Proof.
  intros Hm Ho Hs Hok.
  destruct (int_shown_facts z p)
    as [St [Sw [Sf [Slo [Shi [Sd [Sz [Si [Siw [So [Sv Sm]]]]]]]]]]].
  content_facts Hs.
  split; [apply (int_mode_ext p' p); congruence|].
  split; [congruence|]. split; [assumption|].
  exists (int_clamp p z). split; [congruence|].
  rewrite (int_clamp_ext p' p) by congruence.
  apply int_clamp_idempotent.
Qed.

(** A new whole text that reads as [z]: the call returns, the prompt shows
    [z] clamped, and both cursors are where they may be. *)
Lemma set_text_int_settled (n : nat) (p : NumberPrompt) (t : string) (z : Z) :
  int_mode p -> _focus p = WholeWindow -> cursors_ok p ->
  PyInt.of_string t = Some z -> text (_whole_buffer p) <> t ->
  exists p',
    set_text (S (S (S (S (S n))))) WholeBuffer t p = Ret tt p'
    /\ same_content p' (int_shown z p) /\ cursors_ok p'.
Proof.
  intros Hm Ho Hok Hz Hne.
  destruct (set_text_int_lands n p t z Hm Hz Hne) as [p' [E Hs]].
  exists p'. split; [assumption|]. split; [assumption|].
  assert (Ht : t <> "") by (intros ->; discriminate).
  destruct (set_text_int_cursors _ _ _ _ _
              (cursors_ok_ranged p (proj1 Hm) Ho Hok) Ht E)
    as [_ [K2 [K3 _]]].
  split.
  - apply K3. now left.
  - apply (K2 IntegralBuffer); [discriminate|apply Hok].
Qed.

Lemma insert_text_int_settled (n : nat) (p : NumberPrompt) (d : ascii) (z : Z) :
  int_mode p -> _focus p = WholeWindow -> cursors_ok p ->
  PyInt.of_string
    (PyStr.take (Z.to_nat (cursor_position (_whole_buffer p)))
       (text (_whole_buffer p)) ++ String d ""
     ++ PyStr.drop (Z.to_nat (cursor_position (_whole_buffer p)))
          (text (_whole_buffer p))) = Some z ->
  exists p',
    insert_text (S (S (S (S (S n))))) WholeBuffer (String d "") p = Ret tt p'
    /\ same_content p' (int_shown z p) /\ cursors_ok p'.
Proof.
  intros Hm Ho Hok Hz.
  set (c := cursor_position (_whole_buffer p)) in *.
  set (t := text (_whole_buffer p)) in *.
  set (nt := (PyStr.take (Z.to_nat c) t ++ String d ""
              ++ PyStr.drop (Z.to_nat c) t)%string) in *.
  assert (Hc : 0 <= c <= PyStr.len t) by apply Hok.
  assert (Hlen : PyStr.len nt = PyStr.len t + 1).
  { subst nt. rewrite !len_list_ascii, !list_ascii_of_string_app,
      list_ascii_of_take, list_ascii_of_drop.
    cbn [list_ascii_of_string app].
    rewrite length_app. cbn [List.length].
    rewrite <- (firstn_skipn (Z.to_nat c) (list_ascii_of_string t)) at 3.
    rewrite length_app. lia. }
  assert (Hne : String.eqb nt t = false).
  { destruct (String.eqb_spec nt t) as [E|]; [|reflexivity].
    rewrite E in Hlen. lia. }
  cbn [insert_text bind self modify buffer].
  fold c t nt. cbv zeta. fold nt.
  replace (Z.max 0 (c + PyStr.len (String d ""))) with (c + 1)
    by (unfold PyStr.len; cbn [String.length]; lia).
  rewrite Hne. cbn [negb].
  destruct (Z.eqb_spec (c + 1) c) as [|_]; [lia|]. cbn [negb].
  set (pb := with_buffer WholeBuffer (mkBuffer nt (c + 1)) p).
  assert (Hb : same_content pb (with_text WholeBuffer nt p)
               /\ int_mode pb /\ text (_whole_buffer pb) = nt
               /\ int_ranged pb
               /\ _integral_buffer pb = _integral_buffer p).
  { subst pb. destruct Hm as [Hf [Hlo Hhi]].
    destruct Hok as [_ [Hi _]]. unfold int_ranged, in_range, int_mode.
    clearbody nt. clear Hz Hne. subst c t.
    split_prompt p. prompt_simpl. repeat split; (assumption || lia). }
  destruct Hb as [Bs [Bm [Bt [Br Bi]]]].
  destruct (on_text_changed_int_lands n pb z Bm) as [p1 [E1 H1]];
    [now rewrite Bt|].
  unfold bind at 1. rewrite E1.
  pose proof (on_text_changed_int_cursors _ (set_text_int_cursors _)
                WholeBuffer pb p1 Br E1) as [K1 [K2 [K3 K4]]].
  assert (Hok1 : cursors_ok p1).
  { split; [apply K3; now left|].
    apply (K2 IntegralBuffer); [discriminate|]. cbn [buffer].
    rewrite Bi. apply Hok. }
  exists p1. split.
  - unfold _on_cursor_position_change. cbn [bind self].
    destruct K1 as [_ [F1 _]]. unfold focus_buffer. rewrite F1.
    cbn [buffer].
    destruct Hok1 as [[Hr Hs] _].
    destruct (PyStr.startswith (text (_whole_buffer p1)) "-"); [|reflexivity].
    specialize (Hs eq_refl).
    destruct (Z.eqb_spec (cursor_position (_whole_buffer p1)) 0); [lia|].
    reflexivity.
  - split; [|assumption].
    eapply same_content_trans; [exact H1|].
    rewrite Bt, <- (written_int_shown nt z p).
    replace (int_clamp pb z) with (int_clamp p z)
      by (apply int_clamp_ext; subst pb; split_prompt p; reflexivity).
    apply same_content_written. now apply same_content_with_width.
Qed.

(** [left], [right] and [focus] in integer mode leave the content alone. *)
Lemma move_int_settled (n : nat) (a : action) (p : NumberPrompt) :
  is_move a = true -> int_settled p ->
  exists p',
    handle (S (S n)) a p = Ret tt p' /\ same_content p' p /\ cursors_ok p'.
Proof.
  intros Ha [[Hf _] [Ho [Hok _]]].
  destruct (move_keeps_cursors_ok n a p Ha Hok) as [p' [E Hok']].
  exists p'. split; [assumption|]. split; [|assumption].
  destruct a; try discriminate; cbn [handle] in E.
  - rewrite handle_left_moves in E by assumption. cbv zeta in E.
    rewrite Ho in E. cbn [Window_eqb andb] in E. injection E as <-.
    apply same_content_with_cursor.
  - rewrite handle_right_moves in E by assumption. cbv zeta in E.
    rewrite Hf, andb_false_r in E. injection E as <-.
    apply same_content_with_cursor.
  - rewrite handle_focus_toggles, Hf in E. injection E as <-. reflexivity.
Qed.

(** [up] and [down] on a whole text that reads as [v]. *)
Lemma step_focus_buffer_int_settled (n : nat) (p : NumberPrompt) (v delta : Z) :
  int_mode p -> _focus p = WholeWindow -> cursors_ok p ->
  PyInt.of_string (text (_whole_buffer p)) = Some v -> delta <> 0 ->
  exists p',
    step_focus_buffer (S (S (S (S (S n))))) delta p = Ret tt p'
    /\ same_content p' (int_shown (v + delta) p) /\ cursors_ok p'.
Proof.
  intros Hm Ho Hok Hv Hd.
  destruct (set_text_int_settled n p (PyInt.to_string (v + delta))
              (v + delta) Hm Ho Hok (int_of_str _)) as [p' [E [Hs Hok']]].
  { intros Heq. rewrite Heq, int_of_str in Hv. injection Hv. lia. }
  exists p'. split; [|auto].
  unfold step_focus_buffer. apply try_except_ValueError_returns.
  cbn [bind self]. unfold focus_buffer. rewrite Ho. cbn [buffer].
  destruct (String.eqb_spec (text (_whole_buffer p)) "") as [He|_].
  - rewrite He in Hv. discriminate.
  - rewrite Hv. exact E.
Qed.

(** The sign key on the decimal text of [v]. *)
Lemma negative_toggle_int_settled (n : nat) (p : NumberPrompt) (v : Z) :
  int_mode p -> _focus p = WholeWindow -> cursors_ok p ->
  text (_whole_buffer p) = PyInt.to_string v ->
  exists p',
    _handle_negative_toggle (S (S (S (S (S n))))) p = Ret tt p'
    /\ same_content p' (int_shown (- v) p) /\ cursors_ok p'.
Proof.
  intros Hm Ho Hok Ht.
  unfold _handle_negative_toggle. cbn [bind self].
  rewrite Ht, startswith_to_string.
  assert (Hlen : forall t : string, PyStr.tail t <> t \/ t = "").
  { intros t. destruct t as [|a t]; [now right|left].
    cbn [PyStr.tail]. intros E.
    apply (f_equal String.length) in E. cbn in E. lia. }
  destruct (Z.ltb_spec v 0) as [Hv|Hv].
  - apply (set_text_int_settled n p (PyStr.tail (PyInt.to_string v))
             (- v) Hm Ho Hok (int_of_toggle_neg v Hv)).
    rewrite Ht. intros Heq.
    destruct (Hlen (PyInt.to_string v)) as [H|H]; [congruence|].
    now apply int_to_string_nonempty in H.
  - apply (set_text_int_settled n p ("-" ++ PyInt.to_string v)
             (- v) Hm Ho Hok (int_of_toggle_nonneg v Hv)).
    rewrite Ht. intros Heq.
    apply (f_equal String.length) in Heq. cbn in Heq. lia.
Qed.

(** ** Integer mode: the setter, [up], [down], the sign key and the digits *)

(** In integer mode with [int] bounds, [set_value(v)] returns for every
    [int] [v] and leaves the decimal text of [min(max(v, lo), hi)] in the
    whole buffer: a value above the upper bound is stored as that bound, a
    value below the lower bound as the lower bound (as the upper one when
    the bounds cross).  No validation error is raised, and the next read
    returns the clamped value. *)
Theorem set_value_int_clamps (n : nat) (p : NumberPrompt) (v : Z) :
  int_mode p ->
  exists p',
    set_value (S (S (S (S n)))) (PInt v) p = Ret tt p'
    /\ text (_whole_buffer p') = PyInt.to_string (int_clamp p v)
    /\ within_bounds p (int_clamp p v)
    /\ _invalid p' = _invalid p
    /\ value_get p' = Ret (PInt (int_clamp p v)) p'.
Proof.
  intros Hm. pose proof Hm as [Hf _].
  unfold set_value.
  rewrite value_set_clamps_then_writes, clamp_value_int by assumption.
  rewrite write_value_int by assumption. cbn [PyNum.str].
  destruct (set_text_whole_int_lands n p (int_clamp p v) Hf) as [p' [Hr Hs]].
  { rewrite clamp_value_int by assumption. now rewrite int_clamp_idempotent. }
  destruct (written_facts WholeBuffer (PyInt.to_string (int_clamp p v)) p)
    as [Ht [Hf' [_ [_ [_ [_ [_ [Hi _]]]]]]]].
  content_facts Hs. cbn [buffer] in Ht.
  exists p'. split; [assumption|]. split; [congruence|].
  split; [apply int_clamp_within|]. split; [congruence|].
  apply value_get_int_ok; [congruence|].
  replace (text (_whole_buffer p')) with (PyInt.to_string (int_clamp p v))
    by congruence.
  apply int_of_str.
Qed.

(** [set_value(150)] between the bounds 0 and 100 stores 100. *)
Lemma set_value_int_clamps_witness :
  exists p',
    set_value 4 (PInt 150) int_prompt_0_100 = Ret tt p'
    /\ text (_whole_buffer p') = "100"
    /\ within_bounds int_prompt_0_100 100
    /\ _invalid p' = false
    /\ value_get p' = Ret (PInt 100) p'.
Proof.
  apply (set_value_int_clamps 0 int_prompt_0_100 150).
  repeat split; reflexivity.
Defined.

(** In integer mode with [int] bounds and the whole buffer focused on a
    text that reads as the integer [v], [up] leaves the decimal text of
    [v + 1] brought inside the bounds, and [down] that of [v - 1]: [up]
    at the upper bound leaves the upper bound, [down] at the lower bound
    the lower bound.  Neither raises a validation error, and both leave
    the cursors inside their texts and past a leading sign. *)
Theorem handle_up_down_int (n : nat) (p : NumberPrompt) (v : Z) :
  int_mode p -> _focus p = WholeWindow -> cursors_ok p ->
  PyInt.of_string (text (_whole_buffer p)) = Some v ->
  (exists p',
     _handle_up (S (S (S (S (S n))))) p = Ret tt p'
     /\ text (_whole_buffer p') = PyInt.to_string (int_clamp p (v + 1))
     /\ _invalid p' = _invalid p
     /\ value_get p' = Ret (PInt (int_clamp p (v + 1))) p'
     /\ cursors_ok p')
  /\ (exists p',
        _handle_down (S (S (S (S (S n))))) p = Ret tt p'
        /\ text (_whole_buffer p') = PyInt.to_string (int_clamp p (v - 1))
        /\ _invalid p' = _invalid p
        /\ value_get p' = Ret (PInt (int_clamp p (v - 1))) p'
        /\ cursors_ok p').
Proof.
  intros Hm Ho Hok Hv.
  assert (Hstep : forall delta, delta <> 0 ->
    exists p',
      step_focus_buffer (S (S (S (S (S n))))) delta p = Ret tt p'
      /\ text (_whole_buffer p') = PyInt.to_string (int_clamp p (v + delta))
      /\ _invalid p' = _invalid p
      /\ value_get p' = Ret (PInt (int_clamp p (v + delta))) p'
      /\ cursors_ok p').
  { intros delta Hd.
    destruct (step_focus_buffer_int_settled n p v delta Hm Ho Hok Hv Hd)
      as [p' [E [Hs Hok']]].
    destruct (value_get_shown p' p (v + delta) Hm Hs)
      as [Ht [Hi [_ [_ [_ Hg]]]]].
    exists p'. auto. }
  split.
  - apply (Hstep 1). discriminate.
  - apply (Hstep (-1)). discriminate.
Qed.

(** [up] at 100 and [down] at 100 between the bounds 0 and 100. *)
Lemma handle_up_down_int_witness :
  (exists p',
     _handle_up 5 (with_text WholeBuffer "100" int_prompt_0_100) = Ret tt p'
     /\ text (_whole_buffer p') = "100"
     /\ _invalid p' = false
     /\ value_get p' = Ret (PInt 100) p'
     /\ cursors_ok p')
  /\ (exists p',
        _handle_down 5 (with_text WholeBuffer "100" int_prompt_0_100)
        = Ret tt p'
        /\ text (_whole_buffer p') = "99"
        /\ _invalid p' = false
        /\ value_get p' = Ret (PInt 99) p'
        /\ cursors_ok p').
Proof.
  apply (handle_up_down_int 0 (with_text WholeBuffer "100" int_prompt_0_100) 100).
  - repeat split; reflexivity.
  - reflexivity.
  - repeat split; cbn; try lia; discriminate.
  - reflexivity.
Defined.

(** On an empty focused text, [up] and [down] both write "0", not 1 or
    -1; in integer mode with [int] bounds the callback then brings that 0
    inside the bounds. *)
Theorem handle_up_down_on_empty (n : nat) (p : NumberPrompt) :
  int_mode p -> _focus p = WholeWindow -> cursors_ok p ->
  text (_whole_buffer p) = "" ->
  exists p',
    _handle_up (S (S (S (S (S n))))) p = Ret tt p'
    /\ _handle_down (S (S (S (S (S n))))) p = Ret tt p'
    /\ text (_whole_buffer p') = PyInt.to_string (int_clamp p 0)
    /\ _invalid p' = _invalid p
    /\ value_get p' = Ret (PInt (int_clamp p 0)) p'.
Proof.
  intros Hm Ho Hok Ht.
  destruct (set_text_int_settled n p "0" 0 Hm Ho Hok eq_refl)
    as [p' [E [Hs Hok']]].
  { rewrite Ht. discriminate. }
  destruct (value_get_shown p' p 0 Hm Hs) as [Ht' [Hi [_ [_ [_ Hg]]]]].
  assert (Hstep : forall delta,
            step_focus_buffer (S (S (S (S (S n))))) delta p = Ret tt p').
  { intros delta. unfold step_focus_buffer.
    apply try_except_ValueError_returns.
    cbn [bind self]. unfold focus_buffer. rewrite Ho. cbn [buffer].
    rewrite Ht. exact E. }
  exists p'. split; [apply Hstep|]. split; [apply Hstep|]. auto.
Qed.

(** [up] and [down] on an integer prompt before its first render. *)
Lemma handle_up_down_on_empty_witness :
  exists p',
    _handle_up 5 int_prompt_unrendered = Ret tt p'
    /\ _handle_down 5 int_prompt_unrendered = Ret tt p'
    /\ text (_whole_buffer p') = "0"
    /\ _invalid p' = false
    /\ value_get p' = Ret (PInt 0) p'.
Proof.
  apply (handle_up_down_on_empty 0 int_prompt_unrendered).
  - repeat split; reflexivity.
  - reflexivity.
  - repeat split; cbn; try lia; discriminate.
  - reflexivity.
Defined.

(** The sign key in integer mode with [int] bounds, on a whole buffer
    that holds the decimal text of [v]: the text becomes that of [-v]
    brought inside the bounds.  On "0" the key writes "-0", which the
    callback reads as 0 and rewrites: the text is "0" again. *)
Theorem handle_negative_toggle_int (n : nat) (p : NumberPrompt) (v : Z) :
  int_mode p -> _focus p = WholeWindow -> cursors_ok p ->
  text (_whole_buffer p) = PyInt.to_string v ->
  exists p',
    _handle_negative_toggle (S (S (S (S (S n))))) p = Ret tt p'
    /\ text (_whole_buffer p') = PyInt.to_string (int_clamp p (- v))
    /\ _invalid p' = _invalid p
    /\ value_get p' = Ret (PInt (int_clamp p (- v))) p'
    /\ cursors_ok p'.
Proof.
  intros Hm Ho Hok Ht.
  destruct (negative_toggle_int_settled n p v Hm Ho Hok Ht)
    as [p' [E [Hs Hok']]].
  destruct (value_get_shown p' p (- v) Hm Hs) as [Ht' [Hi [_ [_ [_ Hg]]]]].
  exists p'. auto.
Qed.

(** The sign key on "0" between the bounds 0 and 100. *)
Lemma handle_negative_toggle_int_witness :
  exists p',
    _handle_negative_toggle 5 int_prompt_0_100 = Ret tt p'
    /\ text (_whole_buffer p') = "0"
    /\ _invalid p' = false
    /\ value_get p' = Ret (PInt 0) p'
    /\ cursors_ok p'.
Proof.
  apply (handle_negative_toggle_int 0 int_prompt_0_100 0).
  - repeat split; reflexivity.
  - reflexivity.
  - repeat split; cbn; try lia; discriminate.
  - reflexivity.
Defined.

(** A digit key in integer mode with [int] bounds, on a whole buffer that
    holds the decimal text of [v] with the cursor [k] digits from its
    right end: the digit goes in at the cursor, and the text that results
    is always an integer, which the callback brings inside the bounds.
    With the cursor at the end ([k = 0]) the value becomes [10 * v + d]
    for [v >= 0]; with the cursor in front of "0" the digit [d] gives
    [10 * d]. *)
Theorem handle_input_int (n : nat) (p : NumberPrompt) (v : Z) (d : ascii) :
  int_mode p -> _focus p = WholeWindow -> cursors_ok p ->
  text (_whole_buffer p) = PyInt.to_string v ->
  PyStr.is_digit d = true ->
  let k := PyStr.len (text (_whole_buffer p))
           - cursor_position (_whole_buffer p) in
  let z := insert_digit v (PyStr.digit_val d) k in
  exists p',
    _handle_input (S (S (S (S (S n))))) (String d "") p = Ret tt p'
    /\ text (_whole_buffer p') = PyInt.to_string (int_clamp p z)
    /\ _invalid p' = _invalid p
    /\ value_get p' = Ret (PInt (int_clamp p z)) p'
    /\ cursors_ok p'
    /\ (k = 0 -> 0 <= v -> z = 10 * v + PyStr.digit_val d).
Proof.
  intros Hm Ho Hok Ht Hd k z.
  assert (Hend : k = 0 -> 0 <= v -> z = 10 * v + PyStr.digit_val d).
  { intros Hk Hv. subst z. rewrite Hk. unfold insert_digit.
    destruct (Z.ltb_spec v 0); [lia|].
    rewrite Z.abs_eq by assumption.
    change (10 ^ 0) with 1. change (10 ^ (0 + 1)) with 10.
    rewrite Z.div_1_r, Z.mod_1_r. lia. }
  assert (Hz : PyInt.of_string
    (PyStr.take (Z.to_nat (cursor_position (_whole_buffer p)))
       (text (_whole_buffer p)) ++ String d ""
     ++ PyStr.drop (Z.to_nat (cursor_position (_whole_buffer p)))
          (text (_whole_buffer p))) = Some z).
  { subst z k. rewrite Ht. apply int_of_insert.
    - rewrite <- Ht. apply Hok.
    - intros Hv. destruct Hok as [[_ Hs] _]. apply Hs.
      rewrite Ht, startswith_to_string. now apply Z.ltb_lt.
    - assumption. }
  destruct (insert_text_int_settled n p d z Hm Ho Hok Hz)
    as [p' [E [Hs Hok']]].
  destruct (value_get_shown p' p z Hm Hs) as [Ht' [Hi [_ [_ [_ Hg]]]]].
  exists p'. split; [|repeat split; auto; apply Hok'].
  unfold _handle_input. cbn [bind self]. unfold focus_buffer.
  rewrite Ho. exact E.
Qed.

(** The key [5] on a rendered prompt: the cursor is in front of "0", the
    text becomes "50". *)
Lemma handle_input_int_witness :
  exists p',
    _handle_input 5 "5" int_prompt_0_100 = Ret tt p'
    /\ text (_whole_buffer p') = "50"
    /\ _invalid p' = false
    /\ value_get p' = Ret (PInt 50) p'
    /\ cursors_ok p'
    /\ (1 - 0 = 0 -> 0 <= 0 -> 50 = 10 * 0 + 5).
Proof.
  apply (handle_input_int 0 int_prompt_0_100 0 "5"%char).
  - repeat split; reflexivity.
  - reflexivity.
  - repeat split; cbn; try lia; discriminate.
  - reflexivity.
  - reflexivity.
Defined.

(** ** Integer mode: the first render, and any sequence of keys *)

Lemma settle_cursor_keeps_ok (b : BufferRef) (v : Z) (p : NumberPrompt) :
  cursors_ok p ->
  focus_buffer p = b \/ PyStr.startswith (text (buffer b p)) "-" = false ->
  same_content (settle_cursor b v p) p /\ cursors_ok (settle_cursor b v p).
Proof.
  intros Hok Hb.
  destruct (settle_cursor_spec b v p) as [c [Es [Hc [_ [_ Hsign]]]]].
  rewrite Es. split; [apply same_content_with_cursor|].
  destruct (with_cursor_fields b c p) as [_ [_ [Fb Fother]]].
  assert (Hokb : cursor_ok (buffer b (with_cursor b c p))).
  { rewrite Fb. split; [exact Hc|]. cbn [text cursor_position].
    apply Hsign; [|assumption]. destruct b; apply Hok. }
  destruct b; split; try exact Hokb.
  - change (_integral_buffer ?q) with (buffer IntegralBuffer q).
    rewrite Fother by discriminate. apply Hok.
  - change (_whole_buffer ?q) with (buffer WholeBuffer q).
    rewrite Fother by discriminate. apply Hok.
Qed.

(** In integer mode a new fractional text is stored and nothing else
    changes: the callback reads the whole part and finds it shown. *)
Lemma set_text_integral_int_lands (n : nat) (p : NumberPrompt) (t : string)
    (c : Z) :
  int_mode p -> shows_int p c -> text (_integral_buffer p) <> t ->
  lands (set_text (S (S (S (S n)))) IntegralBuffer t p)
        (with_width IntegralBuffer (PyStr.len t + 1)
           (with_text IntegralBuffer t p)).
Proof.
  intros Hm [Hc Hcl] Hne.
  apply set_text_lands; [assumption| |].
  - intros _. reflexivity.
  - intros _ p1 Hp1.
    set (p0 := with_width IntegralBuffer (PyStr.len t + 1)
                 (with_text IntegralBuffer t p)) in *.
    assert (H0 : _float p0 = _float p /\ _min p0 = _min p /\ _max p0 = _max p
                 /\ text (_whole_buffer p0) = text (_whole_buffer p))
      by (subst p0; split_prompt p; repeat split).
    destruct H0 as [F0 [Lo0 [Hi0 T0]]].
    assert (Hm1 : int_mode p1).
    { apply (same_content_int_mode p1 p0 Hp1).
      apply (int_mode_ext p0 p); assumption. }
    pose proof Hp1 as Hcf. content_facts Hcf.
    assert (Ht1 : text (_whole_buffer p1) = PyInt.to_string c) by congruence.
    assert (Hr : read_value p1 = Some (PInt c)).
    { rewrite read_value_int by apply Hm1. now rewrite Ht1, int_of_str. }
    unfold value_of. rewrite Hr.
    rewrite (after_read_int p1 (PInt c)) by (apply Hm1 || assumption).
    rewrite value_set_clamps_then_writes, clamp_value_int by assumption.
    rewrite write_value_int by apply Hm1. cbn [PyNum.str].
    replace (int_clamp p1 c) with c
      by (rewrite <- Hcl at 1; apply int_clamp_ext; congruence).
    eapply lands_same_content; [|exact Hp1].
    now apply set_text_same.
Qed.

(** The first render of an integer prompt with [int] bounds: whatever the
    configured default, the whole buffer shows 0 brought inside the bounds
    and the fractional buffer "0"; no validation error is raised, and the
    prompt is at rest, its cursors where they may be. *)
Theorem on_rendered_int (n : nat) (SessionResult : Type)
    (default : InquirerPyDefault SessionResult)
    (max_allowed min_allowed : option num) (invalid_message : string)
    (session_result : SessionResult) (q : NumberPrompt) :
  init SessionResult default false max_allowed min_allowed invalid_message
       session_result = Constructed q ->
  int_bound min_allowed = true -> int_bound max_allowed = true ->
  exists p',
    _on_rendered (S (S (S (S (S n))))) q = Ret tt p'
    /\ text (_whole_buffer p') = PyInt.to_string (int_clamp q 0)
    /\ text (_integral_buffer p') = "0"
    /\ _invalid p' = false
    /\ value_get p' = Ret (PInt (int_clamp q 0)) p'
    /\ int_settled p'.
Proof.
  intros Hinit Hlo Hhi.
  assert (Hq : int_mode q /\ _focus q = WholeWindow /\ cursors_ok q
               /\ text (_whole_buffer q) = ""
               /\ text (_integral_buffer q) = "" /\ _invalid q = false).
  { unfold init in Hinit.
    destruct (resolve SessionResult default session_result);
      try discriminate.
    injection Hinit as <-. unfold int_mode, cursors_ok, cursor_ok.
    cbn. repeat split; try assumption; try lia; discriminate. }
  destruct Hq as [Hm [Ho [Hok [Hw [Hi Hv]]]]].
  destruct (set_text_int_settled n q "0" 0 Hm Ho Hok eq_refl)
    as [p1 [E1 [Hs1 Hok1]]].
  { rewrite Hw. discriminate. }
  pose proof (int_settled_shown p1 q 0 Hm Ho Hs1 Hok1) as [Hm1 [Ho1 [_ _]]].
  destruct (value_get_shown p1 q 0 Hm Hs1) as [Ht1 [Hv1 [_ [Hi1 [Hc1 _]]]]].
  destruct (settle_cursor_keeps_ok WholeBuffer 0 p1 Hok1) as [Hs2 Hok2].
  { left. unfold focus_buffer. now rewrite Ho1. }
  set (p2 := settle_cursor WholeBuffer 0 p1) in *.
  assert (Hm2 : int_mode p2) by (apply (same_content_int_mode p2 p1); assumption).
  pose proof Hs2 as Hc2. content_facts Hc2.
  assert (Hcfg : _min p1 = _min q /\ _max p1 = _max q).
  { unfold configuration in Hc1. injection Hc1; auto. }
  destruct Hcfg as [Hlo1 Hhi1].
  assert (Hshow2 : shows_int p2 (int_clamp q 0)).
  { split; [congruence|].
    rewrite (int_clamp_ext p2 q) by congruence. apply int_clamp_idempotent. }
  destruct (set_text_integral_int_lands (S n) p2 "0" _ Hm2 Hshow2)
    as [p3 [E3 Hs3]].
  { replace (text (_integral_buffer p2)) with "" by congruence. discriminate. }
  assert (Hr2 : int_ranged p2).
  { apply cursors_ok_ranged; [apply Hm2|congruence|assumption]. }
  destruct (set_text_int_cursors _ _ _ _ _ Hr2
              (ltac:(discriminate) : "0" <> "") E3) as [_ [K2 [K3 _]]].
  assert (Hok3 : cursors_ok p3).
  { split.
    - apply (K2 WholeBuffer); [discriminate|apply Hok2].
    - apply K3. right. apply Hok2. }
  set (p3' := with_width IntegralBuffer (PyStr.len "0" + 1)
                (with_text IntegralBuffer "0" p2)) in *.
  assert (H3 : text (_whole_buffer p3') = text (_whole_buffer p2)
               /\ text (_integral_buffer p3') = "0"
               /\ _float p3' = _float p2 /\ _min p3' = _min p2
               /\ _max p3' = _max p2 /\ _focus p3' = _focus p2
               /\ _invalid p3' = _invalid p2)
    by (subst p3'; clear; split_prompt p2; repeat split).
  destruct H3 as [T3 [I3 [F3 [Lo3 [Hi3 [Fo3 V3]]]]]].
  pose proof Hs3 as Hc3. content_facts Hc3.
  destruct (settle_cursor_keeps_ok IntegralBuffer 0 p3 Hok3) as [Hs4 Hok4].
  { right. cbn [buffer].
    replace (text (_integral_buffer p3)) with "0" by congruence.
    reflexivity. }
  set (p4 := settle_cursor IntegralBuffer 0 p3) in *.
  pose proof Hs4 as Hc4. content_facts Hc4.
  assert (Ht4 : text (_whole_buffer p4) = PyInt.to_string (int_clamp q 0))
    by congruence.
  assert (Hm4 : int_mode p4).
  { apply (int_mode_ext p4 p2); [congruence..|assumption]. }
  exists p4. split.
  - unfold _on_rendered, bind. rewrite E1.
    rewrite set_cursor_position_settles. fold p2. rewrite E3.
    rewrite set_cursor_position_settles. reflexivity.
  - split; [assumption|]. split; [congruence|]. split; [congruence|].
    split.
    + apply value_get_int_ok; [apply Hm4|]. rewrite Ht4. apply int_of_str.
    + split; [assumption|]. split; [congruence|]. split; [assumption|].
      exists (int_clamp q 0). split; [assumption|].
      rewrite (int_clamp_ext p4 q) by congruence. apply int_clamp_idempotent.
Qed.

(** The first render of [NumberPrompt(default=7, min_allowed=5)]: the
    buffer shows 5, neither 0 nor the default. *)
Lemma on_rendered_int_witness :
  exists p',
    _on_rendered 5
      (mkNumberPrompt false None (Some (PInt 5)) (PInt 7) false
         (mkBuffer "" 0) (mkBuffer "" 0) 1 1 WholeWindow false "Invalid input")
    = Ret tt p'
    /\ text (_whole_buffer p') = "5"
    /\ text (_integral_buffer p') = "0"
    /\ _invalid p' = false
    /\ value_get p' = Ret (PInt 5) p'
    /\ int_settled p'.
Proof.
  apply (on_rendered_int 0 unit (Literal (ObjInt 7)) None (Some (PInt 5))
           "Invalid input" tt); reflexivity.
Defined.

Lemma key_keeps_int_settled (n : nat) (a : action) (p : NumberPrompt) :
  int_settled p -> is_key a = true ->
  exists p',
    handle (S (S (S (S (S n))))) a p = Ret tt p'
    /\ int_settled p'
    /\ configuration p' = configuration p
    /\ text (_integral_buffer p') = text (_integral_buffer p).
Proof.
  intros Hset Ha. pose proof Hset as [Hm [Ho [Hok [v [Ht Hcl]]]]].
  assert (Hdone : forall p' z,
            same_content p' (int_shown z p) -> cursors_ok p' ->
            int_settled p' /\ configuration p' = configuration p
            /\ text (_integral_buffer p') = text (_integral_buffer p)).
  { intros p' z Hs Hok'.
    destruct (value_get_shown p' p z Hm Hs) as [_ [_ [_ [Hi [Hc _]]]]].
    split; [now apply (int_settled_shown p' p z)|]. auto. }
  assert (Hmove : is_move a = true ->
            exists p',
              handle (S (S (S (S (S n))))) a p = Ret tt p'
              /\ int_settled p'
              /\ configuration p' = configuration p
              /\ text (_integral_buffer p') = text (_integral_buffer p)).
  { intros Hmv.
    destruct (move_int_settled (S (S (S n))) a p Hmv Hset) as [p' [E [Hs Hok']]].
    exists p'. split; [assumption|].
    pose proof Hs as Hc. content_facts Hc.
    split; [|split; [unfold configuration; congruence|congruence]].
    split; [apply (int_mode_ext p' p); congruence|].
    split; [congruence|]. split; [assumption|].
    exists v. split; [congruence|].
    rewrite (int_clamp_ext p' p) by congruence. assumption. }
  assert (Hparse : PyInt.of_string (text (_whole_buffer p)) = Some v)
    by (rewrite Ht; apply int_of_str).
  destruct a as [| | | | |d|]; cbn [handle];
    try (apply Hmove; reflexivity).
  - (* down *)
    destruct (step_focus_buffer_int_settled n p v (-1) Hm Ho Hok Hparse)
      as [p' [E [Hs Hok']]]; [discriminate|].
    exists p'. split; [exact E|]. now apply (Hdone p' (v + -1)).
  - (* up *)
    destruct (step_focus_buffer_int_settled n p v 1 Hm Ho Hok Hparse)
      as [p' [E [Hs Hok']]]; [discriminate|].
    exists p'. split; [exact E|]. now apply (Hdone p' (v + 1)).
  - (* a digit *)
    cbn [is_key] in Ha. destruct d as [|c [|? ?]]; try discriminate.
    cbn [is_digit_key] in Ha.
    assert (Hz : PyInt.of_string
      (PyStr.take (Z.to_nat (cursor_position (_whole_buffer p)))
         (text (_whole_buffer p)) ++ String c ""
       ++ PyStr.drop (Z.to_nat (cursor_position (_whole_buffer p)))
            (text (_whole_buffer p)))
      = Some (insert_digit v (PyStr.digit_val c)
                (PyStr.len (PyInt.to_string v)
                 - cursor_position (_whole_buffer p)))).
    { rewrite Ht. apply int_of_insert.
      - rewrite <- Ht. apply Hok.
      - intros Hv. destruct Hok as [[_ Hsg] _]. apply Hsg.
        rewrite Ht, startswith_to_string. now apply Z.ltb_lt.
      - assumption. }
    destruct (insert_text_int_settled n p c _ Hm Ho Hok Hz)
      as [p' [E [Hs Hok']]].
    exists p'. split; [|now apply (Hdone p' _ Hs)].
    unfold _handle_input. cbn [bind self]. unfold focus_buffer.
    rewrite Ho. exact E.
  - (* the sign key *)
    destruct (negative_toggle_int_settled n p v Hm Ho Hok Ht)
      as [p' [E [Hs Hok']]].
    exists p'. split; [exact E|]. now apply (Hdone p' (- v)).
Qed.

Lemma keys_keep_int_settled (n : nat) (acts : list action) :
  forall p,
    int_settled p -> forallb is_key acts = true ->
    exists p',
      handle_all (S (S (S (S (S n))))) acts p = Ret tt p'
      /\ int_settled p'
      /\ configuration p' = configuration p
      /\ text (_integral_buffer p') = text (_integral_buffer p).
Proof.
  induction acts as [|a acts IH]; intros p Hset Hk; cbn [handle_all].
  - exists p. auto.
  - cbn [forallb] in Hk. apply andb_true_iff in Hk as [Ha Hk].
    destruct (key_keeps_int_settled n a p Hset Ha) as [p1 [E1 [S1 [C1 I1]]]].
    destruct (IH p1 S1 Hk) as [p2 [E2 [S2 [C2 I2]]]].
    exists p2. split; [unfold bind; now rewrite E1|].
    split; [assumption|]. split; congruence.
Qed.

(** An integer prompt with [int] bounds, at rest on an integer inside its
    bounds, stays so under every sequence of keys of the keybinding table
    ([up], [down], [left], [right], [focus], the ten digits, the sign
    key): every handler returns, the whole buffer always holds the decimal
    text of an integer inside the bounds, which is the value read; the
    cursors stay inside their texts and past a leading sign, the focus
    never leaves the whole part, and the fractional buffer and the
    configuration are never touched. *)
Theorem int_prompt_survives_keys (n : nat) (acts : list action)
    (p : NumberPrompt) :
  int_settled p -> forallb is_key acts = true ->
  exists p' v,
    handle_all (S (S (S (S (S n))))) acts p = Ret tt p'
    /\ text (_whole_buffer p') = PyInt.to_string v
    /\ within_bounds p v
    /\ value_get p' = Ret (PInt v) p'
    /\ cursors_ok p'
    /\ _focus p' = WholeWindow
    /\ text (_integral_buffer p') = text (_integral_buffer p)
    /\ configuration p' = configuration p.
Proof.
  intros Hset Hk.
  destruct (keys_keep_int_settled n acts p Hset Hk) as [p' [E [S' [C' I']]]].
  destruct S' as [Hm [Ho [Hok [v [Ht Hcl]]]]].
  exists p', v. split; [assumption|]. split; [assumption|].
  assert (Hb : _min p' = _min p /\ _max p' = _max p)
    by (unfold configuration in C'; injection C'; auto).
  destruct Hb as [Hlo Hhi].
  split.
  { rewrite <- Hcl, (int_clamp_ext p' p) by assumption.
    apply int_clamp_within. }
  split.
  { apply value_get_int_ok; [apply Hm|]. rewrite Ht. apply int_of_str. }
  auto.
Qed.

(** Eight keys on [NumberPrompt(min_allowed=0, max_allowed=100)]. *)
Lemma int_prompt_survives_keys_witness :
  exists p' v,
    handle_all 5
      [Input "5"; Up; NegativeToggle; Right; Input "7"; Down; Left; Focus]
      int_prompt_0_100 = Ret tt p'
    /\ text (_whole_buffer p') = PyInt.to_string v
    /\ within_bounds int_prompt_0_100 v
    /\ value_get p' = Ret (PInt v) p'
    /\ cursors_ok p'
    /\ _focus p' = WholeWindow
    /\ text (_integral_buffer p') = text (_integral_buffer int_prompt_0_100)
    /\ configuration p' = configuration int_prompt_0_100.
Proof.
  apply (int_prompt_survives_keys 0
           [Input "5"; Up; NegativeToggle; Right; Input "7"; Down; Left; Focus]
           int_prompt_0_100).
  - split; [repeat split; reflexivity|]. split; [reflexivity|].
    split; [repeat split; cbn; try lia; discriminate|].
    exists 0. split; reflexivity.
  - reflexivity.
Defined.

(** ** The configuration is never written *)

Section KeepsConfiguration.

Lemma kc_ret {A : Type} (a : A) : keeps_configuration (ret a).
Proof. intros p p' H. injection H as <-. reflexivity. Qed.

Lemma kc_raise {A : Type} (e : exn) : keeps_configuration (@raise A e).
Proof. intros p p' H. injection H as <-. reflexivity. Qed.

Lemma kc_diverge {A : Type} : keeps_configuration (@diverge A).
Proof. intros p p' H. discriminate. Qed.

Lemma kc_self : keeps_configuration self.
Proof. intros p p' H. injection H as <-. reflexivity. Qed.

Lemma kc_modify (f : NumberPrompt -> NumberPrompt) :
  (forall p, configuration (f p) = configuration p) ->
  keeps_configuration (modify f).
Proof. intros Hf p p' H. injection H as <-. apply Hf. Qed.

Lemma kc_bind {A B : Type} (c : M A) (k : A -> M B) :
  keeps_configuration c -> (forall a, keeps_configuration (k a)) ->
  keeps_configuration (x <- c ;; k x).
Proof.
  intros Hc Hk p p' H. unfold bind in H.
  destruct (c p) as [a p1|e p1|] eqn:E.
  - rewrite (Hk a p1 p' H). apply Hc. now rewrite E.
  - apply Hc. now rewrite E.
  - discriminate.
Qed.

Lemma kc_try {A : Type} (c h : M A) :
  keeps_configuration c -> keeps_configuration h ->
  keeps_configuration (try_except_ValueError c h).
Proof.
  intros Hc Hh p p' H. unfold try_except_ValueError in H.
  destruct (c p) as [a p1|e p1|] eqn:E.
  - apply Hc. now rewrite E.
  - destruct e;
      try (apply Hc; now rewrite E).
    rewrite (Hh p1 p' H). apply Hc. now rewrite E.
  - discriminate.
Qed.

End KeepsConfiguration.

Ltac kc_field :=
  let q := fresh "q" in
  intros q; destruct q;
  repeat match goal with b : BufferRef |- _ => destruct b end;
  reflexivity.

Ltac kc_step :=
  first
    [ apply kc_ret | apply kc_raise | apply kc_diverge | apply kc_self
    | apply kc_modify; kc_field
    | apply kc_bind; [|intros ?]
    | apply kc_try
    | match goal with
      | H : forall b v, keeps_configuration (?sc b v)
        |- keeps_configuration (?sc _ _) => apply H
      | |- keeps_configuration (if ?c then _ else _) => destruct c
      | |- keeps_configuration (match ?x with _ => _ end) => destruct x
      end
    | progress unfold float_of_num, bound_in_mode ].

Ltac kc := repeat kc_step.

Lemma kc_set_cursor_position (fuel : nat) :
  forall b v, keeps_configuration (set_cursor_position fuel b v).
Proof.
  induction fuel as [|n IH]; intros b v; cbn [set_cursor_position].
  - apply kc_diverge.
  - unfold cursor_setter, _on_cursor_position_change, write_cursor. kc.
Qed.

Lemma kc_value_get : keeps_configuration value_get.
Proof. unfold value_get, _set_error. kc. Qed.

Lemma kc_value_set (st : BufferRef -> string -> M unit) (v : num) :
  (forall b t, keeps_configuration (st b t)) ->
  keeps_configuration (value_set st v).
Proof.
  intros Hst. unfold value_set, bound_in_mode, float_of_num. kc.
Qed.

Lemma kc_on_text_changed (st : BufferRef -> string -> M unit)
    (sc : BufferRef -> Z -> M unit) (b : BufferRef) :
  (forall b t, keeps_configuration (st b t)) ->
  (forall b v, keeps_configuration (sc b v)) ->
  keeps_configuration (on_text_changed st sc b).
Proof.
  intros Hst Hsc. unfold on_text_changed, _on_text_change.
  kc; try apply kc_value_get; try now apply kc_value_set.
Qed.

Lemma kc_set_text (fuel : nat) :
  forall b t, keeps_configuration (set_text fuel b t).
Proof.
  induction fuel as [|n IH]; intros b t; cbn [set_text].
  - apply kc_diverge.
  - unfold text_setter, write_text.
    kc; try apply kc_set_cursor_position;
      try (apply kc_on_text_changed;
           [assumption|apply kc_set_cursor_position]).
Qed.

Lemma kc_insert_text (fuel : nat) (b : BufferRef) (data : string) :
  keeps_configuration (insert_text fuel b data).
Proof.
  destruct fuel as [|n]; cbn [insert_text]; [apply kc_diverge|].
  unfold _on_cursor_position_change.
  kc; try apply kc_set_cursor_position; try apply kc_set_text;
    try (apply kc_on_text_changed;
         [apply kc_set_text|apply kc_set_cursor_position]).
Qed.

Lemma kc_handle (fuel : nat) (a : action) :
  keeps_configuration (handle fuel a).
Proof.
  destruct a; cbn [handle];
    unfold _handle_down, _handle_up, step_focus_buffer, _handle_left,
      _handle_right, _handle_focus, _handle_input, _handle_negative_toggle,
      set_focus, _set_error;
    kc; try apply kc_set_text; try apply kc_set_cursor_position;
    try apply kc_insert_text.
Qed.

Lemma kc_handle_all (fuel : nat) (acts : list action) :
  keeps_configuration (handle_all fuel acts).
Proof.
  induction acts as [|a acts IH]; cbn [handle_all]; [apply kc_ret|].
  apply kc_bind; [apply kc_handle|intros _; assumption].
Qed.

Lemma kc_on_rendered (fuel : nat) : keeps_configuration (_on_rendered fuel).
Proof.
  unfold _on_rendered.
  kc; try apply kc_set_text; try apply kc_set_cursor_position.
Qed.

(** The mode, the bounds and the default are fixed at construction: no
    sequence of key handlers, nor the first render, nor the value setter
    changes them, whether the call returns or raises. *)
Theorem handlers_keep_configuration (fuel : nat) (acts : list action)
    (v : num) (p : NumberPrompt) :
  match final (handle_all fuel acts p) with
  | Some p' => configuration p' = configuration p
  | None => True
  end
  /\ match final (_on_rendered fuel p) with
     | Some p' => configuration p' = configuration p
     | None => True
     end
  /\ match final (set_value fuel v p) with
     | Some p' => configuration p' = configuration p
     | None => True
     end.
Proof.
  split; [|split].
  - destruct (final (handle_all fuel acts p)) as [p'|] eqn:E; [|exact I].
    now apply (kc_handle_all fuel acts p p').
  - destruct (final (_on_rendered fuel p)) as [p'|] eqn:E; [|exact I].
    now apply (kc_on_rendered fuel p p').
  - destruct (final (set_value fuel v p)) as [p'|] eqn:E; [|exact I].
    apply (kc_value_set (set_text fuel) v (kc_set_text fuel) p p' E).
Qed.

(** The value has the type of the mode: on a prompt that the constructor
    accepted, before or after its first render and any keys, whether the
    handlers returned or raised, a read returns an [int] in integer mode
    and a [float] in float mode. *)
Theorem value_has_mode_type (fuel : nat) (SessionResult : Type)
    (default : InquirerPyDefault SessionResult) (float_allowed : bool)
    (max_allowed min_allowed : option num) (invalid_message : string)
    (session_result : SessionResult) (acts : list action)
    (q p : NumberPrompt) :
  init SessionResult default float_allowed max_allowed min_allowed
       invalid_message session_result = Constructed q ->
  p = q \/ final ((_on_rendered fuel ;; handle_all fuel acts) q) = Some p ->
  exists v p', value_get p = Ret v p' /\ is_float v = float_allowed.
Proof.
  intros Hinit Hp.
  assert (Hq : _float q = float_allowed
               /\ is_float (_default q) = float_allowed).
  { unfold init in Hinit. destruct float_allowed.
    - destruct (float_of_obj (resolve SessionResult default session_result))
        as [e|[k|x|s|]]; try discriminate.
      injection Hinit as <-. split; reflexivity.
    - destruct (resolve SessionResult default session_result);
        try discriminate.
      injection Hinit as <-. split; reflexivity. }
  assert (Hc : configuration p = configuration q).
  { destruct Hp as [->|Hp]; [reflexivity|].
    revert Hp. apply kc_bind; [apply kc_on_rendered|].
    intros _. apply kc_handle_all. }
  assert (Hf : _float p = _float q)
    by exact (f_equal (fun c => fst (fst (fst c))) Hc).
  assert (Hd : _default p = _default q) by exact (f_equal snd Hc).
  destruct Hq as [Hfq Hdq].
  exists (value_of p), (after_read p). split; [apply value_get_reads|].
  unfold value_of, read_value. rewrite Hf, Hfq.
  destruct float_allowed; cbn [negb].
  - destruct (PyFloat.of_string _); [reflexivity|].
    cbn [option_map]. rewrite Hd. exact Hdq.
  - destruct (PyInt.of_string _); [reflexivity|].
    cbn [option_map]. rewrite Hd. exact Hdq.
Qed.

(** A float prompt built with the [int] default 3, rendered, then the
    keys [down] and [3]. *)
Lemma value_has_mode_type_witness :
  exists q p,
    init unit (Literal (ObjInt 3)) true None None "Invalid input" tt
    = Constructed q
    /\ final ((_on_rendered 6 ;; handle_all 6 [Down; Input "3"]) q) = Some p
    /\ exists v p', value_get p = Ret v p' /\ is_float v = true.
Proof.
  eexists. eexists. split; [reflexivity|]. split; [vm_compute; reflexivity|].
  eapply (value_has_mode_type 6 unit (Literal (ObjInt 3)) true None None
            "Invalid input" tt [Down; Input "3"]).
  - reflexivity.
  - right. vm_compute. reflexivity.
Defined.

(** The [ValueError]s of [up] and [down] never leave the handler: neither
    raises one, whatever the prompt holds.  On a focused text that is not
    empty and not an integer ("-", "1.5", "0x1") both record the
    validation error and leave the texts, the cursors and the focus as
    they are. *)
Theorem handle_up_down_value_errors (fuel : nat) (p : NumberPrompt) :
  (forall p', _handle_up fuel p <> Raise ValueError p'
              /\ _handle_down fuel p <> Raise ValueError p')
  /\ (text (buffer (focus_buffer p) p) <> "" ->
      PyInt.of_string (text (buffer (focus_buffer p) p)) = None ->
      _handle_up fuel p = Ret tt (with_error _value_error_message p)
      /\ _handle_down fuel p = Ret tt (with_error _value_error_message p)).
Proof.
  split.
  - assert (H : forall delta p',
              step_focus_buffer fuel delta p <> Raise ValueError p').
    { intros delta p'. unfold step_focus_buffer, try_except_ValueError.
      match goal with
      | |- match ?c p with _ => _ end <> _ => destruct (c p) as [a q|e q|]
      end; try discriminate.
      destruct e; discriminate. }
    intros p'. split; apply H.
  - intros Hne Hnone. split; now apply step_focus_buffer_catches.
Qed.

(** [up] and [down] on a whole buffer that holds "-". *)
Lemma handle_up_down_value_errors_witness :
  _handle_up 5 (with_text WholeBuffer "-" int_prompt_0_100)
  = Ret tt (with_error _value_error_message
              (with_text WholeBuffer "-" int_prompt_0_100))
  /\ _handle_down 5 (with_text WholeBuffer "-" int_prompt_0_100)
     = Ret tt (with_error _value_error_message
                 (with_text WholeBuffer "-" int_prompt_0_100)).
Proof.
  apply (proj2 (handle_up_down_value_errors 5
                  (with_text WholeBuffer "-" int_prompt_0_100)));
    [discriminate|reflexivity].
Defined.

(** ** [right] and [left] undo each other *)

(** From a prompt whose cursors are where they may be: [right] followed
    by [left] restores the prompt exactly when the cursor of the focused
    buffer was not at the end of its text, and [left] followed by [right]
    when that cursor was not at the start of the text (offset 0, or offset
    1 behind a leading "-"). *)
Theorem right_left_undo (n : nat) (p : NumberPrompt) :
  cursors_ok p ->
  (cursor_position (buffer (focus_buffer p) p)
   < PyStr.len (text (buffer (focus_buffer p) p)) ->
   (_handle_right (S (S n)) ;; _handle_left (S (S n))) p = Ret tt p)
  /\ ((if PyStr.startswith (text (buffer (focus_buffer p) p)) "-"
       then 1 else 0) < cursor_position (buffer (focus_buffer p) p) ->
      (_handle_left (S (S n)) ;; _handle_right (S (S n))) p = Ret tt p).
Proof.
  intros Hok. split; intros Hc.
  - unfold bind. rewrite handle_right_moves by assumption. cbv zeta.
    destruct (Z.eqb_spec (cursor_position (buffer (focus_buffer p) p))
                (PyStr.len (text (buffer (focus_buffer p) p)))); [lia|].
    rewrite andb_false_r. cbn [andb].
    set (p1 := with_cursor (focus_buffer p)
                 (cursor_position (buffer (focus_buffer p) p) + 1) p).
    assert (Hok1 : cursors_ok p1).
    { subst p1. revert Hok Hc. unfold cursors_ok, cursor_ok, focus_buffer.
      split_prompt p. destruct fo; prompt_simpl; intuition lia. }
    rewrite handle_left_moves by assumption. cbv zeta. f_equal.
    subst p1. revert Hok Hc. unfold cursors_ok, cursor_ok, focus_buffer.
    clear. split_prompt p. destruct fo; prompt_simpl; intros Hok Hc.
    + case_cmps; try lia; do 2 f_equal; lia.
    + case_cmps; try lia; do 2 f_equal; lia.
  - unfold bind. rewrite handle_left_moves by assumption. cbv zeta.
    revert Hok Hc. unfold cursors_ok, cursor_ok, focus_buffer.
    split_prompt p. destruct fo; prompt_simpl; intros Hok Hc.
    + destruct (Z.eqb_spec wc 0) as [E0|E0];
        [destruct (PyStr.startswith wt "-"); lia|].
      destruct (PyStr.startswith wt "-") eqn:Es; prompt_simpl.
      * destruct (Z.eqb_spec wc 1); [lia|].
        rewrite handle_right_moves
          by (unfold cursors_ok, cursor_ok; prompt_simpl; rewrite Es;
              intuition lia).
        cbv zeta. prompt_simpl.
        destruct (Z.eqb_spec (wc - 1) (PyStr.len wt)); [lia|].
        prompt_simpl. do 3 f_equal. lia.
      * rewrite handle_right_moves
          by (unfold cursors_ok, cursor_ok; prompt_simpl; rewrite Es;
              intuition (lia || discriminate)).
        cbv zeta. prompt_simpl.
        destruct (Z.eqb_spec (wc - 1) (PyStr.len wt)); [lia|].
        prompt_simpl. do 3 f_equal. lia.
    + destruct (Z.eqb_spec ic 0) as [E0|E0];
        [destruct (PyStr.startswith it "-"); lia|].
      destruct (PyStr.startswith it "-") eqn:Es; prompt_simpl.
      * destruct (Z.eqb_spec ic 1); [lia|].
        rewrite handle_right_moves
          by (unfold cursors_ok, cursor_ok; prompt_simpl; rewrite Es;
              intuition lia).
        cbv zeta. prompt_simpl.
        destruct (Z.eqb_spec (ic - 1) (PyStr.len it)); [lia|].
        prompt_simpl. do 3 f_equal. lia.
      * rewrite handle_right_moves
          by (unfold cursors_ok, cursor_ok; prompt_simpl; rewrite Es;
              intuition (lia || discriminate)).
        cbv zeta. prompt_simpl.
        destruct (Z.eqb_spec (ic - 1) (PyStr.len it)); [lia|].
        prompt_simpl. do 3 f_equal. lia.
Qed.

(** [right] then [left] from the start of "0", [left] then [right] from
    its end. *)
Lemma right_left_undo_witness :
  (_handle_right 2 ;; _handle_left 2) float_prompt = Ret tt float_prompt
  /\ (_handle_left 2 ;; _handle_right 2) (with_cursor WholeBuffer 1 float_prompt)
     = Ret tt (with_cursor WholeBuffer 1 float_prompt).
Proof.
  split.
  - apply (proj1 (right_left_undo 0 float_prompt
                    ltac:(repeat split; cbn; try lia; discriminate))).
    cbn. lia.
  - apply (proj2 (right_left_undo 0 (with_cursor WholeBuffer 1 float_prompt)
                    ltac:(repeat split; cbn; try lia; discriminate))).
    cbn. lia.
Defined.

(** ** Float mode: the first render *)

Lemma set_text_same_exact (n : nat) (b : BufferRef) (t : string)
    (p : NumberPrompt) :
  text (buffer b p) = t ->
  exists c, set_text (S (S (S n))) b t p = Ret tt (with_cursor b c p).
Proof.
  intros Ht. rewrite set_text_step.
  unfold text_setter, bind, self, write_text, modify, ret.
  destruct (PyStr.len t <? cursor_position (buffer b p)).
  - destruct (set_cursor_position_with_cursor n b (PyStr.len t) p) as [c E].
    rewrite E.
    replace (text (buffer b (with_cursor b c p))) with t
      by (subst t; split_prompt p; destruct b; reflexivity).
    rewrite String.eqb_refl. cbn [negb].
    exists c. subst t. split_prompt p; destruct b; reflexivity.
  - rewrite Ht, String.eqb_refl. cbn [negb].
    exists (cursor_position (buffer b p)).
    subst t. split_prompt p; destruct b; reflexivity.
Qed.

(** The prompt a float prompt is after its first render. *)
Lemma first_render_float_lands (n : nat) (mx mn : option num) (d : num)
    (msg : string) :
  let q := mkNumberPrompt true mx mn d false (mkBuffer "" 0) (mkBuffer "" 0)
             1 1 WholeWindow false msg in
  clamp_value q (PFloat float_0) = inr (PFloat float_0) ->
  lands (set_text (S (S (S (S (S n))))) WholeBuffer "0" q)
        (mkNumberPrompt true mx mn d false (mkBuffer "0" 0) (mkBuffer "0" 0)
           2 2 WholeWindow false msg).
Proof.
  intros q Hclamp.
  set (Y := mkNumberPrompt true mx mn d false (mkBuffer "0" 0) (mkBuffer "0" 0)
              2 2 WholeWindow false msg).
  apply set_text_lands.
  - discriminate.
  - discriminate.
  - intros _ p1 Hp1.
    set (X1 := with_width WholeBuffer (PyStr.len "0" + 1)
                 (with_text WholeBuffer "0" q)) in *.
    assert (Hr1 : read_value p1 = Some (PFloat float_0)).
    { rewrite (same_content_read_value _ _ Hp1). reflexivity. }
    assert (Ha1 : same_content (after_read p1) X1).
    { eapply same_content_trans; [apply (same_content_after_read _ _ Hp1)|].
      reflexivity. }
    unfold value_of. rewrite Hr1.
    rewrite value_set_clamps_then_writes.
    replace (clamp_value (after_read p1) (PFloat float_0))
      with (clamp_value q (PFloat float_0))
      by (rewrite (same_content_clamp_value _ _ _ Ha1); reflexivity).
    rewrite Hclamp.
    assert (Hf1 : _float (after_read p1) = true
                  /\ _ending_zero (after_read p1) = false
                  /\ text (_whole_buffer (after_read p1)) = "0").
    { pose proof Ha1 as H. content_facts H. unfold X1, q in *.
      cbn in *. repeat split; congruence. }
    destruct Hf1 as [Hf1 [Hz1 Hw1]].
    apply write_value_float_lands
      with (w := "0") (f := "0") (q1 := after_read p1).
    + assumption.
    + reflexivity.
    + apply set_text_same. exact Hw1.
    + intros p' Hp'. rewrite Hz1. cbn [append].
      assert (Hp'X : same_content p' X1)
        by (eapply same_content_trans; eassumption).
      assert (Hi' : text (_integral_buffer p') = "").
      { pose proof Hp'X as H. content_facts H. unfold X1, q in *.
        cbn in *. congruence. }
      assert (HY : same_content (settled_write IntegralBuffer "0" p') Y).
      { unfold settled_write. cbn [skipped String.eqb orb].
        change (skipped "0") with false. cbv iota.
        eapply same_content_trans.
        - apply same_content_after_read.
          apply same_content_with_width, same_content_with_text. exact Hp'X.
        - reflexivity. }
      eapply lands_same_content; [|exact HY].
      apply set_text_settles.
      * cbn [buffer]. rewrite Hi'. discriminate.
      * intros _. exists (PFloat float_0).
        assert (Hv : value_of (with_width IntegralBuffer (PyStr.len "0" + 1)
                                 (with_text IntegralBuffer "0" p'))
                     = PFloat float_0).
        { rewrite (same_content_value_of _
                     (with_width IntegralBuffer (PyStr.len "0" + 1)
                        (with_text IntegralBuffer "0" X1))).
          - reflexivity.
          - now apply same_content_with_width, same_content_with_text. }
        rewrite Hv. split.
        -- rewrite (same_content_clamp_value _ _ _ Hp'X). exact Hclamp.
        -- eapply same_content_shows; [exact HY|].
           unfold shows. cbn. exists "0", "0". repeat split.
Qed.

(** The first render of a float prompt whose bounds leave 0.0 alone:
    whatever the configured default, [_on_rendered] returns with "0" in
    both buffers, both cursors at 0, both windows two columns wide, the
    focus on the whole part, the trailing-zero flag clear and no
    validation error; the value read is 0.0, not the default. *)
Theorem on_rendered_float (n : nat) (SessionResult : Type)
    (default : InquirerPyDefault SessionResult)
    (max_allowed min_allowed : option num) (invalid_message : string)
    (session_result : SessionResult) (q : NumberPrompt) :
  init SessionResult default true max_allowed min_allowed invalid_message
       session_result = Constructed q ->
  clamp_value q (PFloat float_0) = inr (PFloat float_0) ->
  _on_rendered (S (S (S (S (S n))))) q
  = Ret tt (mkNumberPrompt true max_allowed min_allowed (_default q) false
              (mkBuffer "0" 0) (mkBuffer "0" 0) 2 2 WholeWindow false
              invalid_message)
  /\ value_get (mkNumberPrompt true max_allowed min_allowed (_default q) false
                  (mkBuffer "0" 0) (mkBuffer "0" 0) 2 2 WholeWindow false
                  invalid_message)
     = Ret (PFloat float_0)
         (mkNumberPrompt true max_allowed min_allowed (_default q) false
            (mkBuffer "0" 0) (mkBuffer "0" 0) 2 2 WholeWindow false
            invalid_message).
Proof.
  intros Hinit Hclamp.
  assert (Hq : q = mkNumberPrompt true max_allowed min_allowed (_default q)
                     false (mkBuffer "" 0) (mkBuffer "" 0) 1 1 WholeWindow
                     false invalid_message).
  { unfold init in Hinit.
    destruct (float_of_obj (resolve SessionResult default session_result))
      as [e|[k|x|s|]]; try discriminate.
    injection Hinit as <-. reflexivity. }
  set (d := _default q) in *. clearbody d. subst q.
  set (Y := mkNumberPrompt true max_allowed min_allowed d false
              (mkBuffer "0" 0) (mkBuffer "0" 0) 2 2 WholeWindow false
              invalid_message).
  split; [|reflexivity].
  destruct (first_render_float_lands n max_allowed min_allowed d
              invalid_message Hclamp) as [p1 [E1 H1]].
  fold Y in H1.
  unfold _on_rendered, bind. rewrite E1.
  rewrite set_cursor_position_settles.
  assert (F1 : _focus p1 = WholeWindow /\ text (_whole_buffer p1) = "0"
               /\ text (_integral_buffer p1) = "0").
  { pose proof H1 as H. content_facts H. unfold Y in *. cbn in *.
    repeat split; congruence. }
  destruct F1 as [Fo1 [Fw1 Fi1]].
  assert (E2 : settle_cursor WholeBuffer 0 p1 = with_cursor WholeBuffer 0 p1).
  { unfold settle_cursor, focus_buffer.
    rewrite Fo1. cbn [buffer]. rewrite Fw1.
    change (clamp_cursor (PyStr.len "0") 0) with 0.
    change (PyStr.startswith "0" "-") with false. cbn [andb].
    now destruct (0 =? cursor_position (_whole_buffer p1)). }
  rewrite E2.
  destruct (set_text_same_exact (S (S n)) IntegralBuffer "0"
              (with_cursor WholeBuffer 0 p1)) as [c E3].
  { rewrite <- Fi1. split_prompt p1; reflexivity. }
  rewrite E3. rewrite set_cursor_position_settles. f_equal.
  set (p3 := with_cursor IntegralBuffer c (with_cursor WholeBuffer 0 p1)).
  assert (F3 : _focus p3 = WholeWindow /\ text (_whole_buffer p3) = "0"
               /\ text (_integral_buffer p3) = "0").
  { subst p3. clear - Fo1 Fw1 Fi1. split_prompt p1. cbn in *. auto. }
  destruct F3 as [Fo3 [Fw3 Fi3]].
  assert (E4 : settle_cursor IntegralBuffer 0 p3
               = with_cursor IntegralBuffer 0 p3).
  { unfold settle_cursor, focus_buffer.
    rewrite Fo3. cbn [buffer]. rewrite Fw3, Fi3.
    change (clamp_cursor (PyStr.len "0") 0) with 0.
    change (PyStr.startswith "0" "-") with false. cbn [andb].
    now destruct (0 =? cursor_position (_integral_buffer p3)). }
  rewrite E4. subst p3.
  transitivity (uncursor p1); [split_prompt p1; reflexivity|].
  exact H1.
Qed.

(** The first render of [NumberPrompt(float_allowed=True, default=2.5,
    min_allowed=-1, max_allowed=10)]. *)
Lemma on_rendered_float_witness :
  _on_rendered 5
    (mkNumberPrompt true (Some (PInt 10)) (Some (PInt (-1)))
       (PFloat (S754_finite false 5629499534213120 (-51))) false
       (mkBuffer "" 0) (mkBuffer "" 0) 1 1 WholeWindow false "Invalid input")
  = Ret tt
      (mkNumberPrompt true (Some (PInt 10)) (Some (PInt (-1)))
         (PFloat (S754_finite false 5629499534213120 (-51))) false
         (mkBuffer "0" 0) (mkBuffer "0" 0) 2 2 WholeWindow false
         "Invalid input")
  /\ value_get
       (mkNumberPrompt true (Some (PInt 10)) (Some (PInt (-1)))
          (PFloat (S754_finite false 5629499534213120 (-51))) false
          (mkBuffer "0" 0) (mkBuffer "0" 0) 2 2 WholeWindow false
          "Invalid input")
     = Ret (PFloat float_0)
         (mkNumberPrompt true (Some (PInt 10)) (Some (PInt (-1)))
            (PFloat (S754_finite false 5629499534213120 (-51))) false
            (mkBuffer "0" 0) (mkBuffer "0" 0) 2 2 WholeWindow false
            "Invalid input").
Proof.
  apply (on_rendered_float 0 unit
           (Literal (ObjFloat (S754_finite false 5629499534213120 (-51))))
           (Some (PInt 10)) (Some (PInt (-1))) "Invalid input" tt);
    reflexivity.
Defined.

(** ** A prompt at rest is a fixed point of [self.value = self.value] *)

Lemma set_text_same_in_range (n : nat) (b : BufferRef) (t : string)
    (p : NumberPrompt) :
  text (buffer b p) = t -> cursor_position (buffer b p) <= PyStr.len t ->
  set_text (S n) b t p = Ret tt p.
Proof.
  intros Ht Hc. rewrite set_text_step.
  unfold text_setter, bind, self, write_text, modify, ret.
  destruct (Z.ltb_spec (PyStr.len t) (cursor_position (buffer b p))); [lia|].
  rewrite Ht, String.eqb_refl. cbn [negb].
  subst t. split_prompt p; destruct b; reflexivity.
Qed.

(** On an integer prompt at rest, the assignment the text-change callback
    makes, [self.value = self.value], changes nothing at all: the read
    returns the integer shown and raises no error, and writing it back
    leaves texts, cursors, widths and error state exactly as they were.
    This is what ends the mutual recursion of setter and callback. *)
Theorem value_set_value_is_noop (n : nat) (p : NumberPrompt) :
  int_settled p ->
  exists v,
    value_get p = Ret (PInt v) p
    /\ (v <- value_get ;; set_value (S n) v) p = Ret tt p.
Proof.
  intros [Hm [Ho [Hok [v [Ht Hcl]]]]].
  assert (Hg : value_get p = Ret (PInt v) p).
  { apply value_get_int_ok; [apply Hm|]. rewrite Ht. apply int_of_str. }
  exists v. split; [assumption|].
  unfold bind. rewrite Hg. unfold set_value.
  rewrite value_set_clamps_then_writes, clamp_value_int by assumption.
  rewrite write_value_int by apply Hm. cbn [PyNum.str]. rewrite Hcl.
  apply set_text_same_in_range; [assumption|].
  cbn [buffer]. rewrite <- Ht. apply Hok.
Qed.

(** [self.value = self.value] on [NumberPrompt(min_allowed=0,
    max_allowed=100)] after its first render. *)
Lemma value_set_value_is_noop_witness :
  exists v,
    value_get int_prompt_0_100 = Ret (PInt v) int_prompt_0_100
    /\ (v <- value_get ;; set_value 1 v) int_prompt_0_100
       = Ret tt int_prompt_0_100.
Proof.
  apply (value_set_value_is_noop 0 int_prompt_0_100).
  split; [repeat split; reflexivity|]. split; [reflexivity|].
  split; [repeat split; cbn; try lia; discriminate|].
  exists 0. split; reflexivity.
Defined.

(** ** The setter on a float without a decimal point *)

Lemma lt_nan_l (b : num) : PyNum.lt (PFloat S754_nan) b = false.
Proof. destruct b as [k|y]; reflexivity. Qed.

Lemma lt_nan_r (x : PyFloat.float) :
  PyNum.lt (PFloat x) (PFloat S754_nan) = false.
Proof. destruct x; reflexivity. Qed.

(** In float mode the setter never stores a not-a-number: [max] and [min]
    let it through whatever the bounds are, its string "nan" has no
    decimal point, and the two-name unpacking of the split raises
    [ValueError] before any buffer is written.  (When a bound is an [int]
    too large for [float()], that conversion raises [OverflowError]
    first.)  The prompt is left exactly as it was. *)
Theorem set_value_nan_raises (fuel : nat) (p : NumberPrompt) :
  _float p = true ->
  exists e,
    set_value fuel (PFloat S754_nan) p = Raise e p
    /\ (e = ValueError \/ e = OverflowError)
    /\ (_min p = None -> _max p = None -> e = ValueError).
Proof.
  intros Hf. unfold set_value. rewrite value_set_clamps_then_writes.
  unfold clamp_value, bound_value. rewrite Hf. cbn [negb].
  assert (Hw : write_value (set_text fuel) (PFloat S754_nan) p
               = Raise ValueError p).
  { unfold write_value. cbn [bind self]. rewrite Hf. reflexivity. }
  destruct (_min p) as [[lo|lo]|], (_max p) as [[hi|hi]|];
    repeat match goal with
      | |- context [PyFloat.of_int ?k] => destruct (PyFloat.of_int k)
      end;
    unfold PyNum.max, PyNum.min;
    rewrite ?lt_nan_l, ?lt_nan_r, ?Hw;
    eexists; (split; [reflexivity|]); split; auto; discriminate.
Qed.

(** [set_value(nan)] on a rendered float prompt without bounds. *)
Lemma set_value_nan_raises_witness :
  exists e,
    set_value 6 (PFloat S754_nan) float_prompt = Raise e float_prompt
    /\ (e = ValueError \/ e = OverflowError)
    /\ (_min float_prompt = None -> _max float_prompt = None
        -> e = ValueError).
Proof. apply (set_value_nan_raises 6 float_prompt). reflexivity. Defined.

(** ** The string of a float is never the text of an integer *)

Lemma digit_no_space (c : ascii) : is_digit_prop c -> no_space c.
Proof. intros H. apply (digit_not_special c H). Qed.

Lemma digits_of_digits (c : Z) : Forall is_digit_prop (PyFloat.digits_of c).
Proof.
  unfold PyFloat.digits_of, NilZero.string_of_uint.
  destruct (N.to_uint (Z.to_N c)) eqn:E;
    try (rewrite <- E; apply digit_chars_digits).
  constructor; [reflexivity|constructor].
Qed.

Lemma strip_zeros_rev_digits (r : list ascii) :
  Forall is_digit_prop r -> Forall is_digit_prop (PyFloat.strip_zeros_rev r).
Proof.
  induction 1 as [|c r Hc Hr IH]; cbn [PyFloat.strip_zeros_rev].
  - constructor.
  - destruct (Ascii.ascii_dec c "0") as [->|Hne]; [exact IH|].
    replace (match c with
             | "0"%char => PyFloat.strip_zeros_rev r
             | _ => c :: r
             end) with (c :: r).
    + now constructor.
    + destruct c as [[] [] [] [] [] [] [] []]; try reflexivity.
      now contradiction Hne.
Qed.

Lemma strip_trailing_zeros_digits (ds : list ascii) :
  Forall is_digit_prop ds -> Forall is_digit_prop (PyFloat.strip_trailing_zeros ds).
Proof.
  intros H. unfold PyFloat.strip_trailing_zeros.
  apply Forall_rev, strip_zeros_rev_digits, Forall_rev, H.
Qed.

Lemma shortest_from_digits (fuel : nat) :
  forall x n d p nd,
    Forall is_digit_prop (fst (PyFloat.shortest_from fuel x n d p nd)).
Proof.
  induction fuel as [|k IH]; intros x n d p nd;
    cbn [PyFloat.shortest_from]; destruct (PyFloat.scale10 n d (nd - p)) as [n' d'].
  - apply strip_trailing_zeros_digits, digits_of_digits.
  - repeat match goal with
      | |- context [if ?c then _ else _] => destruct c
      | |- context [match ?c with _ => _ end] => destruct c
      end; try apply IH;
      apply strip_trailing_zeros_digits, digits_of_digits.
Qed.

Lemma shortest_digits (m : positive) (e : Z) :
  Forall is_digit_prop (fst (PyFloat.shortest m e)).
Proof.
  unfold PyFloat.shortest.
  destruct (if 0 <=? e then (Z.pos m * 2 ^ e, 1) else (Z.pos m, 2 ^ (- e)))
    as [n d].
  apply shortest_from_digits.
Qed.

Lemma zeros_digits (k : Z) : Forall is_digit_prop (PyFloat.zeros k).
Proof.
  unfold PyFloat.zeros. induction (Z.to_nat k); cbn; constructor;
    [reflexivity|assumption].
Qed.

(** A [repr] layout is digits, then a point or an "e", then the rest. *)
Lemma layout_shape (ds : list ascii) (decpt : Z) :
  Forall is_digit_prop ds ->
  exists a x b,
    PyFloat.layout ds decpt = (a ++ x :: b)%list
    /\ Forall is_digit_prop a /\ (x = "."%char \/ x = "e"%char)
    /\ Forall no_space b.
Proof.
  intros Hd. unfold PyFloat.layout.
  assert (Hsp : Forall no_space ds)
    by (eapply Forall_impl; [|exact Hd]; apply digit_no_space).
  assert (Hz : forall k, Forall no_space (PyFloat.zeros k)).
  { intros k. eapply Forall_impl; [|apply zeros_digits]. apply digit_no_space. }
  destruct ((decpt <=? -4) || (16 <? decpt))%bool.
  - set (exd := if Nat.ltb _ 2 then _ else _).
    assert (Hexd : Forall no_space exd).
    { subst exd.
      assert (H0 : Forall no_space (PyFloat.digits_of (Z.abs (decpt - 1)))).
      { eapply Forall_impl; [|apply digits_of_digits]. apply digit_no_space. }
      destruct (Nat.ltb _ 2); [constructor; [reflexivity|]|]; exact H0. }
    assert (Hsign : no_space (if decpt - 1 <? 0 then "-"%char else "+"%char))
      by (destruct (decpt - 1 <? 0); reflexivity).
    destruct ds as [|c [|c' r]].
    + exists [], "e"%char. eexists. split; [reflexivity|].
      split; [constructor|]. split; [now right|]. now constructor.
    + exists [c], "e"%char. eexists. split; [reflexivity|].
      split; [assumption|]. split; [now right|]. now constructor.
    + exists [c], "."%char,
        ((c' :: r)
         ++ "e"%char :: (if decpt - 1 <? 0 then "-"%char else "+"%char) :: exd)%list.
      split; [reflexivity|].
      inversion Hd as [|? ? Hc Hr]; subst.
      inversion Hsp as [|? ? Sc Sr]; subst.
      split; [constructor; [assumption|constructor]|]. split; [now left|].
      apply Forall_app. split; [assumption|].
      constructor; [reflexivity|]. now constructor.
  - destruct (decpt <=? 0).
    + exists [ "0"%char ], "."%char. eexists. split; [reflexivity|].
      split; [constructor; [reflexivity|constructor]|]. split; [now left|].
      apply Forall_app. split; [apply Hz|assumption].
    + destruct (Z.of_nat (List.length ds) <=? decpt).
      * exists (ds ++ PyFloat.zeros (decpt - Z.of_nat (List.length ds)))%list,
          "."%char, [ "0"%char ].
        split; [now rewrite <- app_assoc|].
        split; [apply Forall_app; split; [assumption|apply zeros_digits]|].
        split; [now left|]. constructor; [reflexivity|constructor].
      * exists (firstn (Z.to_nat decpt) ds), "."%char,
          (skipn (Z.to_nat decpt) ds).
        split; [reflexivity|].
        rewrite <- (firstn_skipn (Z.to_nat decpt) ds) in Hd, Hsp.
        apply Forall_app in Hd as [Ha _]. apply Forall_app in Hsp as [_ Hb].
        split; [assumption|]. split; [now left|assumption].
Qed.

Lemma digitpart_stops (a : list ascii) (x : ascii) (b : list ascii) :
  Forall is_digit_prop a -> x = "."%char \/ x = "e"%char ->
  PyStr.digitpart (a ++ x :: b) = (map PyStr.digit_val a, x :: b).
Proof.
  intros Ha Hx.
  assert (Hxd : PyStr.is_digit x = false /\ Ascii.eqb x "_" = false)
    by (destruct Hx; subst; split; reflexivity).
  destruct Hxd as [Hxd Hxu].
  induction Ha as [|c r Hc Hr IH]; cbn [app map PyStr.digitpart].
  - now rewrite Hxd.
  - rewrite Hc. destruct r as [|u r'].
    + cbn [app] in *. rewrite Hxu. cbn [andb]. now rewrite IH.
    + cbn [app] in *. inversion Hr as [|? ? Hu _]; subst.
      destruct (digit_not_special u Hu) as [_ [Hus _]]. rewrite Hus.
      cbn [andb]. now rewrite IH.
Qed.

Lemma int_of_layout (neg : bool) (ds : list ascii) (decpt : Z) :
  Forall is_digit_prop ds ->
  PyInt.of_string
    (string_of_list_ascii
       ((if neg then [ "-"%char ] else []) ++ PyFloat.layout ds decpt))
  = None
  /\ skipped
       (string_of_list_ascii
          ((if neg then [ "-"%char ] else []) ++ PyFloat.layout ds decpt))
     = false.
Proof.
  intros Hd.
  destruct (layout_shape ds decpt Hd) as [a [x [b [E [Ha [Hx Hb]]]]]].
  rewrite E.
  assert (Hsp : Forall no_space (a ++ x :: b)).
  { apply Forall_app. split.
    - eapply Forall_impl; [|exact Ha]. apply digit_no_space.
    - constructor; [destruct Hx; subst; reflexivity|assumption]. }
  assert (Hxs : Ascii.eqb x "-" = false /\ Ascii.eqb x "+" = false)
    by (destruct Hx; subst; split; reflexivity).
  destruct Hxs as [Hxm Hxp].
  split.
  - unfold PyInt.of_string. rewrite list_ascii_of_string_of_list_ascii.
    destruct neg; cbn [app].
    + rewrite strip_no_space by (constructor; [reflexivity|exact Hsp]).
      cbn [Ascii.eqb Bool.eqb]. rewrite (digitpart_stops a x b Ha Hx).
      now destruct (map PyStr.digit_val a).
    + rewrite strip_no_space by exact Hsp.
      destruct a as [|c a'].
      * cbn [app]. rewrite Hxm, Hxp.
        pose proof (digitpart_stops [] x b (Forall_nil _) Hx) as Hs.
        cbn [app map] in Hs. rewrite Hs. reflexivity.
      * cbn [app]. inversion Ha as [|? ? Hc _]; subst.
        destruct (digit_not_special c Hc) as [_ [_ [Hm Hp]]].
        rewrite Hm, Hp.
        change (c :: a' ++ x :: b)%list with ((c :: a') ++ x :: b)%list.
        rewrite (digitpart_stops (c :: a') x b Ha Hx). reflexivity.
  - unfold skipped. destruct neg; cbn [app string_of_list_ascii].
    + destruct a; reflexivity.
    + destruct a as [|c a']; cbn [app string_of_list_ascii String.eqb].
      * now rewrite (proj2 (Ascii.eqb_neq x "-"))
          by (destruct Hx; subst; discriminate).
      * inversion Ha as [|? ? Hc _]; subst.
        destruct (digit_not_special c Hc) as [_ [_ [Hm _]]].
        now rewrite Hm.
Qed.

(** [int(str(y))] raises [ValueError] for every float [y], and the
    text-change callback does not skip [str(y)]. *)
Lemma int_of_float_str (y : PyFloat.float) :
  PyInt.of_string (PyFloat.to_string y) = None
  /\ skipped (PyFloat.to_string y) = false.
Proof.
  destruct y as [s|s| |s m e]; cbn [PyFloat.to_string];
    try (destruct s; split; reflexivity); try (split; reflexivity).
  pose proof (shortest_digits m e) as Hd.
  destruct (PyFloat.shortest m e) as [ds decpt]. cbn [fst] in Hd.
  exact (int_of_layout s ds decpt Hd).
Qed.

(** ** Integer mode with a bound of type [float] *)

(** The float [float_7_5] is 7.5, and [int_prompt_max_7_5] is what the
    constructor and the first render make of [max_allowed=7.5]. *)
Lemma int_prompt_max_7_5_reached :
  PyFloat.of_string "7.5" = Some float_7_5
  /\ PyFloat.to_string float_7_5 = "7.5"
  /\ exists q,
       init unit (Literal (ObjInt 0)) false (Some (PFloat float_7_5)) None
            "Invalid input" tt = Constructed q
       /\ _on_rendered 6 q = Ret tt int_prompt_max_7_5.
Proof.
  split; [vm_compute; reflexivity|]. split; [vm_compute; reflexivity|].
  eexists; split; [reflexivity|vm_compute; reflexivity].
Qed.

Lemma same_content_with_error (m : string) (p q : NumberPrompt) :
  same_content p q -> same_content (with_error m p) (with_error m q).
Proof. intros H. content_inj H. reflexivity. Qed.

(** The string of a float written into the whole buffer of an integer
    prompt: the callback cannot read it, records the error and writes the
    default back. *)
Lemma set_text_float_str_int_lands (n : nat) (p : NumberPrompt)
    (y : PyFloat.float) (d : Z) :
  _float p = false ->
  text (_whole_buffer p) <> PyFloat.to_string y ->
  clamp_value p (_default p) = inr (PInt d) ->
  lands (set_text (S (S (S (S (S n))))) WholeBuffer (PyFloat.to_string y) p)
        (written WholeBuffer (PyInt.to_string d)
           (with_error _value_error_message
              (with_width WholeBuffer (PyStr.len (PyFloat.to_string y) + 1)
                 (with_text WholeBuffer (PyFloat.to_string y) p)))).
Proof.
  intros Hf Hne Hd.
  destruct (int_of_float_str y) as [Hnone Hskip].
  set (t := PyFloat.to_string y) in *.
  apply set_text_lands; [assumption|rewrite Hskip; discriminate|].
  intros _ p1 Hp1.
  set (X := with_width WholeBuffer (PyStr.len t + 1)
              (with_text WholeBuffer t p)) in *.
  assert (HX : _float X = false /\ text (_whole_buffer X) = t
               /\ _min X = _min p /\ _max X = _max p
               /\ _default X = _default p)
    by (subst X; split_prompt p; cbn in *; auto).
  destruct HX as [Xf [Xt [Xlo [Xhi Xd]]]].
  assert (H1 : _float p1 = false /\ text (_whole_buffer p1) = t
               /\ _min p1 = _min p /\ _max p1 = _max p
               /\ _default p1 = _default p).
  { pose proof Hp1 as H. content_facts H. repeat split; congruence. }
  destruct H1 as [F1 [T1 [Lo1 [Hi1 D1]]]].
  assert (Hr : read_value p1 = None)
    by (rewrite read_value_int, T1, Hnone; auto).
  assert (Ha : after_read p1 = with_error _value_error_message p1).
  { unfold after_read. rewrite Hr, F1. reflexivity. }
  unfold value_of. rewrite Hr, Ha, D1.
  set (p2 := with_error _value_error_message p1).
  assert (H2 : _float p2 = false /\ _min p2 = _min p /\ _max p2 = _max p)
    by (subst p2; split_prompt p1; cbn in *; auto).
  destruct H2 as [F2 [Lo2 Hi2]].
  rewrite value_set_clamps_then_writes.
  rewrite (clamp_value_ext p2 p) by congruence.
  rewrite Hd, write_value_int by assumption. cbn [PyNum.str].
  eapply lands_same_content.
  - apply (set_text_whole_int_lands n p2 d F2).
    rewrite (clamp_value_ext p2 p) by congruence.
    exact (clamp_value_idempotent _ _ _ Hd).
  - apply same_content_written. now apply same_content_with_error.
Qed.

(** Integer mode accepts bounds of type [float] and compares with them
    unconverted.  When clamping a value hits such a bound ([min(10, 7.5)]
    is 7.5) the setter writes the bound's string, "7.5", into the whole
    buffer; the callback cannot read it as an integer, records the
    validation error, and writes back the default (clamped): the prompt
    ends on the default with the error set, not on the bound. *)
Theorem float_bound_in_int_mode (n : nat) (p : NumberPrompt) (v u d : Z)
    (y : PyFloat.float) :
  _float p = false ->
  PyInt.of_string (text (_whole_buffer p)) = Some u ->
  clamp_value p (PInt v) = inr (PFloat y) ->
  clamp_value p (_default p) = inr (PInt d) ->
  exists p',
    set_value (S (S (S (S (S n))))) (PInt v) p = Ret tt p'
    /\ text (_whole_buffer p') = PyInt.to_string d
    /\ _invalid p' = true
    /\ _invalid_message p' = _value_error_message
    /\ value_get p' = Ret (PInt d) p'.
Proof.
  intros Hf Hu Hv Hd.
  assert (Hne : text (_whole_buffer p) <> PyFloat.to_string y).
  { intros E. rewrite E in Hu.
    now rewrite (proj1 (int_of_float_str y)) in Hu. }
  destruct (set_text_float_str_int_lands n p y d Hf Hne Hd) as [p' [E Hs]].
  set (X := with_error _value_error_message
              (with_width WholeBuffer (PyStr.len (PyFloat.to_string y) + 1)
                 (with_text WholeBuffer (PyFloat.to_string y) p))) in *.
  destruct (written_facts WholeBuffer (PyInt.to_string d) X)
    as [Wt [Wf [_ [_ [_ [_ [_ [Wv Wm]]]]]]]].
  assert (HX : _float X = false /\ _invalid X = true
               /\ _invalid_message X = _value_error_message)
    by (subst X; split_prompt p; cbn in *; auto).
  destruct HX as [Xf [Xv Xm]].
  content_facts Hs. cbn [buffer] in Wt.
  assert (Ht : text (_whole_buffer p') = PyInt.to_string d) by congruence.
  exists p'. split.
  - unfold set_value. rewrite value_set_clamps_then_writes, Hv.
    rewrite write_value_int by assumption. exact E.
  - repeat split; try congruence.
    apply value_get_int_ok; [congruence|]. rewrite Ht. apply int_of_str.
Qed.

(** [set_value(10)] on [NumberPrompt(max_allowed=7.5)]: the prompt ends on
    the default 0 with the error set. *)
Lemma float_bound_in_int_mode_witness :
  exists p',
    set_value 5 (PInt 10) int_prompt_max_7_5 = Ret tt p'
    /\ text (_whole_buffer p') = "0"
    /\ _invalid p' = true
    /\ _invalid_message p' = "Remove any non-integer value"
    /\ value_get p' = Ret (PInt 0) p'.
Proof.
  apply (float_bound_in_int_mode 0 int_prompt_max_7_5 10 0 0 float_7_5);
    reflexivity.
Defined.

(** ** Float mode with a bound that [float()] cannot convert *)

Lemma text_setter_changed_exact
    (st : BufferRef -> string -> M unit) (sc : BufferRef -> Z -> M unit)
    (b : BufferRef) (t : string) (p : NumberPrompt) :
  text (buffer b p) <> t -> cursor_position (buffer b p) <= PyStr.len t ->
  text_setter st sc b t p = on_text_changed st sc b (with_text b t p).
Proof.
  intros Ht Hc. unfold text_setter, bind, self, write_text, modify, ret.
  destruct (Z.ltb_spec (PyStr.len t) (cursor_position (buffer b p))); [lia|].
  destruct (String.eqb_spec t (text (buffer b p))); [congruence|].
  reflexivity.
Qed.

Lemma on_text_changed_raises
    (st : BufferRef -> string -> M unit) (sc : BufferRef -> Z -> M unit)
    (b : BufferRef) (p : NumberPrompt) (e : exn) :
  skipped (text (buffer b p)) = false ->
  clamp_value p (value_of (with_width b (PyStr.len (text (buffer b p)) + 1) p))
  = inl e ->
  on_text_changed st sc b p
  = Raise e (after_read (with_width b (PyStr.len (text (buffer b p)) + 1) p)).
Proof.
  intros Hs Hc. unfold on_text_changed, _on_text_change.
  cbn [bind self modify].
  set (p1 := with_width b (PyStr.len (text (buffer b p)) + 1) p) in *.
  replace (text (buffer b p1)) with (text (buffer b p))
    by (subst p1; split_prompt p; destruct b; reflexivity).
  unfold skipped in Hs. apply orb_false_iff in Hs as [-> ->]. cbn [negb andb].
  unfold bind. rewrite value_get_reads.
  rewrite value_set_clamps_then_writes.
  change (match read_value p1 with Some v => v | None => _default p1 end)
    with (value_of p1).
  replace (clamp_value (after_read p1) (value_of p1)) with (inl num e).
  - reflexivity.
  - rewrite <- Hc. apply clamp_value_ext.
    + destruct (after_read_buffers p1) as [Af _]. rewrite Af.
      subst p1; split_prompt p; destruct b; reflexivity.
    + unfold after_read. destruct (read_value p1), (negb (_float p1));
        subst p1; split_prompt p; destruct b; reflexivity.
    + unfold after_read. destruct (read_value p1), (negb (_float p1));
        subst p1; split_prompt p; destruct b; reflexivity.
Qed.

(** The constructor does not check the bounds.  In float mode the setter
    converts them with [float()] each time it runs, so a prompt built
    with an [int] bound too large for a float raises [OverflowError] out
    of its first render: "0" is stored in the whole buffer, the callback
    reads 0.0, and the setter fails on the bound before it writes.  The
    fractional buffer is still empty when the exception leaves. *)
Theorem on_rendered_float_overflow (n : nat) (SessionResult : Type)
    (default : InquirerPyDefault SessionResult)
    (max_allowed min_allowed : option num) (invalid_message : string)
    (session_result : SessionResult) (q : NumberPrompt) (e : exn) :
  init SessionResult default true max_allowed min_allowed invalid_message
       session_result = Constructed q ->
  clamp_value q (PFloat float_0) = inl e ->
  e = OverflowError
  /\ _on_rendered (S n) q
     = Raise OverflowError
         (mkNumberPrompt true max_allowed min_allowed (_default q) false
            (mkBuffer "0" 0) (mkBuffer "" 0) 2 1 WholeWindow false
            invalid_message).
Proof.
  intros Hinit Hclamp.
  assert (He : e = OverflowError).
  { revert Hclamp. unfold clamp_value, bound_value.
    destruct (_min q) as [[lo|lo]|], (_max q) as [[hi|hi]|];
      destruct (_float q); cbn [negb];
      repeat match goal with
        | |- context [PyFloat.of_int ?k] => destruct (PyFloat.of_int k)
        end; intros H; try discriminate H; now injection H. }
  split; [assumption|]. subst e.
  assert (Hq : q = mkNumberPrompt true max_allowed min_allowed (_default q)
                     false (mkBuffer "" 0) (mkBuffer "" 0) 1 1 WholeWindow
                     false invalid_message).
  { unfold init in Hinit.
    destruct (float_of_obj (resolve SessionResult default session_result))
      as [e|[k|x|s|]]; try discriminate.
    injection Hinit as <-. reflexivity. }
  set (d := _default q) in *. clearbody d. subst q.
  unfold _on_rendered, bind. rewrite set_text_step.
  rewrite text_setter_changed_exact by (cbn; (discriminate || lia)).
  rewrite (on_text_changed_raises _ _ _ _ OverflowError).
  - reflexivity.
  - reflexivity.
  - rewrite <- Hclamp. reflexivity.
Qed.

(** The first render of [NumberPrompt(float_allowed=True,
    max_allowed=10**400)]. *)
Lemma on_rendered_float_overflow_witness :
  OverflowError = OverflowError
  /\ _on_rendered 1
       (mkNumberPrompt true (Some (PInt (10 ^ 400))) None (PFloat float_0)
          false (mkBuffer "" 0) (mkBuffer "" 0) 1 1 WholeWindow false
          "Invalid input")
     = Raise OverflowError
         (mkNumberPrompt true (Some (PInt (10 ^ 400))) None (PFloat float_0)
            false (mkBuffer "0" 0) (mkBuffer "" 0) 2 1 WholeWindow false
            "Invalid input").
Proof.
  apply (on_rendered_float_overflow 0 unit (Literal (ObjInt 0))
           (Some (PInt (10 ^ 400))) None "Invalid input" tt
           (mkNumberPrompt true (Some (PInt (10 ^ 400))) None (PFloat float_0)
              false (mkBuffer "" 0) (mkBuffer "" 0) 1 1 WholeWindow false
              "Invalid input") OverflowError).
  - reflexivity.
  - vm_compute. reflexivity.
Defined.

(** ** Reading twice, writing twice, and keys that undo each other *)

Lemma after_read_idempotent (p : NumberPrompt) :
  read_value (after_read p) = read_value p
  /\ after_read (after_read p) = after_read p
  /\ _default (after_read p) = _default p.
Proof.
  assert (Hr : read_value (after_read p) = read_value p).
  { unfold after_read, read_value.
    split_prompt p. destruct fl; cbn;
      repeat match goal with
        | |- context [match ?x with Some _ => _ | None => _ end] =>
            destruct x eqn:?
        end; cbn; congruence. }
  split; [assumption|]. split.
  - unfold after_read at 1. rewrite Hr.
    unfold after_read, read_value, ends_in_zero.
    split_prompt p. destruct fl; cbn;
      repeat match goal with
        | |- context [match ?x with Some _ => _ | None => _ end] =>
            destruct x eqn:?
        end; cbn; reflexivity.
  - unfold after_read. destruct (read_value p), (negb (_float p));
      split_prompt p; reflexivity.
Qed.

(** Reading is idempotent, in both modes and for every state of the
    buffers: a second [get_value()] returns what the first returned and
    changes nothing more, whether the text parses or not. *)
Theorem value_get_idempotent (p : NumberPrompt) :
  exists v p',
    value_get p = Ret v p' /\ value_get p' = Ret v p'.
Proof.
  exists (value_of p), (after_read p).
  destruct (after_read_idempotent p) as [Hr [Ha Hd]].
  split; [apply value_get_reads|].
  rewrite value_get_reads, Ha. unfold value_of. now rewrite Hr, Hd.
Qed.

(** In integer mode with [int] bounds, from a prompt whose cursors are
    inside their texts, assigning the same value twice is assigning it
    once: the second [set_value(v)] returns and leaves the prompt exactly
    as the first left it. *)
Theorem set_value_twice (n : nat) (p : NumberPrompt) (v : Z) :
  int_mode p -> _focus p = WholeWindow -> cursors_ok p ->
  exists p',
    set_value (S (S (S (S n)))) (PInt v) p = Ret tt p'
    /\ set_value (S (S (S (S n)))) (PInt v) p' = Ret tt p'.
Proof.
  intros Hm Ho Hok. pose proof Hm as [Hf _].
  assert (Hset : forall q, int_mode q ->
            set_value (S (S (S (S n)))) (PInt v) q
            = set_text (S (S (S (S n)))) WholeBuffer
                (PyInt.to_string (int_clamp q v)) q).
  { intros q Hq. unfold set_value.
    rewrite value_set_clamps_then_writes, clamp_value_int by assumption.
    now rewrite write_value_int by apply Hq. }
  rewrite (Hset p Hm).
  destruct (set_text_whole_int_lands n p (int_clamp p v) Hf) as [p' [E Hs]].
  { rewrite clamp_value_int by assumption. now rewrite int_clamp_idempotent. }
  destruct (set_text_int_cursors _ _ _ _ _
              (cursors_ok_ranged p Hf Ho Hok)
              (int_to_string_nonempty (int_clamp p v)) E)
    as [[_ [_ [[_ Hc] _]]] _].
  destruct (written_facts WholeBuffer (PyInt.to_string (int_clamp p v)) p)
    as [Wt [Wf [Wlo [Whi _]]]].
  content_facts Hs. cbn [buffer] in Wt.
  assert (Ht : text (_whole_buffer p') = PyInt.to_string (int_clamp p v))
    by congruence.
  assert (Hm' : int_mode p') by (apply (int_mode_ext p' p); congruence).
  exists p'. split; [assumption|].
  rewrite (Hset p' Hm'), (int_clamp_ext p' p) by congruence.
  apply set_text_same_in_range; [assumption|].
  cbn [buffer]. rewrite <- Ht. exact Hc.
Qed.

(** [set_value(150)] twice between the bounds 0 and 100. *)
Lemma set_value_twice_witness :
  exists p',
    set_value 4 (PInt 150) int_prompt_0_100 = Ret tt p'
    /\ set_value 4 (PInt 150) p' = Ret tt p'.
Proof.
  apply (set_value_twice 0 int_prompt_0_100 150).
  - repeat split; reflexivity.
  - reflexivity.
  - repeat split; cbn; try lia; discriminate.
Defined.

(** In integer mode with [int] bounds, on a prompt at rest on the integer
    [v]: when [v + 1] is inside the bounds, [up] then [down] returns to
    [v]; when [v - 1] is, [down] then [up] does.  (At a bound the pair
    does not cancel: the first key is clamped away and the second then
    moves the value.) *)
Theorem up_down_undo (n : nat) (p : NumberPrompt) (v : Z) :
  int_settled p -> text (_whole_buffer p) = PyInt.to_string v ->
  (int_clamp p (v + 1) = v + 1 ->
   exists p',
     (_handle_up (S (S (S (S (S n))))) ;; _handle_down (S (S (S (S (S n))))))
       p = Ret tt p'
     /\ text (_whole_buffer p') = PyInt.to_string v
     /\ value_get p' = Ret (PInt v) p')
  /\ (int_clamp p (v - 1) = v - 1 ->
      exists p',
        (_handle_down (S (S (S (S (S n))))) ;; _handle_up (S (S (S (S (S n))))))
          p = Ret tt p'
        /\ text (_whole_buffer p') = PyInt.to_string v
        /\ value_get p' = Ret (PInt v) p').
Proof.
  intros Hset Ht. pose proof Hset as [Hm [Ho [Hok [v' [Ht' Hcl]]]]].
  assert (Hv : v' = v).
  { assert (H : PyInt.of_string (PyInt.to_string v')
                = PyInt.of_string (PyInt.to_string v)) by congruence.
    rewrite !int_of_str in H. congruence. }
  subst v'.
  assert (Hgo : forall delta, delta <> 0 ->
            int_clamp p (v + delta) = v + delta ->
            exists p',
              (step_focus_buffer (S (S (S (S (S n))))) delta ;;
               step_focus_buffer (S (S (S (S (S n))))) (- delta)) p
              = Ret tt p'
              /\ text (_whole_buffer p') = PyInt.to_string v
              /\ value_get p' = Ret (PInt v) p').
  { intros delta Hd Hin.
    destruct (step_focus_buffer_int_settled n p v delta Hm Ho Hok)
      as [p1 [E1 [S1 Hok1]]]; [rewrite Ht; apply int_of_str|assumption|].
    pose proof (int_settled_shown p1 p _ Hm Ho S1 Hok1) as [Hm1 [Ho1 _]].
    destruct (value_get_shown p1 p _ Hm S1) as [T1 [_ [_ [_ [C1 _]]]]].
    rewrite Hin in T1.
    destruct (step_focus_buffer_int_settled n p1 (v + delta) (- delta)
                Hm1 Ho1 Hok1) as [p2 [E2 [S2 Hok2]]];
      [rewrite T1; apply int_of_str|lia|].
    destruct (value_get_shown p2 p1 _ Hm1 S2) as [T2 [_ [_ [_ [_ G2]]]]].
    assert (Hback : int_clamp p1 (v + delta + - delta) = v).
    { replace (v + delta + - delta) with v by lia.
      rewrite (int_clamp_ext p1 p); [assumption| |];
        [exact (f_equal (fun c => snd (fst c)) C1)
        |exact (f_equal (fun c => snd (fst (fst c))) C1)]. }
    rewrite Hback in T2, G2.
    exists p2. split; [unfold bind; now rewrite E1|]. auto. }
  split; intros Hin.
  - apply (Hgo 1); [discriminate|assumption].
  - apply (Hgo (-1)); [discriminate|assumption].
Qed.

(** [up] then [down], and [down] then [up], at 50 between 0 and 100. *)
Lemma up_down_undo_witness :
  (exists p',
     (_handle_up 5 ;; _handle_down 5)
       (with_text WholeBuffer "50" int_prompt_0_100) = Ret tt p'
     /\ text (_whole_buffer p') = "50"
     /\ value_get p' = Ret (PInt 50) p')
  /\ (exists p',
        (_handle_down 5 ;; _handle_up 5)
          (with_text WholeBuffer "50" int_prompt_0_100) = Ret tt p'
        /\ text (_whole_buffer p') = "50"
        /\ value_get p' = Ret (PInt 50) p').
Proof.
  assert (Hs : int_settled (with_text WholeBuffer "50" int_prompt_0_100)).
  { split; [repeat split; reflexivity|]. split; [reflexivity|].
    split; [repeat split; cbn; try lia; discriminate|].
    exists 50. split; reflexivity. }
  split.
  - apply (proj1 (up_down_undo 0 (with_text WholeBuffer "50" int_prompt_0_100)
                    50 Hs eq_refl)).
    reflexivity.
  - apply (proj2 (up_down_undo 0 (with_text WholeBuffer "50" int_prompt_0_100)
                    50 Hs eq_refl)).
    reflexivity.
Defined.

(** The [focus] key does nothing in integer mode; in float mode it moves
    the focus to the other part and touches nothing else, so pressing it
    twice restores the prompt exactly. *)
Theorem handle_focus_twice (p : NumberPrompt) :
  (_float p = false -> _handle_focus p = Ret tt p)
  /\ (_float p = true ->
      _handle_focus p
      = Ret tt (with_focus (match _focus p with
                            | WholeWindow => IntegralWindow
                            | IntegralWindow => WholeWindow
                            end) p))
  /\ (_handle_focus ;; _handle_focus) p = Ret tt p.
Proof.
  split; [|split].
  - intros Hf. rewrite handle_focus_toggles, Hf. reflexivity.
  - intros Hf. rewrite handle_focus_toggles, Hf. reflexivity.
  - unfold bind. rewrite handle_focus_toggles.
    destruct (_float p) eqn:Hf; cbn [negb].
    + rewrite handle_focus_toggles.
      split_prompt p. cbn in Hf. subst fl. destruct fo; reflexivity.
    + now rewrite handle_focus_toggles, Hf.
Qed.

(** ** Typing digits: where the text and the cursor end *)

(** [str(int(t))] is [t] for a text of digits that does not start with
    "0". *)
Lemma digits_uint (cs : list ascii) :
  Forall is_digit_prop cs ->
  exists u,
    NilEmpty.string_of_uint u = string_of_list_ascii cs
    /\ (cs <> [] -> hd "0"%char cs <> "0"%char ->
        Decimal.unorm u = u /\ u <> Decimal.Nil).
Proof.
  induction 1 as [|c r Hc Hr [u [Hu _]]].
  - exists Decimal.Nil. split; [reflexivity|]. intros H. congruence.
  - unfold is_digit_prop in Hc. cbn [string_of_list_ascii hd]. rewrite <- Hu.
    destruct c as [[] [] [] [] [] [] [] []]; try discriminate Hc;
    first
      [ exists (Decimal.D0 u); split; [reflexivity|]; intros _ H;
        now contradiction H
      | exists (Decimal.D1 u); split; [reflexivity|]; intros _ _;
        split; [reflexivity|discriminate]
      | exists (Decimal.D2 u); split; [reflexivity|]; intros _ _;
        split; [reflexivity|discriminate]
      | exists (Decimal.D3 u); split; [reflexivity|]; intros _ _;
        split; [reflexivity|discriminate]
      | exists (Decimal.D4 u); split; [reflexivity|]; intros _ _;
        split; [reflexivity|discriminate]
      | exists (Decimal.D5 u); split; [reflexivity|]; intros _ _;
        split; [reflexivity|discriminate]
      | exists (Decimal.D6 u); split; [reflexivity|]; intros _ _;
        split; [reflexivity|discriminate]
      | exists (Decimal.D7 u); split; [reflexivity|]; intros _ _;
        split; [reflexivity|discriminate]
      | exists (Decimal.D8 u); split; [reflexivity|]; intros _ _;
        split; [reflexivity|discriminate]
      | exists (Decimal.D9 u); split; [reflexivity|]; intros _ _;
        split; [reflexivity|discriminate] ].
Qed.

Lemma to_string_digits (cs : list ascii) :
  Forall is_digit_prop cs -> cs <> [] -> hd "0"%char cs <> "0"%char ->
  PyInt.to_string (PyStr.digits_val 0 (map PyStr.digit_val cs))
  = string_of_list_ascii cs.
Proof.
  intros Hd Hne Hhd.
  destruct (digits_uint cs Hd) as [u [Hu Hn]].
  destruct (Hn Hne Hhd) as [Hnorm Hnil].
  assert (Hc : digit_chars u = cs).
  { unfold digit_chars. rewrite Hu.
    apply list_ascii_of_string_of_list_ascii. }
  rewrite <- Hc at 1. rewrite <- of_uint_digits.
  pose proof (DecimalN.Unsigned.to_of u) as Hto.
  unfold N.of_uint in Hto. rewrite Hnorm in Hto.
  unfold PyInt.to_string.
  replace (Z.to_int (Z.of_N (Pos.of_uint u))) with (Decimal.Pos u).
  - cbn [NilZero.string_of_int]. unfold NilZero.string_of_uint.
    rewrite <- Hu. destruct u; congruence || reflexivity.
  - set (k := Pos.of_uint u) in *. rewrite <- Hto. now destruct k.
Qed.

(** The callback on a whole text that is the decimal text of an integer
    inside the bounds: only the width is updated. *)
Lemma on_text_changed_int_exact (n : nat) (sc : BufferRef -> Z -> M unit)
    (p : NumberPrompt) (z : Z) :
  int_mode p -> text (_whole_buffer p) = PyInt.to_string z ->
  int_clamp p z = z ->
  1 <= cursor_position (_whole_buffer p)
       <= PyStr.len (text (_whole_buffer p)) ->
  on_text_changed (set_text (S n)) sc WholeBuffer p
  = Ret tt (with_width WholeBuffer
              (PyStr.len (text (_whole_buffer p)) + 1) p).
Proof.
  intros Hm Ht Hcl Hc. unfold on_text_changed, _on_text_change.
  cbn [bind self modify buffer].
  set (p1 := with_width WholeBuffer
               (PyStr.len (text (_whole_buffer p)) + 1) p).
  assert (H1 : int_mode p1 /\ _whole_buffer p1 = _whole_buffer p
               /\ int_clamp p1 z = z).
  { subst p1. unfold int_mode, int_clamp in *. split_prompt p.
    cbn in *. auto. }
  destruct H1 as [Hm1 [Hw1 Hcl1]].
  rewrite Hw1.
  assert (Hsk : skipped (text (_whole_buffer p)) = false).
  { rewrite Ht. apply (skipped_int_text _ z), int_of_str. }
  unfold skipped in Hsk. apply orb_false_iff in Hsk as [-> ->].
  cbn [negb andb].
  assert (Hg : value_get p1 = Ret (PInt z) p1).
  { apply value_get_int_ok; [apply Hm1|]. rewrite Hw1, Ht. apply int_of_str. }
  unfold bind at 1. unfold bind at 1. rewrite Hg.
  rewrite value_set_clamps_then_writes, clamp_value_int by assumption.
  rewrite write_value_int by apply Hm1. cbn [PyNum.str]. rewrite Hcl1.
  rewrite set_text_same_in_range
    by (cbn [buffer]; rewrite Hw1; (exact Ht || (rewrite <- Ht; lia))).
  cbn [bind self]. rewrite Hw1.
  destruct (Z.eqb_spec (cursor_position (_whole_buffer p)) 0); [lia|].
  now rewrite andb_false_r.
Qed.

(** [_handle_input] when the text with the digit in it needs no rewriting. *)
Lemma input_int_exact (n : nat) (p : NumberPrompt) (d : ascii)
    (z : Z) :
  int_mode p -> _focus p = WholeWindow ->
  0 <= cursor_position (_whole_buffer p)
       <= PyStr.len (text (_whole_buffer p)) ->
  (PyStr.take (Z.to_nat (cursor_position (_whole_buffer p)))
     (text (_whole_buffer p)) ++ String d ""
   ++ PyStr.drop (Z.to_nat (cursor_position (_whole_buffer p)))
        (text (_whole_buffer p)))%string = PyInt.to_string z ->
  int_clamp p z = z ->
  _handle_input (S (S n)) (String d "") p
  = Ret tt
      (with_width WholeBuffer (PyStr.len (PyInt.to_string z) + 1)
         (with_buffer WholeBuffer
            (mkBuffer (PyInt.to_string z)
               (cursor_position (_whole_buffer p) + 1)) p)).
Proof.
  intros Hm Ho Hc Hnt Hcl.
  set (c := cursor_position (_whole_buffer p)) in *.
  set (t := text (_whole_buffer p)) in *.
  assert (Hlen : PyStr.len (PyInt.to_string z) = PyStr.len t + 1).
  { rewrite <- Hnt. rewrite !len_list_ascii, !list_ascii_of_string_app,
      list_ascii_of_take, list_ascii_of_drop.
    cbn [list_ascii_of_string app].
    rewrite length_app. cbn [List.length].
    rewrite <- (firstn_skipn (Z.to_nat c) (list_ascii_of_string t)) at 3.
    rewrite length_app. lia. }
  assert (Hne : String.eqb (PyInt.to_string z) t = false).
  { destruct (String.eqb_spec (PyInt.to_string z) t) as [E|]; [|reflexivity].
    rewrite E in Hlen. lia. }
  unfold _handle_input. cbn [bind self]. unfold focus_buffer. rewrite Ho.
  cbn [insert_text bind self modify buffer]. fold c t. cbv zeta.
  rewrite Hnt.
  replace (Z.max 0 (c + PyStr.len (String d ""))) with (c + 1)
    by (unfold PyStr.len; cbn [String.length]; lia).
  rewrite Hne. cbn [negb].
  destruct (Z.eqb_spec (c + 1) c) as [|_]; [lia|]. cbn [negb].
  set (pb := with_buffer WholeBuffer (mkBuffer (PyInt.to_string z) (c + 1)) p).
  assert (Hb : int_mode pb /\ _whole_buffer pb
                              = mkBuffer (PyInt.to_string z) (c + 1)
               /\ int_clamp pb z = z /\ _focus pb = WholeWindow).
  { subst pb. unfold int_mode, int_clamp in *. clearbody c t.
    split_prompt p. cbn in *. auto. }
  destruct Hb as [Bm [Bw [Bcl Bo]]].
  unfold bind at 1.
  rewrite (on_text_changed_int_exact n _ pb z Bm)
    by (rewrite ?Bw; cbn [text cursor_position]; (reflexivity || assumption || lia)).
  rewrite Bw. cbn [text].
  unfold _on_cursor_position_change. cbn [bind self].
  set (pc := with_width WholeBuffer (PyStr.len (PyInt.to_string z) + 1) pb).
  assert (Hpc : cursor_position (buffer WholeBuffer pc) = c + 1)
    by (subst pc pb; clearbody c t; split_prompt p; reflexivity).
  rewrite Hpc.
  destruct (Z.eqb_spec (c + 1) 0); [lia|].
  now rewrite andb_false_r.
Qed.

(** A digit typed into the decimal text of an integer, integer mode with
    [int] bounds: when the text with the digit in it is again the decimal
    text of an integer inside the bounds, nothing is rewritten.  The
    handler returns with exactly that text in the whole buffer, the cursor
    one place further, and the window one column wider than the text;
    nothing else changes. *)
Theorem handle_input_int_exact (n : nat) (p : NumberPrompt) (d : ascii)
    (z : Z) :
  int_mode p -> _focus p = WholeWindow ->
  0 <= cursor_position (_whole_buffer p)
       <= PyStr.len (text (_whole_buffer p)) ->
  (PyStr.take (Z.to_nat (cursor_position (_whole_buffer p)))
     (text (_whole_buffer p)) ++ String d ""
   ++ PyStr.drop (Z.to_nat (cursor_position (_whole_buffer p)))
        (text (_whole_buffer p)))%string = PyInt.to_string z ->
  int_clamp p z = z ->
  _handle_input (S (S n)) (String d "") p
  = Ret tt
      (with_width WholeBuffer (PyStr.len (PyInt.to_string z) + 1)
         (with_buffer WholeBuffer
            (mkBuffer (PyInt.to_string z)
               (cursor_position (_whole_buffer p) + 1)) p)).
Proof. apply input_int_exact. Qed.

(** The key [5] on a rendered prompt without bounds. *)
Lemma handle_input_int_exact_witness :
  _handle_input 2 "5"
    (mkNumberPrompt false None None (PInt 0) false (mkBuffer "0" 0)
       (mkBuffer "0" 0) 2 2 WholeWindow false "Invalid input")
  = Ret tt
      (mkNumberPrompt false None None (PInt 0) false (mkBuffer "50" 1)
         (mkBuffer "0" 0) 3 2 WholeWindow false "Invalid input").
Proof.
  apply (handle_input_int_exact 0
           (mkNumberPrompt false None None (PInt 0) false (mkBuffer "0" 0)
              (mkBuffer "0" 0) 2 2 WholeWindow false "Invalid input")
           "5"%char 50).
  - repeat split; reflexivity.
  - reflexivity.
  - cbn. lia.
  - reflexivity.
  - reflexivity.
Defined.

Lemma firstn_skipn_app {A : Type} (a b : list A) :
  firstn (List.length a) (a ++ b) = a /\ skipn (List.length a) (a ++ b) = b.
Proof. induction a as [|x a [IH1 IH2]]; cbn; split; congruence. Qed.

Lemma string_of_list_ascii_inj (s : string) (l : list ascii) :
  list_ascii_of_string s = l -> s = string_of_list_ascii l.
Proof. intros <-. symmetry. apply string_of_list_ascii_of_string. Qed.

Lemma len_string_of_list (l : list ascii) :
  PyStr.len (string_of_list_ascii l) = Z.of_nat (List.length l).
Proof. now rewrite len_list_ascii, list_ascii_of_string_of_list_ascii. Qed.

Section Typing.
Local Open Scope list_scope.

(** Typing on: the digits [pre] are in front of the "0" already, the
    cursor is between them and the "0". *)
Lemma typing_after (n : nat) (ds : list ascii) :
  forall (pre : list ascii) (p : NumberPrompt),
    _float p = false -> _min p = None -> _max p = None ->
    _focus p = WholeWindow ->
    _whole_buffer p
    = mkBuffer (string_of_list_ascii (pre ++ [ "0"%char ]))
        (Z.of_nat (List.length pre)) ->
    _whole_width p = Z.of_nat (List.length pre) + 2 ->
    Forall is_digit_prop (pre ++ ds) ->
    (pre ++ ds <> [] -> hd "0"%char (pre ++ ds) <> "0"%char) ->
    handle_all (S (S n)) (typing ds) p
    = Ret tt
        (with_width WholeBuffer (Z.of_nat (List.length (pre ++ ds)) + 2)
           (with_buffer WholeBuffer
              (mkBuffer (string_of_list_ascii (pre ++ ds ++ [ "0"%char ]))
                 (Z.of_nat (List.length (pre ++ ds)))) p)).
Proof.
  induction ds as [|d ds IH]; intros pre p Hf Hlo Hhi Ho Hw Hwd Hd Hhd.
  - cbn [typing map handle_all]. unfold ret. rewrite app_nil_r. cbn [app].
    rewrite <- Hw, <- Hwd. split_prompt p; reflexivity.
  - cbn [typing map handle_all]. fold (typing ds).
    set (cs := (pre ++ d :: [ "0"%char ])%list).
    assert (Hcs : Forall is_digit_prop cs).
    { subst cs. apply Forall_app in Hd as [Hpre Hds].
      inversion Hds as [|? ? Hdd _]; subst.
      apply Forall_app. split; [assumption|].
      constructor; [assumption|]. constructor; [reflexivity|constructor]. }
    assert (Hcs0 : hd "0"%char cs <> "0"%char).
    { subst cs. destruct pre as [|c pre'].
      - apply Hhd. discriminate.
      - cbn [app hd] in *. apply Hhd. discriminate. }
    assert (Hz : PyInt.to_string
                   (PyStr.digits_val 0 (map PyStr.digit_val cs))
                 = string_of_list_ascii cs).
    { apply to_string_digits; [assumption| |assumption].
      subst cs. now destruct pre. }
    set (z := PyStr.digits_val 0 (map PyStr.digit_val cs)) in *.
    assert (Hm : int_mode p) by (unfold int_mode; rewrite Hf, Hlo, Hhi; auto).
    unfold bind. cbn [handle].
    rewrite (input_int_exact n p d z Hm Ho).
    + set (p1 := with_width WholeBuffer (PyStr.len (PyInt.to_string z) + 1)
                   (with_buffer WholeBuffer
                      (mkBuffer (PyInt.to_string z)
                         (cursor_position (_whole_buffer p) + 1)) p)).
      rewrite (IH (pre ++ [d])%list p1).
      * f_equal. subst p1. rewrite <- !app_assoc. cbn [app].
        split_prompt p. reflexivity.
      * subst p1. split_prompt p. exact Hf.
      * subst p1. split_prompt p. exact Hlo.
      * subst p1. split_prompt p. exact Hhi.
      * subst p1. split_prompt p. exact Ho.
      * subst p1. rewrite Hz, Hw. cbn [cursor_position].
        subst cs. rewrite <- app_assoc. cbn [app].
        rewrite length_app. cbn [List.length].
        replace (Z.of_nat (List.length pre + 1))
          with (Z.of_nat (List.length pre) + 1) by lia.
        split_prompt p. reflexivity.
      * subst p1. rewrite Hz, len_string_of_list. subst cs.
        rewrite !length_app. cbn [List.length].
        split_prompt p. cbn. lia.
      * now rewrite <- app_assoc.
      * rewrite <- app_assoc. exact Hhd.
    + rewrite Hw. cbn [text cursor_position].
      rewrite len_string_of_list, length_app. cbn [List.length]. lia.
    + rewrite Hw. cbn [text cursor_position]. rewrite Hz, Nat2Z.id.
      apply string_of_list_ascii_inj.
      rewrite !list_ascii_of_string_app, list_ascii_of_take,
        list_ascii_of_drop, list_ascii_of_string_of_list_ascii.
      destruct (firstn_skipn_app pre [ "0"%char ]) as [-> ->].
      reflexivity.
    + unfold int_clamp. now rewrite Hlo, Hhi.
Qed.

(** Typing into a freshly rendered integer prompt without bounds: the
    first render leaves "0" with the cursor in front of it, so the digits
    typed go in front of that "0", which stays.  After the digits [ds]
    (the first of them not "0") the whole buffer holds [ds] followed by
    "0", the cursor is between them, and the value is ten times the
    number typed: the keys [4], [2] give 420. *)
Theorem typing_keeps_the_zero (n : nat) (p : NumberPrompt) (ds : list ascii) :
  _float p = false -> _min p = None -> _max p = None ->
  _focus p = WholeWindow ->
  _whole_buffer p = mkBuffer "0" 0 -> _whole_width p = 2 ->
  Forall is_digit_prop ds -> ds <> [] -> hd "0"%char ds <> "0"%char ->
  exists p',
    handle_all (S (S n)) (typing ds) p = Ret tt p'
    /\ _whole_buffer p'
       = mkBuffer (string_of_list_ascii (ds ++ [ "0"%char ]))
           (Z.of_nat (List.length ds))
    /\ value_get p'
       = Ret (PInt (10 * PyStr.digits_val 0 (map PyStr.digit_val ds))) p'.
Proof.
  intros Hf Hlo Hhi Ho Hw Hwd Hd Hne Hhd.
  rewrite (typing_after n ds [] p Hf Hlo Hhi Ho Hw Hwd Hd (fun _ => Hhd)).
  cbn [app]. eexists. split; [reflexivity|].
  split; [split_prompt p; reflexivity|].
  apply value_get_int_ok; [split_prompt p; exact Hf|].
  replace (text (_whole_buffer _))
    with (string_of_list_ascii (ds ++ [ "0"%char ]))
    by (split_prompt p; reflexivity).
  rewrite (int_of_digits _ (ds ++ [ "0"%char ])).
  - f_equal. rewrite map_app, digits_val_app. cbn [map].
    change (PyStr.digits_val ?a [?x]) with (10 * a + x).
    change (PyStr.digit_val "0") with 0. lia.
  - apply list_ascii_of_string_of_list_ascii.
  - apply Forall_app. split; [assumption|].
    constructor; [reflexivity|constructor].
  - now destruct ds.
Qed.

(** The keys [4], [2] on a rendered prompt without bounds. *)
Lemma typing_keeps_the_zero_witness :
  exists p',
    handle_all 2 [Input "4"; Input "2"]
      (mkNumberPrompt false None None (PInt 0) false (mkBuffer "0" 0)
         (mkBuffer "0" 0) 2 2 WholeWindow false "Invalid input")
    = Ret tt p'
    /\ _whole_buffer p' = mkBuffer "420" 2
    /\ value_get p' = Ret (PInt 420) p'.
Proof.
  apply (typing_keeps_the_zero 0
           (mkNumberPrompt false None None (PInt 0) false (mkBuffer "0" 0)
              (mkBuffer "0" 0) 2 2 WholeWindow false "Invalid input")
           [ "4"%char; "2"%char ]); try reflexivity.
  - repeat constructor.
  - discriminate.
  - discriminate.
Defined.

End Typing.
